(** * g-sorcery package database: a shallow embedding of [package_db.py]

    The development follows the Python module top-down:
    - JSON documents and the handful of Python operators applied to them;
    - a directory tree on disk together with the [os]/[shutil] calls used;
    - [FileJSON], [hash_file], [copy_all];
    - the [PackageDB] class, method by method;
    - the properties of these methods.

    Python dictionaries are finite maps ([gmap]); the iteration order of a
    dictionary is therefore the order of [map_to_list] and not the insertion
    order, and no statement below depends on it.  Exceptions leave every
    effect performed before the [raise] in place, so a computation returns
    its outcome together with the state it reached. *)

From Stdlib Require Import Ascii.
From stdpp Require Import gmap strings list fin_maps countable.

Set Default Proof Using "Type*".
Set Warnings "-clear-no-such-hyp".
Open Scope string_scope.
Open Scope list_scope.

(** ** JSON documents *)

(** What [json.load] can return and [json.dump] can take (floats left out). *)
#[warnings="-register-all"]
Inductive json :=
| JNull
| JBool (b : bool)
| JNum (n : Z)
| JStr (s : string)
| JList (l : list json)
| JDict (d : gmap string json).

(** [bool(v)]: the truth value Python gives a document. *)
Definition py_truthy (v : json) : bool :=
  match v with
  | JNull => false
  | JBool b => b
  | JNum n => negb (n =? 0)%Z
  | JStr s => negb (String.eqb s "")
  | JList l => match l with [] => false | _ => true end
  | JDict d => negb (bool_decide (d = ∅))
  end.

Definition is_str (key : string) (v : json) : bool :=
  match v with JStr s => String.eqb s key | _ => false end.

(** The keys of a dictionary, as [list(d)] lists them. *)
Definition keys {A} (d : gmap string A) : list string := (map_to_list d).*1.

Fixpoint chars (s : string) : list string :=
  match s with
  | EmptyString => []
  | String a s' => String a EmptyString :: chars s'
  end.

(** ** Exceptions and the state monad of a method call *)

Inductive os_error :=
| FileNotFoundError | NotADirectoryError | IsADirectoryError | FileExistsError.

Inductive exn :=
| KeyError                 (* [raise KeyError], or a missing dictionary key *)
| TypeError
| AttributeError
| JSONDecodeError
| OSError (e : os_error)
| Exception (msg : string) (* [raise Exception(msg)] *)
| OutsideModel.            (* a path this model does not describe, see [plain_name] *)

Inductive outcome (A : Type) :=
| Return (a : A)
| Raise (e : exn).
Arguments Return {A} a.
Arguments Raise {A} e.

Definition is_Return {A} (o : outcome A) : bool :=
  match o with Return _ => true | Raise _ => false end.

(** [key in content] *)
Definition py_contains (key : string) (content : json) : outcome bool :=
  match content with
  | JDict d => Return (bool_decide (is_Some (d !! key)))
  | JList l => Return (existsb (is_str key) l)
  | JStr s => Return (bool_decide (is_Some (String.index 0 key s)))
  | _ => Raise TypeError
  end.

(** [content[key]] for a string [key] *)
Definition py_getitem (content : json) (key : string) : outcome json :=
  match content with
  | JDict d => match d !! key with Some v => Return v | None => Raise KeyError end
  | _ => Raise TypeError
  end.

(** [content[key] = v] for a string [key] *)
Definition py_setitem (content : json) (key : string) (v : json) : outcome json :=
  match content with
  | JDict d => Return (JDict (<[key := v]> d))
  | _ => Raise TypeError
  end.

(** [for x in content], [list(content)] *)
Definition py_iter (content : json) : outcome (list json) :=
  match content with
  | JDict d => Return (JStr <$> keys d)
  | JList l => Return l
  | JStr s => Return (JStr <$> chars s)
  | _ => Raise TypeError
  end.

(** A value used where Python needs a [str] ([os.path.join], [+] with a
    string literal). *)
Definition py_str (v : json) : outcome string :=
  match v with JStr s => Return s | _ => Raise TypeError end.

(** ** The directory tree *)

(** A path is the list of its components below the database directory;
    [[]] is the directory itself. *)
Abbreviation path := (list string) (only parsing).

Inductive node :=
| File (data : string)
| Dir.

Abbreviation fs := (gmap (list string) node) (only parsing).

Definition is_file (n : option node) : bool :=
  match n with Some (File _) => true | _ => false end.
Definition is_dir (n : option node) : bool :=
  match n with Some Dir => true | _ => false end.

(** [self.db] *)
Record tree := Tree {
  info : json;
  categories : json;
  packages : gmap string (gmap string (gmap string json));
}.

(** The attributes of a [PackageDB] instance; [self.directory] is the root
    of [disk] below. *)
Record PackageDB := Obj {
  repo_uri : json;
  db_uri : json;
  db : tree;
}.

(** [Package = collections.namedtuple("Package", "category name version")] *)
Record Package := Pkg {
  category : string;
  name : string;
  version : string;
}.

Global Instance Package_eq_dec : EqDecision Package.
Proof. solve_decision. Defined.

(** What a method call can read and change: the directory and the instance. *)
Record world := World {
  disk : fs;
  self : PackageDB;
}.

Definition M (A : Type) : Type := world → outcome A * world.

Definition ret {A} (a : A) : M A := λ w, (Return a, w).
Definition raise {A} (e : exn) : M A := λ w, (Raise e, w).
Definition bind {A B} (c : M A) (k : A → M B) : M B :=
  λ w, match c w with
       | (Return a, w') => k a w'
       | (Raise e, w') => (Raise e, w')
       end.
Definition lift {A} (o : outcome A) : M A := λ w, (o, w).

Global Instance M_ret : MRet M := @ret.
Global Instance M_bind : MBind M := λ A B k c, bind c k.

Definition get_disk : M fs := λ w, (Return (disk w), w).
Definition put_disk (d : fs) : M unit := λ w, (Return (), World d (self w)).
Definition get_self : M PackageDB := λ w, (Return (self w), w).
Definition put_self (o : PackageDB) : M unit := λ w, (Return (), World (disk w) o).
Definition get_db : M tree := λ w, (Return (db (self w)), w).
Definition put_db (t : tree) : M unit :=
  λ w, (Return (), World (disk w) (Obj (repo_uri (self w)) (db_uri (self w)) t)).

(** [for x in l: body x] *)
Fixpoint for_each {A} (l : list A) (body : A → M unit) : M unit :=
  match l with
  | [] => mret ()
  | x :: l' => body x;; for_each l' body
  end.

(** ** The in-memory tree: [add_category] ... [get_package_description] *)

(** The default argument [description={}] is one shared dictionary object;
    no method of the class updates a description in place, so passing the
    value is the same as passing the reference. *)
Definition add_category (category : string) (description : json) : M unit :=
  t ← get_db;
  cats ← lift (py_setitem (categories t) category description);
  put_db (Tree (info t) cats (packages t));;
  t ← get_db;
  put_db (Tree (info t) (categories t) (<[category := ∅]> (packages t))).

Definition add_package (package : Package) (description : json) : M unit :=
  let category := category package in
  let name := name package in
  let version := version package in
  t ← get_db;
  match packages t !! category with
  | None => raise (Exception ("Non-existent category: " +:+ category))
  | Some names =>
      let versions := default ∅ (names !! name) in
      put_db (Tree (info t) (categories t)
                (<[category := <[name := <[version := description]> versions]> names]>
                   (packages t)))
  end.

Definition list_categories : M (list json) :=
  t ← get_db; lift (py_iter (categories t)).

Definition list_package_names (category : string) : M (list string) :=
  t ← get_db;
  match packages t !! category with
  | None => raise (Exception ("No such category: " +:+ category))
  | Some names => mret (keys names)
  end.

Definition list_package_versions (category name : string) : M (list string) :=
  t ← get_db;
  match packages t !! category with
  | None => raise (Exception ("No such category: " +:+ category))
  | Some names =>
      match names !! name with
      | None => raise (Exception ("No such package: " +:+ name))
      | Some versions => mret (keys versions)
      end
  end.

Definition list_all_packages : M (list Package) :=
  t ← get_db;
  mret (category ← keys (packages t);
        name ← keys (default ∅ (packages t !! category));
        version ← keys (default ∅ (default ∅ (packages t !! category) !! name));
        [Pkg category name version]).

Definition get_package_description (package : Package) : M json :=
  t ← get_db;
  match packages t !! category package with
  | None => raise KeyError
  | Some names =>
      match names !! name package with
      | None => raise KeyError
      | Some versions =>
          match versions !! version package with
          | None => raise KeyError
          | Some d => mret d
          end
      end
  end.

(** ** Paths and the [os] / [shutil] calls *)

(** A name that is exactly one path component: not empty, not [.] or [..],
    without [/] and without NUL.  Joining any other string to a path is left
    to [OutsideModel]. *)
Definition plain_char (a : Ascii.ascii) : bool :=
  negb (Ascii.eqb a "/"%char) && negb (Ascii.eqb a "000"%char).

Definition plain_name (s : string) : bool :=
  negb (String.eqb s "") && negb (String.eqb s ".") && negb (String.eqb s "..")
  && forallb plain_char (String.list_ascii_of_string s).

(** [os.path.join(d, name)] *)
Definition path_join (d : path) (name : string) : outcome path :=
  if plain_name name then Return (d ++ [name]) else Raise OutsideModel.

(** The components of a relative path written with [/]. *)
Fixpoint split_slash (cur : string) (s : string) : list string :=
  match s with
  | EmptyString => [cur]
  | String a s' =>
      if Ascii.eqb a "/"%char then cur :: split_slash "" s'
      else split_slash (cur +:+ String a "") s'
  end.

(** [os.path.join(self.directory, name)] for a manifest key [name]. *)
Definition resolve (name : string) : outcome path :=
  let p := split_slash "" name in
  if forallb plain_name p then Return p else Raise OutsideModel.

(** The key under which [manifest] records the file at [p]:
    [os.path.join(root[len(self.directory)+1:], f)]. *)
Definition rel_key (p : path) : outcome string :=
  if forallb plain_name p then Return (String.concat "/" p) else Raise OutsideModel.

Fixpoint proper_prefixes (p : path) : list path :=
  match p with
  | [] => []
  | x :: p' => [] :: (cons x <$> proper_prefixes p')
  end.

Definition parent (p : path) : path := removelast p.

(** [below p q] is what remains of [q] below [p], when [q] is [p] or lies
    under it. *)
Fixpoint below (p q : path) : option path :=
  match p, q with
  | [], _ => Some q
  | x :: p', y :: q' => if bool_decide (x = y) then below p' q' else None
  | _ :: _, [] => None
  end.

(** The error of reaching for a path that is not there. *)
Definition missing (p : path) (d : fs) : os_error :=
  if existsb (λ q, is_file (d !! q)) (proper_prefixes p)
  then NotADirectoryError else FileNotFoundError.

(** The directory a path lies in; the parent of the database directory
    always exists. *)
Definition parent_node (p : path) (d : fs) : option node :=
  match p with
  | [] => Some Dir
  | _ => d !! parent p
  end.

(** [os.mkdir(p)] *)
Definition mkdir (p : path) (d : fs) : outcome fs :=
  match d !! p with
  | Some _ => Raise (OSError FileExistsError)
  | None =>
      match parent_node p d with
      | Some Dir => Return (<[p := Dir]> d)
      | Some (File _) => Raise (OSError NotADirectoryError)
      | None => Raise (OSError (missing p d))
      end
  end.

(** [os.makedirs(p)], by recursion on the reversed path: the parent is
    created first when it does not exist, then [p] itself. *)
Fixpoint makedirs_rev (rp : list string) (d : fs) : outcome fs :=
  match rp with
  | [] => mkdir [] d
  | x :: rq =>
      match (if bool_decide (is_Some (d !! rev rq)) then Return d else makedirs_rev rq d) with
      | Return d' => mkdir (rev rq ++ [x]) d'
      | Raise e => Raise e
      end
  end.

Definition makedirs (p : path) (d : fs) : outcome fs := makedirs_rev (rev p) d.

(** [with open(p, 'w') as f: f.write(data)] *)
Definition open_w (p : path) (data : string) (d : fs) : outcome fs :=
  match d !! p with
  | Some Dir => Raise (OSError IsADirectoryError)
  | _ =>
      match parent_node p d with
      | Some Dir => Return (<[p := File data]> d)
      | Some (File _) => Raise (OSError NotADirectoryError)
      | None => Raise (OSError (missing p d))
      end
  end.

(** [with open(p, 'r') as f: f.read()] *)
Definition read_file (p : path) (d : fs) : outcome string :=
  match d !! p with
  | Some (File data) => Return data
  | Some Dir => Raise (OSError IsADirectoryError)
  | None => Raise (OSError (missing p d))
  end.

Global Instance is_file_node_dec (n : node) : Decision (is_file (Some n) = true).
Proof. apply _. Defined.

(** [shutil.rmtree(p)] *)
Definition rmtree (p : path) (d : fs) : outcome fs :=
  match d !! p with
  | Some Dir => Return (filter (λ e, below p e.1 = None) d)
  | Some (File _) => Raise (OSError NotADirectoryError)
  | None => Raise (OSError (missing p d))
  end.

(** The regular files [os.walk(p)] meets below the directory [p]. *)
Definition walk_files (p : path) (d : fs) : list path :=
  (map_to_list (filter (λ e, is_Some (below p e.1) ∧ is_file (Some e.2) = true) d)).*1.

(** [os.listdir(p)] *)
Definition listdir (p : path) (d : fs) : outcome (list string) :=
  match d !! p with
  | Some Dir =>
      Return (omap (λ q, match below p q with
                         | Some [x] => Some x
                         | _ => None
                         end) (map_to_list d).*1)
  | Some (File _) => Raise (OSError NotADirectoryError)
  | None => Raise (OSError (missing p d))
  end.

Global Instance outcome_ret : MRet outcome := @Return.
Global Instance outcome_bind : MBind outcome :=
  λ A B k o, match o with Return a => k a | Raise e => Raise e end.

(** [shutil.copytree(src_name, dst_name)]: the destination must not exist. *)
Definition copytree (src : fs) (sp dp : path) (dst : fs) : outcome fs :=
  dst' ← makedirs dp dst;
  mret (foldr (λ e acc, match below sp e.1 with
                        | Some r => <[dp ++ r := e.2]> acc
                        | None => acc
                        end) dst' (map_to_list src)).

(** [shutil.copy2(src_name, dst_name)]; into [dst_name] when that is a
    directory. *)
Definition copy2 (src : fs) (sp dp : path) (dst : fs) : outcome fs :=
  data ← read_file sp src;
  let target := if is_dir (dst !! dp) then dp ++ [List.last sp ""] else dp in
  open_w target data dst.

Fixpoint copy_entries (src : fs) (sp dp : path) (names : list string) (dst : fs)
  : outcome unit * fs :=
  match names with
  | [] => (Return (), dst)
  | f_name :: rest =>
      let src_name := sp ++ [f_name] in
      let dst_name := dp ++ [f_name] in
      match (if is_dir (src !! src_name)
             then copytree src src_name dst_name dst
             else copy2 src src_name dst_name dst) with
      | Return dst' => copy_entries src sp dp rest dst'
      | Raise e => (Raise e, dst)
      end
  end.

(** [copy_all(src, dst)], from the directory [sp] of one tree into the
    directory [dp] of another. *)
Definition copy_all (src : fs) (sp dp : path) (dst : fs) : outcome unit * fs :=
  match listdir sp src with
  | Return names => copy_entries src sp dp names dst
  | Raise e => (Raise e, dst)
  end.

(** ** Library interfaces: [json] and [hashlib] *)

(** [json.dump(_, f, indent=2, sort_keys=True)] and [json.load]: loading what
    was dumped gives the document back. *)
Class JsonCodec := {
  json_dump : json → string;
  json_load : string → option json;
  json_load_dump : ∀ v, json_load (json_dump v) = Some v;
}.

(** A [hashlib] hasher object: [hashlib.md5()], [update], [hexdigest]. *)
Class Hasher := {
  hstate : Type;
  md5_new : hstate;
  md5_update : hstate → string → hstate;
  md5_hexdigest : hstate → string;
}.

(** The successive results of [f.read(blocksize)], the final empty one left
    out: [k] bytes are still missing from the block collected in [cur]. *)
Fixpoint blocks (blocksize : N) (cur : string) (k : N) (s : string) : list string :=
  match s with
  | EmptyString => if String.eqb cur "" then [] else [cur]
  | String a s' =>
      if (k <=? 1)%N then (cur +:+ String a "") :: blocks blocksize "" blocksize s'
      else blocks blocksize (cur +:+ String a "") (N.pred k) s'
  end.

Section Model.
Context `{!JsonCodec, !Hasher}.

(** What [hash_file] returns for a file holding [data]. *)
Definition file_digest (data : string) : string :=
  md5_hexdigest (foldl md5_update md5_new (blocks 65536 "" 65536 data)).

Definition disk_op (f : fs → outcome fs) : M unit :=
  d ← get_disk; d' ← lift (f d); put_disk d'.

(** [hash_file(name, hashlib.md5())] *)
Definition hash_file (p : path) : M string :=
  d ← get_disk; data ← lift (read_file p d); mret (file_digest data).

(** ** [FileJSON] *)

Record FileJSON := {
  directory : path;
  fpath : path;
  mandatories : list string;
}.

Definition FileJSON_new (directory : path) (name : string) (mandatories : list string)
  : outcome FileJSON :=
  p ← path_join directory name;
  mret {| directory := directory; fpath := p; mandatories := mandatories |}.

(** The content written for a file that is not there: [content[key] = ""]
    for every mandatory key. *)
Definition default_content (mandatories : list string) : gmap string json :=
  foldl (λ content key, <[key := JStr ""]> content) ∅ mandatories.

Definition check_mandatories (f : FileJSON) (content : json) : M unit :=
  for_each (mandatories f) (λ key,
    b ← lift (py_contains key content);
    if negb b then raise KeyError else mret ()).

Definition ensure_directory (f : FileJSON) : M unit :=
  d ← get_disk;
  if negb (bool_decide (is_Some (d !! directory f)))
  then disk_op (makedirs (directory f))
  else mret ().

Definition FileJSON_read (f : FileJSON) : M json :=
  ensure_directory f;;
  d ← get_disk;
  if negb (is_file (d !! fpath f)) then
    let content := JDict (default_content (mandatories f)) in
    disk_op (open_w (fpath f) (json_dump content));;
    mret content
  else
    data ← lift (read_file (fpath f) d);
    content ← match json_load data with
              | Some v => mret v
              | None => raise JSONDecodeError
              end;
    check_mandatories f content;;
    mret content.

Definition FileJSON_write (f : FileJSON) (content : json) : M unit :=
  check_mandatories f content;;
  ensure_directory f;;
  disk_op (open_w (fpath f) (json_dump content)).

(** ** [PackageDB] *)

Definition URI_NAME := "uri.json".
Definition INFO_NAME := "info.json".
Definition CATEGORIES_NAME := "categories.json".
Definition PACKAGES_NAME := "packages.json".
Definition VERSIONS_NAME := "versions.json".
Definition MANIFEST_NAME := "manifest.json".

Definition set_repo_uri (v : json) : M unit :=
  o ← get_self; put_self (Obj v (db_uri o) (db o)).
Definition set_db_uri (v : json) : M unit :=
  o ← get_self; put_self (Obj (repo_uri o) v (db o)).

Definition reset_uri (repo_uri_arg db_uri_arg : json) : M unit :=
  uri_f ← lift (FileJSON_new [] URI_NAME ["repo_uri"; "db_uri"]);
  uri ← FileJSON_read uri_f;
  (if negb (py_truthy repo_uri_arg)
   then v ← lift (py_getitem uri "repo_uri"); set_repo_uri v
   else set_repo_uri repo_uri_arg);;
  (if negb (py_truthy db_uri_arg)
   then v ← lift (py_getitem uri "db_uri"); set_db_uri v
   else set_db_uri db_uri_arg);;
  o ← get_self;
  uri ← lift (py_setitem uri "repo_uri" (repo_uri o));
  uri ← lift (py_setitem uri "db_uri" (db_uri o));
  FileJSON_write uri_f uri.

Definition reset_db : M unit :=
  put_db (Tree (JDict ∅) (JDict ∅) ∅).

(** [PackageDB.__init__(directory, repo_uri, db_uri)] *)
Definition PackageDB_init (repo_uri_arg db_uri_arg : json) : M unit :=
  reset_uri repo_uri_arg db_uri_arg;;
  reset_db.

(** An instance before [__init__] has set its attributes. *)
Definition blank : PackageDB := Obj JNull JNull (Tree JNull JNull ∅).

(** [PackageDB(directory, repo_uri, db_uri)] over the directory tree [d]. *)
Definition PackageDB_new (d : fs) (repo_uri_arg db_uri_arg : json) : outcome unit * world :=
  PackageDB_init repo_uri_arg db_uri_arg (World d blank).

Definition clean : M unit :=
  disk_op (rmtree []);;
  o ← get_self;
  reset_uri (repo_uri o) (db_uri o);;
  reset_db.

(** [for x in l: acc = body acc x], for a loop that builds a local value. *)
Fixpoint fold_each {A B} (l : list A) (acc : B) (body : B → A → M B) : M B :=
  match l with
  | [] => mret acc
  | x :: l' => acc' ← body acc x; fold_each l' acc' body
  end.

Definition fixed_names : list string := [INFO_NAME; CATEGORIES_NAME; URI_NAME].

(** [manifest[key] = hash_file(path)] for one regular file found by the walk. *)
Definition manifest_file (manifest : gmap string json) (p : path) : M (gmap string json) :=
  key ← lift (rel_key p);
  h ← hash_file p;
  mret (<[key := JStr h]> manifest).

Definition manifest_category (manifest : gmap string json) (category : json)
  : M (gmap string json) :=
  category ← lift (py_str category);
  category_path ← lift (path_join [] category);
  d ← get_disk;
  if negb (is_dir (d !! category_path))
  then raise (Exception ("Empty category: " +:+ category))
  else fold_each (walk_files category_path d) manifest manifest_file.

Definition manifest : M unit :=
  categories_f ← lift (FileJSON_new [] CATEGORIES_NAME []);
  categories ← FileJSON_read categories_f;
  manifest ← fold_each fixed_names ∅ (λ manifest name,
    p ← lift (path_join [] name);
    h ← hash_file p;
    mret (<[name := JStr h]> manifest));
  categories ← lift (py_iter categories);
  manifest ← fold_each categories manifest manifest_category;
  m ← lift (FileJSON_new [] MANIFEST_NAME []);
  FileJSON_write m (JDict manifest).

(** [manifest.items()] *)
Definition py_items (content : json) : outcome (list (string * json)) :=
  match content with
  | JDict d => Return (map_to_list d)
  | _ => Raise AttributeError
  end.

Definition check_entry (acc : bool * list string) (item : string * json)
  : M (bool * list string) :=
  p ← lift (resolve item.1);
  h ← hash_file p;
  if negb (is_str h item.2) then mret (false, acc.2 ++ [item.1]) else mret acc.

Definition check_manifest : M (bool * list string) :=
  m ← lift (FileJSON_new [] MANIFEST_NAME []);
  manifest ← FileJSON_read m;
  for_each fixed_names (λ name,
    b ← lift (py_contains name manifest);
    if negb b then raise (Exception ("Bad manifest: no " +:+ name +:+ " entry"))
    else mret ());;
  items ← lift (py_items manifest);
  fold_each items (true, []) check_entry.

Definition write_version (category package : string) (item : string * json) : M unit :=
  directory ← lift (d ← path_join [] category; path_join d package);
  f ← lift (FileJSON_new directory (item.1 +:+ ".json") []);
  FileJSON_write f item.2.

Definition write_package (category : string) (item : string * gmap string json) : M unit :=
  for_each (map_to_list item.2) (write_version category item.1);;
  directory ← lift (d ← path_join [] category; path_join d item.1);
  f ← lift (FileJSON_new directory VERSIONS_NAME []);
  FileJSON_write f (JList (JStr <$> keys item.2)).

Definition write_category (category : json) : M unit :=
  category ← lift (py_str category);
  t ← get_db;
  match packages t !! category with
  | None => raise (Exception ("Empty category: " +:+ category))
  | Some names =>
      for_each (map_to_list names) (write_package category);;
      directory ← lift (path_join [] category);
      f ← lift (FileJSON_new directory PACKAGES_NAME []);
      FileJSON_write f (JList (JStr <$> keys names))
  end.

(** [PackageDB.write]; the [additional_write*] methods of the class do
    nothing. *)
Definition write : M unit :=
  info_f ← lift (FileJSON_new [] INFO_NAME []);
  categories_f ← lift (FileJSON_new [] CATEGORIES_NAME []);
  t ← get_db;
  FileJSON_write info_f (info t);;
  FileJSON_write categories_f (categories t);;
  categories ← lift (py_iter (categories t));
  for_each categories write_category.

(** [str(errors)] for a list of strings (quotes inside a string aside). *)
Definition str_list (l : list string) : string :=
  "[" +:+ String.concat ", " ((λ s, "'" +:+ s +:+ "'") <$> l) +:+ "]".

Definition update_packages
  (f : gmap string (gmap string (gmap string json)) → gmap string (gmap string (gmap string json)))
  : M unit :=
  t ← get_db; put_db (Tree (info t) (categories t) (f (packages t))).

Definition read_version (category name : string) (package_path : path) (version : json)
  : M unit :=
  version ← lift (py_str version);
  f ← lift (FileJSON_new package_path (version +:+ ".json") []);
  description ← FileJSON_read f;
  update_packages (λ pk,
    let names := default ∅ (pk !! category) in
    <[category := <[name := <[version := description]> (default ∅ (names !! name))]> names]> pk).

Definition read_package (category : string) (category_path : path) (name : json) : M unit :=
  name ← lift (py_str name);
  package_path ← lift (path_join category_path name);
  d ← get_disk;
  if negb (is_dir (d !! category_path))
  then raise (Exception ("Empty package: " +:+ category +:+ "/" +:+ name))
  else
    f ← lift (FileJSON_new package_path VERSIONS_NAME []);
    versions ← FileJSON_read f;
    if negb (py_truthy versions)
    then raise (Exception ("Empty package: " +:+ category +:+ "/" +:+ name))
    else
      update_packages (λ pk, <[category := <[name := ∅]> (default ∅ (pk !! category))]> pk);;
      versions ← lift (py_iter versions);
      for_each versions (read_version category name package_path).

Definition read_category (category : json) : M unit :=
  category ← lift (py_str category);
  category_path ← lift (path_join [] category);
  d ← get_disk;
  if negb (is_dir (d !! category_path))
  then raise (Exception ("Empty category: " +:+ category))
  else
    f ← lift (FileJSON_new category_path PACKAGES_NAME []);
    packages ← FileJSON_read f;
    if negb (py_truthy packages)
    then raise (Exception ("Empty category: " +:+ category))
    else
      update_packages (λ pk, <[category := ∅]> pk);;
      names ← lift (py_iter packages);
      for_each names (read_package category category_path).

(** [PackageDB.read]; the [additional_read*] methods of the class do nothing. *)
Definition read : M unit :=
  r ← check_manifest;
  if negb r.1 then raise (Exception ("Manifest error: " +:+ str_list r.2))
  else
    info_f ← lift (FileJSON_new [] INFO_NAME []);
    categories_f ← lift (FileJSON_new [] CATEGORIES_NAME []);
    i ← FileJSON_read info_f;
    (t ← get_db; put_db (Tree i (categories t) (packages t)));;
    c ← FileJSON_read categories_f;
    (t ← get_db; put_db (Tree (info t) c (packages t)));;
    categories ← lift (py_iter c);
    for_each categories read_category.

(** [PackageDB.generate]; [generate_tree] is the method a subclass
    provides, [pass] in the class itself. *)
Definition generate (generate_tree : M unit) (repo_uri_arg : json) : M unit :=
  (if py_truthy repo_uri_arg then set_repo_uri repo_uri_arg else mret ());;
  clean;;
  generate_tree;;
  write;;
  manifest.

Definition PackageDB_generate_tree : M unit := mret ().

(** *** [sync] *)

(** What [wget] and [tarfile] leave behind for a URI: a failed download, a
    failed extraction, or the content of the directory extracted into. *)
Inductive fetched :=
| WgetFailed
| ExtractFailed (e : exn)
| Extracted (temp_dir : fs).

(** [bool(t)] of a pair: a tuple of two elements is never empty. *)
Definition tuple_truthy {A B} (t : A * B) : bool := true.

(** The loop over [os.listdir(temp_dir.name)]: every directory at the top of
    the extracted tree is copied into the staging directory. *)
Fixpoint stage_dirs (temp_dir : fs) (names : list string) (tempdb_dir : fs)
  : outcome unit * fs :=
  match names with
  | [] => (Return (), tempdb_dir)
  | d_name :: rest =>
      if negb (is_dir (temp_dir !! [d_name])) then stage_dirs temp_dir rest tempdb_dir
      else
        match copy_all temp_dir [d_name] [] tempdb_dir with
        | (Return _, tempdb_dir') => stage_dirs temp_dir rest tempdb_dir'
        | (Raise e, tempdb_dir') => (Raise e, tempdb_dir')
        end
  end.

(** [tempdb = PackageDB(tempdb_dir.name)] over a new temporary directory,
    followed by the staging loop; the result is the staged database. *)
Definition stage (temp_dir : fs) : outcome world :=
  match PackageDB_new {[ [] := Dir ]} (JStr "") (JStr "") with
  | (Raise e, _) => Raise e
  | (Return _, tempdb) =>
      names ← listdir [] temp_dir;
      match stage_dirs temp_dir names (disk tempdb) with
      | (Return _, staged) => Return (World staged (self tempdb))
      | (Raise e, _) => Raise e
      end
  end.

(** [PackageDB.sync]; [get_real_db_uri] is the method looked up on the
    instance, and [remote] what the network serves. *)
Definition sync (get_real_db_uri : PackageDB → outcome json) (remote : string → fetched)
    (db_uri_arg : json) : M unit :=
  (if py_truthy db_uri_arg then set_db_uri db_uri_arg else mret ());;
  clean;;
  o ← get_self;
  real_db_uri ← lift (get_real_db_uri o);
  real_db_uri ← lift (py_str real_db_uri);
  match remote real_db_uri with
  | WgetFailed => raise (Exception ("sync failed: " +:+ real_db_uri))
  | ExtractFailed e => raise e
  | Extracted temp_dir =>
      tempdb ← lift (stage temp_dir);
      match check_manifest tempdb with
      | (Raise e, _) => raise e
      | (Return r, tempdb) =>
          if negb (tuple_truthy r) then raise (Exception "Manifest check failed.")
          else
            clean;;
            (λ w, let '(o, d) := copy_all (disk tempdb) [] [] (disk w) in
                  (o, World d (self w)));;
            r ← check_manifest;
            if negb (tuple_truthy r)
            then raise (Exception "Manifest check failed, db inconsistent.")
            else read
      end
  end.

(** [def get_real_db_uri(): return self.db_uri] takes no argument, so the
    call [self.get_real_db_uri()] passes one too many. *)
Definition PackageDB_get_real_db_uri (o : PackageDB) : outcome json := Raise TypeError.

(** The same method with the missing [self] parameter, as a subclass would
    define it. *)
Definition stored_db_uri (o : PackageDB) : outcome json := Return (db_uri o).

End Model.

(** ** Sequences of calls that build a tree *)

Inductive op :=
| AddCategory (category : string) (description : json)
| AddPackage (package : Package) (description : json).

Definition call (o : op) : M unit :=
  match o with
  | AddCategory c d => add_category c d
  | AddPackage p d => add_package p d
  end.

(** The state after a caller has made the calls of [l] in order, going on
    after a call that raised. *)
Definition calls (l : list op) (w : world) : world :=
  foldl (λ w o, (call o w).2) w l.

Definition registered (c : string) (l : list op) : Prop :=
  ∃ d, AddCategory c d ∈ l.

(** [self.db['packages'][category][name][version]], when it is there. *)
Definition record_at (t : tree) (p : Package) : option json :=
  names ← packages t !! category p;
  versions ← names !! name p;
  versions !! version p.

(** [self.db] as [reset_db] leaves it. *)
Definition empty_tree : tree := Tree (JDict ∅) (JDict ∅) ∅.

(** A directory tree as a file system holds it: whatever lies above an
    entry is a directory. *)
Definition fs_wf (d : fs) : Prop :=
  ∀ p q n, d !! p = Some n → q `prefix_of` p → q ≠ p → d !! q = Some Dir.

(** * Properties *)

(** ** The in-memory tree *)

Lemma calls_snoc l o w : calls (l ++ [o]) w = (call o (calls l w)).2.
Proof. unfold calls. by rewrite foldl_app. Qed.

Lemma add_category_dict c d w cats :
  categories (db (self w)) = JDict cats →
  add_category c d w =
    (Return (), World (disk w) (Obj (repo_uri (self w)) (db_uri (self w))
       (Tree (info (db (self w))) (JDict (<[c := d]> cats))
          (<[c := ∅]> (packages (db (self w))))))).
Proof.
  intros Hc. unfold add_category, get_db, put_db, lift, mbind, M_bind, bind.
  cbn. by rewrite Hc.
Qed.

Lemma add_package_missing p rec w :
  packages (db (self w)) !! category p = None →
  add_package p rec w =
    (Raise (Exception ("Non-existent category: " +:+ category p)), w).
Proof.
  intros Hc. unfold add_package, get_db, mbind, M_bind, bind. cbn. by rewrite Hc.
Qed.

Lemma add_package_present p rec w names :
  packages (db (self w)) !! category p = Some names →
  add_package p rec w =
    (Return (), World (disk w) (Obj (repo_uri (self w)) (db_uri (self w))
       (Tree (info (db (self w))) (categories (db (self w)))
          (<[category p :=
               <[name p := <[version p := rec]> (default ∅ (names !! name p))]> names]>
             (packages (db (self w))))))).
Proof.
  intros Hc. unfold add_package, get_db, put_db, mbind, M_bind, bind. cbn. by rewrite Hc.
Qed.

(** Every tree reached from an empty one keeps its categories in a
    dictionary whose keys are those of [packages]. *)
Definition tree_shape (t : tree) : Prop :=
  ∃ cats, categories t = JDict cats ∧ dom cats = dom (packages t).

Lemma call_shape o w : tree_shape (db (self w)) → tree_shape (db (self (call o w).2)).
Proof.
  intros (cats & Hc & Hdom). destruct o as [c d|p d]; simpl.
  - rewrite (add_category_dict _ _ _ _ Hc). cbn.
    exists (<[c := d]> cats). split; [done|]. cbn. rewrite !dom_insert_L. by rewrite Hdom.
  - destruct (packages (db (self w)) !! category p) as [names|] eqn:Hp.
    + rewrite (add_package_present _ _ _ _ Hp). cbn.
      exists cats. split; [done|]. simpl (packages _). rewrite dom_insert_L, Hdom.
      apply elem_of_dom_2 in Hp. set_solver.
    + rewrite (add_package_missing _ _ _ Hp). by exists cats.
Qed.

Lemma calls_shape l w : tree_shape (db (self w)) → tree_shape (db (self (calls l w))).
Proof.
  intros Hw. induction l as [|o l IH] using rev_ind; [done|].
  rewrite calls_snoc. by apply call_shape.
Qed.

Lemma empty_tree_shape : tree_shape empty_tree.
Proof. exists ∅. split; [done|]. by rewrite !dom_empty_L. Qed.

Lemma call_dom o w :
  tree_shape (db (self w)) →
  dom (packages (db (self (call o w).2))) =
    match o with
    | AddCategory c _ => {[c]} ∪ dom (packages (db (self w)))
    | AddPackage _ _ => dom (packages (db (self w)))
    end.
Proof.
  intros (cats & Hc & Hdom). destruct o as [c d|p d]; simpl.
  - rewrite (add_category_dict _ _ _ _ Hc). cbn. by rewrite dom_insert_L.
  - destruct (packages (db (self w)) !! category p) as [names|] eqn:Hp.
    + rewrite (add_package_present _ _ _ _ Hp). cbn. rewrite dom_insert_L.
      apply elem_of_dom_2 in Hp. set_solver.
    + by rewrite (add_package_missing _ _ _ Hp).
Qed.

Lemma registered_dom l w c :
  db (self w) = empty_tree →
  c ∈ dom (packages (db (self (calls l w)))) ↔ registered c l.
Proof.
  intros Hw. induction l as [|o l IH] using rev_ind.
  - simpl. rewrite Hw. simpl. rewrite dom_empty_L. split; [set_solver|].
    intros [d Hd]. by apply elem_of_nil in Hd.
  - rewrite calls_snoc, call_dom by (apply calls_shape; rewrite Hw; apply empty_tree_shape).
    unfold registered in *. destruct o as [c' d'|p' d'].
    + rewrite elem_of_union, elem_of_singleton, IH. split.
      * intros [->|[d Hd]]; [exists d'|exists d]; set_solver.
      * intros [d Hd]. apply elem_of_app in Hd as [Hd|Hd]; [right; by exists d|].
        apply list_elem_of_singleton in Hd. left. congruence.
    + rewrite IH. split; intros [d Hd]; exists d; [set_solver|].
      apply elem_of_app in Hd as [Hd|Hd]; [done|].
      by apply list_elem_of_singleton in Hd.
Qed.

Lemma record_at_insert t p q rec names :
  packages t !! category p = Some names →
  record_at
    (Tree (info t) (categories t)
       (<[category p :=
            <[name p := <[version p := rec]> (default ∅ (names !! name p))]> names]>
          (packages t))) q
  = if decide (q = p) then Some rec else record_at t q.
Proof.
  intros Hc. unfold record_at. simpl.
  destruct p as [c n v], q as [c' n' v']; simpl in *.
  destruct (decide (c' = c)) as [->|Hcc].
  - rewrite lookup_insert_eq, Hc. simpl.
    destruct (decide (n' = n)) as [->|Hnn].
    + rewrite lookup_insert_eq. simpl.
      destruct (decide (v' = v)) as [->|Hvv].
      * rewrite lookup_insert_eq. by rewrite decide_True.
      * rewrite lookup_insert_ne by done. rewrite decide_False by congruence.
        by destruct (names !! n).
    + rewrite lookup_insert_ne by done. by rewrite decide_False by congruence.
  - rewrite lookup_insert_ne by done. by rewrite decide_False by congruence.
Qed.

Lemma get_package_description_record p w :
  get_package_description p w
  = (match record_at (db (self w)) p with
     | Some d => Return d
     | None => Raise KeyError
     end, w).
Proof.
  unfold get_package_description, record_at, get_db, mbind, M_bind, bind. cbn.
  destruct (packages (db (self w)) !! category p) as [names|]; [|done]. cbn.
  destruct (names !! name p) as [versions|]; [|done]. cbn.
  by destruct (versions !! version p).
Qed.

Lemma elem_of_keys {A} (m : gmap string A) k : k ∈ keys m ↔ is_Some (m !! k).
Proof.
  unfold keys. rewrite list_elem_of_fmap. split.
  - intros ([k' x] & -> & Hx). apply elem_of_map_to_list in Hx. by exists x.
  - intros [x Hx]. exists (k, x). split; [done|]. by apply elem_of_map_to_list.
Qed.

Lemma NoDup_keys {A} (m : gmap string A) : NoDup (keys m).
Proof. apply NoDup_fst_map_to_list. Qed.

Lemma keys_empty {A} : keys (∅ : gmap string A) = [].
Proof. unfold keys. by rewrite map_to_list_empty. Qed.

Lemma list_package_names_present c w names :
  packages (db (self w)) !! c = Some names →
  list_package_names c w = (Return (keys names), w).
Proof.
  intros Hc. unfold list_package_names, get_db, mbind, M_bind, bind. cbn. by rewrite Hc.
Qed.

Lemma list_package_versions_present c n w names versions :
  packages (db (self w)) !! c = Some names → names !! n = Some versions →
  list_package_versions c n w = (Return (keys versions), w).
Proof.
  intros Hc Hn. unfold list_package_versions, get_db, mbind, M_bind, bind. cbn.
  by rewrite Hc, Hn.
Qed.

Lemma elem_of_all_packages t p :
  p ∈ (category ← keys (packages t);
       name ← keys (default ∅ (packages t !! category));
       version ← keys (default ∅ (default ∅ (packages t !! category) !! name));
       [Pkg category name version])
  ↔ is_Some (record_at t p).
Proof.
  unfold record_at. destruct p as [c n v]. simpl. split.
  - intros Hp.
    apply list_elem_of_bind in Hp as (c' & Hp & Hc).
    apply list_elem_of_bind in Hp as (n' & Hp & Hn).
    apply list_elem_of_bind in Hp as (v' & Hp & Hv).
    apply list_elem_of_singleton in Hp. injection Hp as -> -> ->.
    apply elem_of_keys in Hc as [names Hc]. rewrite Hc in *. simpl in *.
    apply elem_of_keys in Hn as [versions Hn]. rewrite Hn in *. simpl in *.
    by apply elem_of_keys in Hv.
  - intros [d Hd].
    destruct (packages t !! c) as [names|] eqn:Hc; [|done]. simpl in Hd.
    destruct (names !! n) as [versions|] eqn:Hn; [|done]. simpl in Hd.
    apply list_elem_of_bind. exists c. split; [|apply elem_of_keys; eauto].
    apply list_elem_of_bind. exists n. rewrite Hc. simpl.
    split; [|apply elem_of_keys; eauto].
    apply list_elem_of_bind. exists v. rewrite Hn. simpl.
    split; [by apply list_elem_of_singleton|apply elem_of_keys; eauto].
Qed.

(** C7. [add_package] on a package whose category no [add_category] call
    registered raises the "Non-existent category" exception and leaves the
    instance and the directory as they were; on a registered category it
    returns, and afterwards the record is stored at the triple (whatever was
    there before), its name is among the names of the category and its
    version among the versions of the name. *)
Theorem add_package_checks_category (l : list op) (w0 : world) (p : Package) (rec : json) :
  db (self w0) = empty_tree →
  (¬ registered (category p) l →
     add_package p rec (calls l w0)
     = (Raise (Exception ("Non-existent category: " +:+ category p)), calls l w0))
  ∧ (registered (category p) l →
     ∃ w' names versions,
       add_package p rec (calls l w0) = (Return (), w')
       ∧ record_at (db (self w')) p = Some rec
       ∧ get_package_description p w' = (Return rec, w')
       ∧ list_package_names (category p) w' = (Return names, w')
       ∧ name p ∈ names
       ∧ list_package_versions (category p) (name p) w' = (Return versions, w')
       ∧ version p ∈ versions).
Proof.
  intros Hw0. split; intros Hreg.
  - apply add_package_missing, not_elem_of_dom.
    by rewrite (registered_dom _ _ _ Hw0).
  - apply (registered_dom _ _ _ Hw0), elem_of_dom in Hreg as [names Hc].
    rewrite (add_package_present _ _ _ _ Hc).
    eexists _, _, _. split; [done|].
    assert (∀ t, record_at (Tree (info t) (categories t)
       (<[category p := <[name p := <[version p := rec]> (default ∅ (names !! name p))]> names]>
          (packages t))) p = Some rec) as Hrec.
    { intros t. unfold record_at. simpl. rewrite lookup_insert_eq. simpl.
      rewrite lookup_insert_eq. simpl. by rewrite lookup_insert_eq. }
    split; [apply Hrec|].
    split; [by rewrite get_package_description_record; cbn; rewrite Hrec|].
    split; [apply list_package_names_present; cbn; apply lookup_insert_eq|].
    split; [apply elem_of_keys; rewrite lookup_insert_eq; eauto|].
    split; [eapply list_package_versions_present; cbn; apply lookup_insert_eq|].
    apply elem_of_keys. rewrite lookup_insert_eq. eauto.
Qed.

(** C8. The four listing methods return without changing the instance or the
    directory; [list_package_names] and [list_package_versions] raise the
    "No such category" exception for a category that is not in the tree,
    [list_package_versions] raises "No such package" for a name that is not
    in the category, and [list_all_packages], which takes neither, always
    returns the triples stored in the tree. *)
Theorem listings_are_lookups (w : world) (c n : string) :
  (list_categories w).2 = w
  ∧ (list_package_names c w).2 = w
  ∧ (list_package_versions c n w).2 = w
  ∧ (list_all_packages w).2 = w
  ∧ (packages (db (self w)) !! c = None →
       list_package_names c w = (Raise (Exception ("No such category: " +:+ c)), w)
       ∧ list_package_versions c n w = (Raise (Exception ("No such category: " +:+ c)), w))
  ∧ (∀ names, packages (db (self w)) !! c = Some names → names !! n = None →
       list_package_versions c n w = (Raise (Exception ("No such package: " +:+ n)), w))
  ∧ (∃ l, list_all_packages w = (Return l, w)
       ∧ ∀ p, p ∈ l ↔ is_Some (record_at (db (self w)) p)).
Proof.
  unfold list_categories, list_package_names, list_package_versions, list_all_packages,
    get_db, lift, mbind, M_bind, bind. cbn.
  repeat split.
  - by destruct (packages (db (self w)) !! c).
  - destruct (packages (db (self w)) !! c) as [names|]; [|done].
    by destruct (names !! n).
  - by rewrite H.
  - by rewrite H.
  - intros names Hc Hn. by rewrite Hc, Hn.
  - eexists. split; [done|]. intros p. apply elem_of_all_packages.
Qed.

(** C9. [add_category] on a category that is already registered returns; the
    category then carries the new description, its package mapping is empty
    (no name is listed and no record of the category can be fetched), and
    the packages of every other category are the ones held before. *)
Theorem add_category_again (l : list op) (w0 : world) (c : string) (d : json) :
  db (self w0) = empty_tree →
  registered c l →
  ∃ w', add_category c d (calls l w0) = (Return (), w')
    ∧ py_getitem (categories (db (self w'))) c = Return d
    ∧ packages (db (self w')) !! c = Some ∅
    ∧ list_package_names c w' = (Return [], w')
    ∧ (∀ n v, record_at (db (self w')) (Pkg c n v) = None)
    ∧ (∀ n v, get_package_description (Pkg c n v) w' = (Raise KeyError, w'))
    ∧ (∀ c', c' ≠ c →
         packages (db (self w')) !! c' = packages (db (self (calls l w0))) !! c').
Proof.
  intros Hw0 _.
  destruct (calls_shape l w0) as (cats & Hc & _).
  { rewrite Hw0. apply empty_tree_shape. }
  rewrite (add_category_dict _ _ _ _ Hc). eexists. split; [done|]. cbn.
  assert (∀ n v t, record_at (Tree (info t) (JDict (<[c := d]> cats))
            (<[c := ∅]> (packages t))) (Pkg c n v) = None) as Hrec.
  { intros n v t. unfold record_at. simpl. by rewrite lookup_insert_eq. }
  split; [by rewrite lookup_insert_eq|].
  split; [apply lookup_insert_eq|].
  split.
  { erewrite list_package_names_present; [|cbn; apply lookup_insert_eq].
    by rewrite keys_empty. }
  split; [intros; apply Hrec|].
  split.
  { intros n v. rewrite get_package_description_record. cbn. by rewrite Hrec. }
  intros c' Hne. by rewrite lookup_insert_ne.
Qed.

(** C10. A call of [add_package] that returns leaves the directory, the two
    URIs, the [info] record, the categories with their descriptions and the
    set of categories that have a package mapping as they were, and the
    record found at any other (category, name, version) triple is the one
    found there before. *)
Theorem add_package_frame (w w' : world) (p : Package) (rec : json) :
  add_package p rec w = (Return (), w') →
  disk w' = disk w
  ∧ repo_uri (self w') = repo_uri (self w)
  ∧ db_uri (self w') = db_uri (self w)
  ∧ info (db (self w')) = info (db (self w))
  ∧ categories (db (self w')) = categories (db (self w))
  ∧ dom (packages (db (self w'))) = dom (packages (db (self w)))
  ∧ (∀ q, q ≠ p → record_at (db (self w')) q = record_at (db (self w)) q).
Proof.
  intros Hadd.
  destruct (packages (db (self w)) !! category p) as [names|] eqn:Hc.
  - rewrite (add_package_present _ _ _ _ Hc) in Hadd. injection Hadd as <-. cbn.
    repeat split.
    + rewrite dom_insert_L. apply elem_of_dom_2 in Hc. set_solver.
    + intros q Hq. rewrite (record_at_insert _ _ _ _ _ Hc).
      by rewrite decide_False.
  - by rewrite (add_package_missing _ _ _ Hc) in Hadd.
Qed.

(** ** Paths and directories *)

Lemma prefix_snoc_inv {A} (q l : list A) x :
  q `prefix_of` l ++ [x] → q = l ++ [x] ∨ q `prefix_of` l.
Proof.
  intros [k Hk]. destruct k as [|y k _] using rev_ind.
  - left. by rewrite app_nil_r in Hk.
  - right. rewrite app_assoc in Hk. apply app_inj_tail in Hk as [-> _].
    by apply prefix_app_r.
Qed.

Lemma parent_snoc (q : path) x : parent (q ++ [x]) = q.
Proof. unfold parent. apply removelast_last. Qed.

Lemma parent_node_snoc (q : path) x d : parent_node (q ++ [x]) d = d !! q.
Proof.
  unfold parent_node. rewrite parent_snoc. by destruct q.
Qed.

Lemma path_join_plain d name :
  plain_name name = true → path_join d name = Return (d ++ [name]).
Proof. unfold path_join. by intros ->. Qed.

Lemma path_join_Return d name p :
  path_join d name = Return p → p = d ++ [name] ∧ plain_name name = true.
Proof. unfold path_join. destruct (plain_name name); naive_solver. Qed.

(** What a call that only creates directories below [p] does to a tree. *)
Definition only_new_dirs (p : path) (d d' : fs) : Prop :=
  ∀ q, d' !! q = d !! q ∨ (d !! q = None ∧ q `prefix_of` p ∧ d' !! q = Some Dir).

Lemma only_new_dirs_refl p d : only_new_dirs p d d.
Proof. intros q. by left. Qed.

Lemma mkdir_snoc q x d :
  d !! (q ++ [x]) = None → d !! q = Some Dir →
  mkdir (q ++ [x]) d = Return (<[q ++ [x] := Dir]> d).
Proof. intros Hp Hq. unfold mkdir. by rewrite Hp, parent_node_snoc, Hq. Qed.

Lemma makedirs_rev_spec rp d :
  d !! rev rp = None →
  (∀ q, q `prefix_of` rev rp → is_file (d !! q) = false) →
  ∃ d', makedirs_rev rp d = Return d'
    ∧ d' !! rev rp = Some Dir
    ∧ only_new_dirs (rev rp) d d'
    ∧ (fs_wf d → ∀ q, q `prefix_of` rev rp → d' !! q = Some Dir).
Proof.
  revert d. induction rp as [|x rq IH]; intros d Hnone Hfiles.
  - simpl in *. unfold mkdir. rewrite Hnone. simpl. eexists. split; [done|].
    split; [apply lookup_insert_eq|]. split.
    + intros q. destruct (decide (q = [])) as [->|Hq].
      * right. rewrite lookup_insert_eq. by split; [|split].
      * left. by rewrite lookup_insert_ne.
    + intros _ q Hq. apply prefix_nil_inv in Hq as ->. apply lookup_insert_eq.
  - simpl in *.
    assert (∀ q, q `prefix_of` rev rq → is_file (d !! q) = false) as Hfiles'.
    { intros q Hq. apply Hfiles. by apply prefix_app_r. }
    destruct (d !! rev rq) as [n|] eqn:Hparent.
    + rewrite bool_decide_eq_true_2 by eauto.
      assert (n = Dir) as ->.
      { specialize (Hfiles' (rev rq) (reflexivity _)). rewrite Hparent in Hfiles'.
        by destruct n. }
      simpl. rewrite (mkdir_snoc (rev rq) x d Hnone Hparent). eexists. split; [done|].
      split; [apply lookup_insert_eq|]. split.
      * intros q. destruct (decide (q = rev rq ++ [x])) as [->|Hq].
        -- right. rewrite lookup_insert_eq. by split; [|split].
        -- left. by rewrite lookup_insert_ne.
      * intros Hwf q Hq. apply prefix_snoc_inv in Hq as [->|Hq].
        -- apply lookup_insert_eq.
        -- rewrite lookup_insert_ne.
           ++ destruct (decide (q = rev rq)) as [->|Hne]; [done|].
              by eapply Hwf.
           ++ intros Heq; subst q. by eapply prefix_snoc_not.
    + rewrite bool_decide_eq_false_2 by (by intros [? ?]).
      destruct (IH d Hparent Hfiles') as (d1 & -> & Hdir & Hframe & Hall).
      assert (d1 !! (rev rq ++ [x]) = None) as Hnone1.
      { destruct (Hframe (rev rq ++ [x])) as [->|(_ & Hpre & _)]; [done|].
        by apply prefix_snoc_not in Hpre. }
      simpl. rewrite mkdir_snoc by done. eexists. split; [done|].
      split; [apply lookup_insert_eq|]. split.
      * intros q. destruct (decide (q = rev rq ++ [x])) as [->|Hq].
        -- right. rewrite lookup_insert_eq. by split; [|split].
        -- rewrite lookup_insert_ne by done.
           destruct (Hframe q) as [->|(? & ? & ?)]; [by left|right].
           split; [done|]. split; [by apply prefix_app_r|done].
      * intros Hwf q Hq. apply prefix_snoc_inv in Hq as [->|Hq].
        -- apply lookup_insert_eq.
        -- rewrite lookup_insert_ne; [by apply Hall|].
           intros Heq; subst q. by eapply prefix_snoc_not.
Qed.

Lemma makedirs_spec p d :
  d !! p = None →
  (∀ q, q `prefix_of` p → is_file (d !! q) = false) →
  ∃ d', makedirs p d = Return d'
    ∧ d' !! p = Some Dir
    ∧ only_new_dirs p d d'
    ∧ (fs_wf d → ∀ q, q `prefix_of` p → d' !! q = Some Dir).
Proof.
  intros Hp Hfiles. unfold makedirs.
  rewrite <-(rev_involutive p) in Hp, Hfiles.
  destruct (makedirs_rev_spec (rev p) d Hp Hfiles) as (d' & ? & ? & ? & ?).
  rewrite rev_involutive in *. eauto.
Qed.

Lemma open_w_snoc q x data d :
  d !! q = Some Dir → d !! (q ++ [x]) ≠ Some Dir →
  open_w (q ++ [x]) data d = Return (<[q ++ [x] := File data]> d).
Proof.
  intros Hq Hp. unfold open_w. rewrite parent_node_snoc, Hq.
  by destruct (d !! (q ++ [x])) as [[]|].
Qed.

Lemma mkdir_Return p d d' :
  mkdir p d = Return d' → d !! p = None ∧ d' = <[p := Dir]> d.
Proof.
  unfold mkdir. destruct (d !! p); [done|].
  destruct (parent_node p d) as [[]|]; [done| |done]. by intros [= <-].
Qed.

Lemma makedirs_rev_Return rp d d' :
  makedirs_rev rp d = Return d' →
  d' !! rev rp = Some Dir ∧ only_new_dirs (rev rp) d d'.
Proof.
  revert d d'. induction rp as [|x rq IH]; intros d d'; simpl.
  - intros [Hnone ->]%mkdir_Return. split; [apply lookup_insert_eq|].
    intros q. destruct (decide (q = [])) as [->|Hq].
    + right. rewrite lookup_insert_eq. by split; [|split].
    + left. by rewrite lookup_insert_ne.
  - destruct (bool_decide (is_Some (d !! rev rq))).
    + simpl. intros [Hnone ->]%mkdir_Return. split; [apply lookup_insert_eq|].
      intros q. destruct (decide (q = rev rq ++ [x])) as [->|Hq].
      * right. rewrite lookup_insert_eq. by split; [|split].
      * left. by rewrite lookup_insert_ne.
    + destruct (makedirs_rev rq d) as [d1|e] eqn:Hrec; [|done]. simpl.
      destruct (IH _ _ Hrec) as [_ Hframe].
      intros [Hnone ->]%mkdir_Return. split; [apply lookup_insert_eq|].
      intros q. destruct (decide (q = rev rq ++ [x])) as [->|Hq].
      * right. rewrite lookup_insert_eq.
        destruct (Hframe (rev rq ++ [x])) as [Heq|(? & ? & ?)]; [|congruence].
        rewrite Hnone in Heq. by split; [|split].
      * rewrite lookup_insert_ne by done.
        destruct (Hframe q) as [->|(? & ? & ?)]; [by left|right].
        split; [done|]. split; [by apply prefix_app_r|done].
Qed.

Lemma makedirs_Return p d d' :
  makedirs p d = Return d' → d' !! p = Some Dir ∧ only_new_dirs p d d'.
Proof.
  unfold makedirs. intros Hmk%makedirs_rev_Return. by rewrite rev_involutive in Hmk.
Qed.

Lemma open_w_Return q x data d d' :
  open_w (q ++ [x]) data d = Return d' →
  d !! q = Some Dir ∧ d' = <[q ++ [x] := File data]> d.
Proof.
  unfold open_w. rewrite parent_node_snoc.
  destruct (d !! (q ++ [x])) as [[]|]; [|done|];
    (destruct (d !! q) as [[]|]; [done| |done]); by intros [= <-].
Qed.

Lemma only_new_dirs_Some p d d' q n :
  only_new_dirs p d d' → d !! q = Some n → d' !! q = Some n.
Proof. intros Hframe Hq. destruct (Hframe q) as [->|(? & _)]; congruence. Qed.

Lemma only_new_dirs_inv p d d' q n :
  only_new_dirs p d d' → d' !! q = Some n →
  d !! q = Some n ∨ (q `prefix_of` p ∧ n = Dir).
Proof.
  intros Hframe Hq. destruct (Hframe q) as [<-|(? & ? & ?)]; [by left|right].
  split; [done|congruence].
Qed.

Lemma below_Some p q r : below p q = Some r → q = p ++ r.
Proof.
  revert q. induction p as [|x p IH]; intros [|y q]; simpl; try naive_solver.
  case_bool_decide; [|done]. subst. intros ?%IH. by subst.
Qed.

(** Every name in the tree is one a directory can hold. *)
Definition plain_tree (d : gmap (list string) node) : Prop :=
  ∀ q n, d !! q = Some n → forallb plain_name q = true.

(** ** Manifest keys *)

Lemma append_cons a s t : String a s +:+ t = String a (s +:+ t).
Proof. reflexivity. Qed.

Lemma append_nil_l s : "" +:+ s = s.
Proof. reflexivity. Qed.

Lemma append_nil_r s : s +:+ "" = s.
Proof. induction s as [|a s IH]; [done|]. by rewrite append_cons, IH. Qed.

Lemma append_assoc s t u : (s +:+ t) +:+ u = s +:+ t +:+ u.
Proof. induction s as [|a s IH]; [done|]. by rewrite !append_cons, IH. Qed.

Lemma split_slash_cons cur s : ∃ l, split_slash cur s = l ∧ l ≠ [].
Proof.
  revert cur. induction s as [|a s IH]; intros cur; simpl; [by eexists|].
  destruct (Ascii.eqb a "/"); [by eexists|]. apply IH.
Qed.

Lemma concat_cons sep x l :
  l ≠ [] → String.concat sep (x :: l) = x +:+ sep +:+ String.concat sep l.
Proof. by destruct l. Qed.

(** Joining the components of a key gives the key back. *)
Lemma concat_split_slash cur s :
  String.concat "/" (split_slash cur s) = cur +:+ s.
Proof.
  revert cur. induction s as [|a s IH]; intros cur; simpl.
  - by rewrite append_nil_r.
  - destruct (Ascii.eqb a "/") eqn:Ha.
    + apply Ascii.eqb_eq in Ha as ->.
      destruct (split_slash_cons "" s) as (l & Hl & Hne).
      rewrite concat_cons by (by rewrite Hl). by rewrite IH.
    + rewrite IH. by rewrite append_assoc.
Qed.

Lemma split_slash_app cur x s :
  forallb plain_char (String.list_ascii_of_string x) = true →
  split_slash cur (x +:+ s) = split_slash (cur +:+ x) s.
Proof.
  revert cur. induction x as [|a x IH]; intros cur Hx.
  - by rewrite append_nil_r.
  - simpl in Hx. apply andb_true_iff in Hx as [Ha Hx].
    rewrite append_cons. simpl.
    assert (Ascii.eqb a "/" = false) as ->.
    { unfold plain_char in Ha. apply andb_true_iff in Ha as [Ha _].
      by apply negb_true_iff in Ha. }
    rewrite IH by done. by rewrite append_assoc.
Qed.

Lemma plain_name_chars x :
  plain_name x = true → forallb plain_char (String.list_ascii_of_string x) = true.
Proof. unfold plain_name. intros Hx. by apply andb_true_iff in Hx as [_ ?]. Qed.

(** Splitting the key made of plain components gives the components back. *)
Lemma split_slash_concat p :
  p ≠ [] → forallb plain_name p = true →
  split_slash "" (String.concat "/" p) = p.
Proof.
  induction p as [|x p IH]; [done|]. intros _ Hp. simpl in Hp.
  apply andb_true_iff in Hp as [Hx Hp]. apply plain_name_chars in Hx.
  destruct p as [|y p].
  - simpl. rewrite <-(append_nil_r x) at 1. by rewrite split_slash_app.
  - rewrite concat_cons by done. rewrite split_slash_app by done.
    rewrite append_cons, !append_nil_l.
    change (split_slash x (String "/" ?s)) with (x :: split_slash "" s).
    by rewrite IH.
Qed.

Lemma resolve_rel_key p key :
  p ≠ [] → rel_key p = Return key → resolve key = Return p.
Proof.
  unfold rel_key, resolve. intros Hne.
  destruct (forallb plain_name p) eqn:Hp; [|done].
  intros [= <-]. by rewrite split_slash_concat, Hp.
Qed.

Lemma resolve_inj n1 n2 p : resolve n1 = Return p → resolve n2 = Return p → n1 = n2.
Proof.
  unfold resolve. intros H1 H2.
  destruct (forallb plain_name (split_slash "" n1)); [|done].
  destruct (forallb plain_name (split_slash "" n2)); [|done].
  injection H1 as H1. injection H2 as H2.
  pose proof (concat_split_slash "" n1) as E1.
  pose proof (concat_split_slash "" n2) as E2.
  rewrite append_nil_l in E1, E2. congruence.
Qed.

(** ** [FileJSON] *)

Section FileJSON_properties.
Context `{!JsonCodec, !Hasher}.

Lemma bind_Return {A B} (c : M A) (k : A → M B) a w w' :
  c w = (Return a, w') → (c ≫= k) w = k a w'.
Proof. intros Hc. unfold mbind, M_bind, bind. by rewrite Hc. Qed.

Lemma bind_Raise {A B} (c : M A) (k : A → M B) e w w' :
  c w = (Raise e, w') → (c ≫= k) w = (Raise e, w').
Proof. intros Hc. unfold mbind, M_bind, bind. by rewrite Hc. Qed.

Lemma lift_bind {A B} (o : outcome A) (k : A → M B) w :
  (lift o ≫= k) w = match o with Return a => k a w | Raise e => (Raise e, w) end.
Proof. by destruct o. Qed.

Lemma world_eta w : World (disk w) (self w) = w.
Proof. by destruct w. Qed.

Lemma disk_op_Return f w d' :
  f (disk w) = Return d' → disk_op f w = (Return (), World d' (self w)).
Proof.
  intros Hf. unfold disk_op, get_disk, put_disk, lift, mbind, M_bind, bind. cbn.
  by rewrite Hf.
Qed.

Lemma FileJSON_new_Return dir name mand f :
  FileJSON_new dir name mand = Return f →
  plain_name name = true
  ∧ f = {| directory := dir; fpath := dir ++ [name]; mandatories := mand |}.
Proof.
  unfold FileJSON_new, path_join. destruct (plain_name name); [|done].
  cbn. intros [= <-]. done.
Qed.

Lemma FileJSON_new_plain dir name mand :
  plain_name name = true →
  FileJSON_new dir name mand
  = Return {| directory := dir; fpath := dir ++ [name]; mandatories := mand |}.
Proof. intros Hn. unfold FileJSON_new, path_join. by rewrite Hn. Qed.

Lemma ensure_directory_spec f w :
  (∀ q, q `prefix_of` directory f → is_file (disk w !! q) = false) →
  ∃ d', ensure_directory f w = (Return (), World d' (self w))
    ∧ d' !! directory f = Some Dir
    ∧ only_new_dirs (directory f) (disk w) d'
    ∧ (is_Some (disk w !! directory f) → d' = disk w)
    ∧ (fs_wf (disk w) → ∀ q, q `prefix_of` directory f → d' !! q = Some Dir).
Proof.
  intros Hfiles. unfold ensure_directory, get_disk, mbind, M_bind, bind. cbn.
  destruct (disk w !! directory f) as [n|] eqn:Hdir.
  - rewrite bool_decide_eq_true_2 by eauto. cbn.
    assert (n = Dir) as ->.
    { specialize (Hfiles (directory f) (reflexivity _)). rewrite Hdir in Hfiles.
      by destruct n. }
    exists (disk w). rewrite world_eta. split; [done|]. split; [done|].
    split; [apply only_new_dirs_refl|]. split; [done|].
    intros Hwf q Hq. destruct (decide (q = directory f)) as [->|Hne]; [done|].
    by eapply Hwf.
  - rewrite bool_decide_eq_false_2 by (by intros [? ?]). cbn.
    destruct (makedirs_spec _ _ Hdir Hfiles) as (d' & Hmk & ? & ? & ?).
    exists d'. rewrite (disk_op_Return _ _ _ Hmk).
    split; [done|]. split; [done|]. split; [done|]. split; [|done].
    by intros [? ?].
Qed.

Lemma ensure_directory_exists f w :
  is_Some (disk w !! directory f) → ensure_directory f w = (Return (), w).
Proof.
  intros Hdir. unfold ensure_directory, get_disk, mbind, M_bind, bind. cbn.
  by rewrite bool_decide_eq_true_2.
Qed.

Lemma for_each_cons {A} (x : A) l (body : A → M unit) w :
  for_each (x :: l) body w
  = match body x w with
    | (Return _, w') => for_each l body w'
    | (Raise e, w') => (Raise e, w')
    end.
Proof. reflexivity. Qed.

Lemma fold_each_cons {A B} (x : A) l (acc : B) (body : B → A → M B) w :
  fold_each (x :: l) acc body w
  = match body acc x w with
    | (Return acc', w') => fold_each l acc' body w'
    | (Raise e, w') => (Raise e, w')
    end.
Proof. reflexivity. Qed.

(** A loop of checks that change nothing stops at the first element that
    fails its check. *)
Lemma for_each_checks {A} (l : list A) (body : A → M unit) (ok : A → bool)
    (err : A → exn) w :
  (∀ x w, body x w = (if ok x then Return () else Raise (err x), w)) →
  for_each l body w
  = (match find (λ x, negb (ok x)) l with
     | Some x => Raise (err x)
     | None => Return ()
     end, w).
Proof.
  intros Hbody. induction l as [|x l IH]; [done|].
  rewrite for_each_cons, Hbody. cbn [find].
  destruct (ok x); cbn [negb]; [exact IH|done].
Qed.

Lemma check_keys_dict (l : list string) (c : gmap string json) w :
  for_each l (λ key,
    b ← lift (py_contains key (JDict c));
    if negb b then raise KeyError else mret ()) w
  = (if bool_decide (Forall (λ key, is_Some (c !! key)) l)
     then Return () else Raise KeyError, w).
Proof.
  rewrite (for_each_checks _ _ (λ key, bool_decide (is_Some (c !! key))) (λ _, KeyError)).
  - apply (f_equal (λ o, (o, w))).
    induction l as [|key l IH]; [done|]. cbn [find].
    destruct (decide (is_Some (c !! key))) as [Hk|Hk].
    + rewrite (bool_decide_eq_true_2 _ Hk). cbn [negb]. rewrite IH.
      destruct (decide (Forall (λ key, is_Some (c !! key)) l)) as [Hl|Hl].
      * rewrite !bool_decide_eq_true_2; [done| |done]. by constructor.
      * rewrite !bool_decide_eq_false_2; [done| |done]. by inversion 1.
    + rewrite (bool_decide_eq_false_2 _ Hk). cbn [negb].
      rewrite bool_decide_eq_false_2; [done|]. by inversion 1.
  - intros key w'. unfold mbind, M_bind, bind, lift. cbn.
    by destruct (bool_decide (is_Some (c !! key))).
Qed.

Lemma check_mandatories_dict f c w :
  check_mandatories f (JDict c) w
  = (if bool_decide (Forall (λ key, is_Some (c !! key)) (mandatories f))
     then Return () else Raise KeyError, w).
Proof. apply check_keys_dict. Qed.

Lemma check_mandatories_nil f content w :
  mandatories f = [] → check_mandatories f content w = (Return (), w).
Proof. unfold check_mandatories. by intros ->. Qed.

(** The default content has exactly the mandatory keys, each with the empty
    string. *)
Lemma default_content_lookup mand key :
  default_content mand !! key = if bool_decide (key ∈ mand) then Some (JStr "") else None.
Proof.
  unfold default_content.
  assert (∀ c : gmap string json,
    foldl (λ content key, <[key := JStr ""]> content) c mand !! key
    = if bool_decide (key ∈ mand) then Some (JStr "") else c !! key) as Hgen.
  { induction mand as [|k mand IH]; intros c; [done|]. simpl. rewrite IH.
    destruct (decide (key ∈ mand)) as [Hin|Hin].
    - rewrite !bool_decide_eq_true_2; [done| |done]. by right.
    - rewrite (bool_decide_eq_false_2 _ Hin).
      destruct (decide (k = key)) as [->|Hne].
      + rewrite lookup_insert_eq. rewrite bool_decide_eq_true_2; [done|]. by left.
      + rewrite lookup_insert_ne by done. rewrite bool_decide_eq_false_2; [done|].
        intros Hk. apply elem_of_cons in Hk as [->|?]; done. }
  by rewrite Hgen, lookup_empty.
Qed.

(** Writing a file without mandatory keys, into a directory that exists or
    can be made. *)
Lemma FileJSON_write_spec dir name content w :
  plain_name name = true →
  (∀ q, q `prefix_of` dir → is_file (disk w !! q) = false) →
  disk w !! (dir ++ [name]) ≠ Some Dir →
  ∃ d1,
    FileJSON_write {| directory := dir; fpath := dir ++ [name]; mandatories := [] |} content w
    = (Return (), World (<[dir ++ [name] := File (json_dump content)]> d1) (self w))
    ∧ d1 !! dir = Some Dir
    ∧ only_new_dirs dir (disk w) d1
    ∧ (is_Some (disk w !! dir) → d1 = disk w).
Proof.
  intros Hname Hfiles Hpath. unfold FileJSON_write.
  erewrite bind_Return; [|by apply check_mandatories_nil].
  destruct (ensure_directory_spec
    {| directory := dir; fpath := dir ++ [name]; mandatories := [] |} w Hfiles)
    as (d1 & Hens & Hdir & Hframe & Hsame & _).
  cbn beta. erewrite bind_Return; [|exact Hens]. cbn in Hdir, Hframe, Hsame.
  exists d1. split; [|done].
  erewrite disk_op_Return; [reflexivity|]. cbn. apply open_w_snoc; [done|].
  destruct (Hframe (dir ++ [name])) as [->|(_ & Hpre & _)]; [done|].
  by apply prefix_snoc_not in Hpre.
Qed.

Lemma FileJSON_read_existing f data w :
  disk w !! fpath f = Some (File data) → is_Some (disk w !! directory f) →
  FileJSON_read f w
  = match json_load data with
    | Some content =>
        match check_mandatories f content w with
        | (Return _, w') => (Return content, w')
        | (Raise e, w') => (Raise e, w')
        end
    | None => (Raise JSONDecodeError, w)
    end.
Proof.
  intros Hfile Hdir. unfold FileJSON_read.
  erewrite bind_Return; [|by apply ensure_directory_exists].
  unfold get_disk, lift, read_file, mbind, M_bind, bind. cbn.
  rewrite Hfile. cbn. destruct (json_load data) as [content|]; [|done]. cbn.
  by destruct (check_mandatories f content w) as [[]].
Qed.

Lemma FileJSON_read_absent dir name mand w :
  disk w !! (dir ++ [name]) = None →
  (∀ q, q `prefix_of` dir → is_file (disk w !! q) = false) →
  ∃ d1,
    FileJSON_read {| directory := dir; fpath := dir ++ [name]; mandatories := mand |} w
    = (Return (JDict (default_content mand)),
       World (<[dir ++ [name] := File (json_dump (JDict (default_content mand)))]> d1)
         (self w))
    ∧ d1 !! dir = Some Dir
    ∧ only_new_dirs dir (disk w) d1
    ∧ (is_Some (disk w !! dir) → d1 = disk w)
    ∧ (fs_wf (disk w) → ∀ q, q `prefix_of` dir → d1 !! q = Some Dir).
Proof.
  intros Hnone Hfiles. unfold FileJSON_read.
  destruct (ensure_directory_spec
    {| directory := dir; fpath := dir ++ [name]; mandatories := mand |} w Hfiles)
    as (d1 & Hens & Hdir & Hframe & Hsame & Hwf).
  erewrite bind_Return; [|exact Hens]. cbn in Hdir, Hframe, Hsame, Hwf.
  exists d1. split; [|done].
  assert (d1 !! (dir ++ [name]) = None) as Hnone1.
  { destruct (Hframe (dir ++ [name])) as [->|(_ & Hpre & _)]; [done|].
    by apply prefix_snoc_not in Hpre. }
  unfold get_disk. unfold mbind at 1, M_bind at 1, bind at 1. cbn.
  rewrite Hnone1. cbn.
  erewrite bind_Return; [reflexivity|].
  erewrite disk_op_Return; [reflexivity|]. cbn.
  apply open_w_snoc; [done|]. by rewrite Hnone1.
Qed.

Lemma bind_Return_inv {A B} (c : M A) (k : A → M B) b w w' :
  (c ≫= k) w = (Return b, w') →
  ∃ a w1, c w = (Return a, w1) ∧ k a w1 = (Return b, w').
Proof.
  unfold mbind, M_bind, bind. destruct (c w) as [[a|e] w1]; [eauto|done].
Qed.

Lemma lift_Return_inv {A} (o : outcome A) a w w' :
  lift o w = (Return a, w') → o = Return a ∧ w' = w.
Proof. unfold lift. by intros [= -> ->]. Qed.

Lemma for_each_same_world {A} (l : list A) (body : A → M unit) w r w' :
  (∀ x w r w', body x w = (r, w') → w' = w) →
  for_each l body w = (r, w') → w' = w.
Proof.
  intros Hbody. revert w. induction l as [|x l IH]; intros w.
  - by intros [= _ <-].
  - rewrite for_each_cons. destruct (body x w) as [[[]|e] w1] eqn:Hx.
    + apply Hbody in Hx as ->. apply IH.
    + apply Hbody in Hx as ->. by intros [= _ <-].
Qed.

Lemma check_mandatories_same_world f content w r w' :
  check_mandatories f content w = (r, w') → w' = w.
Proof.
  apply for_each_same_world. intros key w1 r1 w1'.
  unfold mbind, M_bind, bind, lift.
  destruct (py_contains key content) as [[]|]; cbn; by intros [= _ <-].
Qed.

Lemma disk_op_Return_inv f w w' :
  disk_op f w = (Return (), w') → ∃ d', f (disk w) = Return d' ∧ w' = World d' (self w).
Proof.
  unfold disk_op, get_disk, put_disk, lift, mbind, M_bind, bind. cbn.
  destruct (f (disk w)) as [d'|]; [|done]. intros [= <-]. eauto.
Qed.

Lemma ensure_directory_Return f w w1 :
  ensure_directory f w = (Return (), w1) →
  self w1 = self w ∧ only_new_dirs (directory f) (disk w) (disk w1).
Proof.
  unfold ensure_directory, get_disk. unfold mbind at 1, M_bind at 1, bind at 1. cbn.
  destruct (bool_decide (is_Some (disk w !! directory f))); cbn.
  - intros [= <-]. split; [done|apply only_new_dirs_refl].
  - intros (d' & Hmk & ->)%disk_op_Return_inv. split; [done|].
    by apply makedirs_Return in Hmk as [_ ?].
Qed.

Lemma FileJSON_write_Return dir name mand content w w' :
  FileJSON_write {| directory := dir; fpath := dir ++ [name]; mandatories := mand |} content w
  = (Return (), w') →
  ∃ d1, w' = World (<[dir ++ [name] := File (json_dump content)]> d1) (self w)
    ∧ d1 !! dir = Some Dir
    ∧ only_new_dirs dir (disk w) d1.
Proof.
  unfold FileJSON_write.
  intros ([] & w0 & Hcheck & Hrest)%bind_Return_inv.
  apply check_mandatories_same_world in Hcheck as ->.
  apply bind_Return_inv in Hrest as ([] & w1 & Hens & Hopen).
  apply ensure_directory_Return in Hens as [Hself Hframe].
  apply disk_op_Return_inv in Hopen as (d' & Hopen & ->).
  apply open_w_Return in Hopen as [Hdir ->].
  exists (disk w1). by rewrite Hself.
Qed.

(** C6. [FileJSON.read] on a file that is not there: when nothing on the way
    to its directory is a regular file, the missing directories are made,
    the file is written with the empty string under every mandatory key, and
    that content is returned; nothing else in the tree changes.  On a file
    that is there and holds a dictionary: the call raises [KeyError] exactly
    when a mandatory key is missing from it, returns the dictionary (with
    any further keys) otherwise, and leaves the tree as it was either way. *)
Theorem FileJSON_read_contract dir name mand f w :
  FileJSON_new dir name mand = Return f →
  (disk w !! fpath f = None →
   (∀ q, q `prefix_of` dir → is_file (disk w !! q) = false) →
   ∃ d', FileJSON_read f w = (Return (JDict (default_content mand)), World d' (self w))
     ∧ d' !! fpath f = Some (File (json_dump (JDict (default_content mand))))
     ∧ d' !! dir = Some Dir
     ∧ (fs_wf (disk w) → ∀ q, q `prefix_of` dir → d' !! q = Some Dir)
     ∧ (∀ q n, q ≠ fpath f → disk w !! q = Some n → d' !! q = Some n)
     ∧ (∀ q, q ≠ fpath f → ¬ q `prefix_of` dir → d' !! q = disk w !! q)
     ∧ (∀ key, default_content mand !! key
               = if bool_decide (key ∈ mand) then Some (JStr "") else None))
  ∧ (∀ data content,
       disk w !! fpath f = Some (File data) →
       is_Some (disk w !! dir) →
       json_load data = Some (JDict content) →
       FileJSON_read f w
       = (if bool_decide (Forall (λ key, is_Some (content !! key)) mand)
          then Return (JDict content) else Raise KeyError, w)).
Proof.
  intros Hf. apply FileJSON_new_Return in Hf as [Hname ->]. cbn [fpath]. split.
  - intros Hnone Hfiles.
    destruct (FileJSON_read_absent dir name mand w Hnone Hfiles)
      as (d1 & -> & Hdir & Hframe & _ & Hwf).
    assert (dir ≠ dir ++ [name]) as Hne.
    { intros Heq. apply (f_equal length) in Heq. rewrite length_app in Heq.
      simpl in Heq. lia. }
    eexists. split; [done|].
    split; [apply lookup_insert_eq|].
    split; [by rewrite lookup_insert_ne|].
    split.
    { intros Hfs q Hq. rewrite lookup_insert_ne; [by apply Hwf|].
      intros Heq; subst q. by eapply prefix_snoc_not. }
    split.
    { intros q n Hq Hn. rewrite lookup_insert_ne by done.
      destruct (Hframe q) as [->|(Hq' & _)]; [done|congruence]. }
    split; [|apply default_content_lookup].
    intros q Hq Hpre. rewrite lookup_insert_ne by done.
    by destruct (Hframe q) as [->|(_ & ? & _)].
  - intros data content Hfile Hdir Hload.
    rewrite (FileJSON_read_existing _ data) by done. rewrite Hload.
    rewrite check_mandatories_dict. cbn.
    by destruct (bool_decide _).
Qed.

End FileJSON_properties.

(** ** [check_manifest] *)

Section Manifest_properties.
Context `{!JsonCodec, !Hasher}.

(** What the comparison of one manifest entry with the tree comes to:
    [true] when the recorded value is the digest of the file. *)
Definition entry_state (d : gmap (list string) node) (item : string * json) : outcome bool :=
  p ← resolve item.1;
  data ← read_file p d;
  mret (is_str (file_digest data) item.2).

Definition mismatch (d : gmap (list string) node) (item : string * json) : bool :=
  match entry_state d item with Return false => true | _ => false end.

Definition readable (d : gmap (list string) node) (item : string * json) : Prop :=
  ∃ b, entry_state d item = Return b.

Lemma check_entry_state acc item w :
  check_entry acc item w
  = match entry_state (disk w) item with
    | Return true => (Return acc, w)
    | Return false => (Return (false, acc.2 ++ [item.1]), w)
    | Raise e => (Raise e, w)
    end.
Proof.
  unfold check_entry, entry_state, hash_file, get_disk, lift, mbind, mret,
    M_bind, M_ret, bind, ret, outcome_bind, outcome_ret.
  destruct (resolve item.1) as [p|e]; [|done].
  destruct (read_file p (disk w)) as [data|e]; [|done].
  by destruct (is_str (file_digest data) item.2).
Qed.

Lemma check_entries_readable items acc w :
  Forall (readable (disk w)) items →
  fold_each items acc check_entry w
  = (Return (match List.filter (mismatch (disk w)) items with
             | [] => acc
             | _ => (false, acc.2 ++ (List.filter (mismatch (disk w)) items).*1)
             end), w).
Proof.
  intros Hall. revert acc. induction Hall as [|item items [b Hb] _ IH]; intros acc.
  - done.
  - rewrite fold_each_cons, check_entry_state. cbn [List.filter].
    assert (mismatch (disk w) item = negb b) as Hm.
    { unfold mismatch. rewrite Hb. by destruct b. }
    rewrite Hm, Hb. destruct b; cbn [negb].
    + apply IH.
    + rewrite IH. cbn [snd fst]. f_equal. f_equal.
      destruct (List.filter (mismatch (disk w)) items) as [|item' l].
      * done.
      * by rewrite fmap_cons, <-app_assoc.
Qed.


Definition bad_manifest (name : string) : exn :=
  Exception ("Bad manifest: no " +:+ name +:+ " entry").

(** [check_manifest] once the manifest has been read as a dictionary. *)
Lemma check_manifest_loaded w data m :
  disk w !! [MANIFEST_NAME] = Some (File data) →
  is_Some (disk w !! []) →
  json_load data = Some (JDict m) →
  check_manifest w
  = match find (λ name, negb (bool_decide (is_Some (m !! name)))) fixed_names with
    | Some name => (Raise (bad_manifest name), w)
    | None => fold_each (map_to_list m) (true, []) check_entry w
    end.
Proof.
  intros Hfile Hroot Hload. unfold check_manifest.
  rewrite (bind_Return _ _ {| directory := []; fpath := [MANIFEST_NAME]; mandatories := [] |} w w)
    by done.
  erewrite bind_Return; cycle 1.
  { rewrite (FileJSON_read_existing _ data) by done. rewrite Hload.
    by rewrite check_mandatories_nil. }
  cbn beta.
  pose proof (for_each_checks fixed_names
    (λ name, b ← lift (py_contains name (JDict m));
             if negb b then raise (bad_manifest name) else mret ())
    (λ name, bool_decide (is_Some (m !! name))) bad_manifest w) as Hchecks.
  destruct (find _ fixed_names) as [name|].
  - erewrite bind_Raise; [done|]. apply Hchecks.
    intros name' w'. unfold mbind, M_bind, bind, lift. cbn.
    by destruct (bool_decide (is_Some (m !! name'))).
  - erewrite bind_Return; cycle 1.
    { apply Hchecks. intros name' w'. unfold mbind, M_bind, bind, lift. cbn.
      by destruct (bool_decide (is_Some (m !! name'))). }
    by rewrite (bind_Return _ _ (map_to_list m) w w) by done.
Qed.



End Manifest_properties.

(** ** [manifest] *)

Section Manifest_computation.
Context `{!JsonCodec, !Hasher}.

Lemma disk_op_self f w r w' : disk_op f w = (r, w') → self w' = self w.
Proof.
  unfold disk_op, get_disk, put_disk, lift, mbind, M_bind, bind. cbn.
  destruct (f (disk w)); by intros [= _ <-].
Qed.

Lemma ensure_directory_self f w r w' : ensure_directory f w = (r, w') → self w' = self w.
Proof.
  unfold ensure_directory, get_disk. unfold mbind at 1, M_bind at 1, bind at 1. cbn.
  destruct (bool_decide _); cbn; [by intros [= _ <-]|apply disk_op_self].
Qed.

Lemma FileJSON_read_self f w r w' : FileJSON_read f w = (r, w') → self w' = self w.
Proof.
  unfold FileJSON_read. unfold mbind at 1, M_bind at 1, bind at 1.
  destruct (ensure_directory f w) as [[[]|e] w1] eqn:Hens;
    apply ensure_directory_self in Hens; [|by intros [= _ <-]].
  unfold get_disk. unfold mbind at 1, M_bind at 1, bind at 1. cbn.
  destruct (is_file (disk w1 !! fpath f)); cbn.
  - unfold lift. unfold mbind at 1, M_bind at 1, bind at 1.
    destruct (read_file _ _); [|by intros [= _ <-]].
    unfold mbind at 1, M_bind at 1, bind at 1.
    destruct (json_load _); cbn; [|by intros [= _ <-]].
    unfold mbind at 1, M_bind at 1, bind at 1.
    destruct (check_mandatories f j w1) as [[[]|e] w2] eqn:Hcheck;
      apply check_mandatories_same_world in Hcheck as ->; by intros [= _ <-].
  - unfold mbind at 1, M_bind at 1, bind at 1.
    destruct (disk_op _ w1) as [[[]|e] w2] eqn:Hop;
      apply disk_op_self in Hop; intros [= _ <-]; congruence.
Qed.

(** A loop that builds a value from the tree without changing anything. *)
Lemma fold_each_reads {A B} (P : B → Prop) (l : list A) (body : B → A → M B)
    acc w acc' w' :
  (∀ acc x acc1 w1, x ∈ l → P acc → body acc x w = (Return acc1, w1) → w1 = w ∧ P acc1) →
  P acc →
  fold_each l acc body w = (Return acc', w') →
  w' = w ∧ P acc'.
Proof.
  revert acc. induction l as [|x l IH]; intros acc Hbody Hacc.
  - by intros [= <- <-].
  - rewrite fold_each_cons. destruct (body acc x w) as [[acc1|e] w1] eqn:Hx; [|done].
    destruct (Hbody acc x acc1 w1 ltac:(by left) Hacc Hx) as [-> Hacc1].
    apply IH; [|done]. intros a y a1 w2 Hy. apply Hbody. by right.
Qed.

Lemma hash_file_Return p w h w' :
  hash_file p w = (Return h, w') →
  w' = w ∧ ∃ data, disk w !! p = Some (File data) ∧ h = file_digest data.
Proof.
  unfold hash_file, get_disk, lift, read_file, mbind, M_bind, bind. cbn.
  destruct (disk w !! p) as [[data|]|]; [|done..]. cbn. intros [= <- <-]. eauto.
Qed.

(** Every entry of the manifest [m] records the digest of a regular file of
    the tree [d], other than the manifest itself. *)
Definition manifest_sound (d : gmap (list string) node) (m : gmap string json) : Prop :=
  ∀ name value, m !! name = Some value →
    ∃ p data, resolve name = Return p ∧ p ≠ [MANIFEST_NAME]
      ∧ d !! p = Some (File data) ∧ value = JStr (file_digest data).

Definition manifest_so_far (d : gmap (list string) node) (m : gmap string json) : Prop :=
  manifest_sound d m.

Lemma manifest_sound_insert d m key p data :
  manifest_sound d m →
  resolve key = Return p → p ≠ [MANIFEST_NAME] → d !! p = Some (File data) →
  manifest_sound d (<[key := JStr (file_digest data)]> m).
Proof.
  intros Hm Hres Hne Hp name value Hname.
  destruct (decide (name = key)) as [->|Hkey].
  - rewrite lookup_insert_eq in Hname. injection Hname as <-. eauto 10.
  - rewrite lookup_insert_ne in Hname by done. by apply Hm.
Qed.

Lemma elem_of_walk_files cp d p :
  p ∈ walk_files cp d ↔ is_Some (below cp p) ∧ ∃ data, d !! p = Some (File data).
Proof.
  unfold walk_files. rewrite list_elem_of_fmap. split.
  - intros ([q n] & -> & Hq). apply elem_of_map_to_list in Hq.
    apply map_lookup_filter_Some in Hq as [Hq [Hbelow Hfile]]. simpl in *.
    split; [done|]. destruct n; [eauto|done].
  - intros [Hbelow [data Hp]]. exists (p, File data). split; [done|].
    apply elem_of_map_to_list, map_lookup_filter_Some. by split.
Qed.

Lemma manifest_file_sound d m p w m' w' :
  disk w = d → manifest_sound d m → p ≠ [] → p ≠ [MANIFEST_NAME] →
  manifest_file m p w = (Return m', w') →
  w' = w ∧ manifest_sound d m' ∧ (∀ name, is_Some (m !! name) → is_Some (m' !! name)).
Proof.
  intros <- Hm Hnil Hne. unfold manifest_file.
  intros (key & w0 & [Hkey ->]%lift_Return_inv & Hrest)%bind_Return_inv.
  apply bind_Return_inv in Hrest as (h & w1 & Hhash & Hret).
  apply hash_file_Return in Hhash as [-> (data & Hp & ->)].
  injection Hret as <- <-. split; [done|]. split.
  - apply (manifest_sound_insert _ _ _ p data); [done| |done..].
    by apply resolve_rel_key.
  - intros name Hname. destruct (decide (name = key)) as [->|?].
    + rewrite lookup_insert_eq. eauto.
    + by rewrite lookup_insert_ne.
Qed.

Lemma manifest_category_sound m c w m' w' :
  manifest_sound (disk w) m →
  manifest_category m c w = (Return m', w') →
  w' = w ∧ manifest_sound (disk w) m'
  ∧ (∀ name, is_Some (m !! name) → is_Some (m' !! name)).
Proof.
  intros Hm. unfold manifest_category.
  intros (category & w0 & [Hc ->]%lift_Return_inv & Hrest)%bind_Return_inv.
  apply bind_Return_inv in Hrest as (cp & w1 & [Hcp ->]%lift_Return_inv & Hrest).
  apply path_join_Return in Hcp as [-> _].
  unfold get_disk in Hrest. unfold mbind at 1, M_bind at 1, bind at 1 in Hrest.
  cbn in Hrest.
  destruct (is_dir (disk w !! [category])) eqn:Hdir; [|done]. cbn in Hrest.
  apply (fold_each_reads
    (λ acc, manifest_sound (disk w) acc ∧ ∀ name, is_Some (m !! name) → is_Some (acc !! name)))
    in Hrest.
  - naive_solver.
  - intros acc p acc1 w1 Hp [Hacc Hkeys] Hfile.
    apply elem_of_walk_files in Hp as [[r Hbelow] [data Hdata]].
    apply below_Some in Hbelow. simpl in Hbelow.
    eapply manifest_file_sound in Hfile as (-> & ? & ?); [|done|done| |].
    + naive_solver.
    + by subst p.
    + intros Heq. rewrite Heq in Hbelow, Hdata. injection Hbelow as <- <-.
      by rewrite Hdata in Hdir.
  - done.
Qed.

Lemma resolve_fixed name : name ∈ fixed_names → resolve name = Return [name].
Proof.
  intros Hname. repeat (apply elem_of_cons in Hname as [->|Hname]; [done|]).
  by apply elem_of_nil in Hname.
Qed.

Lemma fixed_not_manifest name : name ∈ fixed_names → [name] ≠ [MANIFEST_NAME].
Proof.
  intros Hname. repeat (apply elem_of_cons in Hname as [->|Hname]; [done|]).
  by apply elem_of_nil in Hname.
Qed.

Definition manifest_fixed (manifest : gmap string json) (name : string)
  : M (gmap string json) :=
  p ← lift (path_join [] name);
  h ← hash_file p;
  mret (<[name := JStr h]> manifest).

Lemma manifest_fixed_sound l m w m' w' :
  (∀ name, name ∈ l → name ∈ fixed_names) →
  manifest_sound (disk w) m →
  fold_each l m manifest_fixed w = (Return m', w') →
  w' = w ∧ manifest_sound (disk w) m'
  ∧ (∀ name, name ∈ l → is_Some (m' !! name))
  ∧ (∀ name, is_Some (m !! name) → is_Some (m' !! name)).
Proof.
  revert m. induction l as [|name l IH]; intros m Hl Hm.
  - intros [= <- <-]. split; [done|]. split; [done|]. split; [|done].
    intros name Hname. by apply elem_of_nil in Hname.
  - rewrite fold_each_cons.
    destruct (manifest_fixed m name w) as [[m1|e] w1] eqn:Hname; [|done].
    unfold manifest_fixed in Hname.
    apply bind_Return_inv in Hname as (p & w2 & [Hp ->]%lift_Return_inv & Hrest).
    apply path_join_Return in Hp as [-> _].
    apply bind_Return_inv in Hrest as (h & w3 & Hhash & Hret).
    apply hash_file_Return in Hhash as [-> (data & Hp & ->)].
    injection Hret as <- <-. intros Hfold.
    apply IH in Hfold as (-> & Hsound & Hl' & Hkeys).
    + split; [done|]. split; [done|]. split.
      * intros name' [->|Hin]%elem_of_cons; [|by apply Hl'].
        apply Hkeys. rewrite lookup_insert_eq. eauto.
      * intros name' Hname'. apply Hkeys.
        destruct (decide (name' = name)) as [->|?].
        -- rewrite lookup_insert_eq. eauto.
        -- by rewrite lookup_insert_ne.
    + intros name' Hin. apply Hl. by right.
    + apply (manifest_sound_insert _ _ _ [name] data); [done| | |done].
      * apply resolve_fixed, Hl. by left.
      * apply fixed_not_manifest, Hl. by left.
Qed.

(** What a call of [manifest] that returns has left behind. *)
Lemma manifest_Return w w2 :
  manifest w = (Return (), w2) →
  ∃ d1 m,
    disk w2 = <[[MANIFEST_NAME] := File (json_dump (JDict m))]> d1
    ∧ self w2 = self w
    ∧ d1 !! [] = Some Dir
    ∧ Forall (λ name, is_Some (m !! name)) fixed_names
    ∧ manifest_sound d1 m.
Proof.
  unfold manifest.
  intros (cf & w0 & [Hcf ->]%lift_Return_inv & Hrest)%bind_Return_inv.
  apply bind_Return_inv in Hrest as (cats & w1 & Hread & Hrest).
  apply FileJSON_read_self in Hread as Hself1.
  apply bind_Return_inv in Hrest as (m1 & w1' & Hfixed & Hrest).
  apply manifest_fixed_sound in Hfixed as (-> & Hm1 & Hkeys1 & _); [|done|].
  2:{ intros name0 value. by rewrite lookup_empty. }
  apply bind_Return_inv in Hrest as (l & w1' & [Hl ->]%lift_Return_inv & Hrest).
  apply bind_Return_inv in Hrest as (m & w1' & Hcats & Hrest).
  apply (fold_each_reads
    (λ acc, manifest_sound (disk w1) acc
            ∧ ∀ name, is_Some (m1 !! name) → is_Some (acc !! name)))
    in Hcats as [-> [Hm Hkeys]]; [| |done].
  2:{ intros acc c acc1 w3 _ [Hacc Hk] Hc.
      apply manifest_category_sound in Hc as (-> & ? & ?); naive_solver. }
  apply bind_Return_inv in Hrest as (mf & w1' & [Hmf ->]%lift_Return_inv & Hrest).
  injection Hmf as <-.
  apply (FileJSON_write_Return [] MANIFEST_NAME []) in Hrest
    as (d1 & -> & Hroot & Hframe).
  exists d1, m. split; [done|]. split; [done|]. split; [done|]. split.
  - apply Forall_forall. intros name Hname%list_elem_of_In. by apply Hkeys, Hkeys1.
  - intros name value Hname.
    destruct (Hm name value Hname) as (p & data & ? & ? & Hp & ?).
    exists p, data. split; [done|]. split; [done|]. split; [|done].
    by eapply only_new_dirs_Some.
Qed.

Lemma filter_none {A} (f : A → bool) l :
  (∀ x, x ∈ l → f x = false) → List.filter f l = [].
Proof.
  induction l as [|y l IH]; intros Hl; [done|]. cbn [List.filter].
  rewrite (Hl y) by (by left). apply IH. intros x Hx. apply Hl. by right.
Qed.

Lemma filter_single {A} (f : A → bool) l x0 :
  NoDup l → x0 ∈ l → f x0 = true → (∀ x, x ∈ l → x ≠ x0 → f x = false) →
  List.filter f l = [x0].
Proof.
  intros Hnd Hin Hx0 Hrest. induction Hnd as [|y l Hy Hnd IH]; [by apply elem_of_nil in Hin|].
  cbn [List.filter]. apply elem_of_cons in Hin as [->|Hin].
  - rewrite Hx0. f_equal. apply filter_none. intros x Hx. apply Hrest; [by right|].
    by intros ->.
  - rewrite Hrest; [|by left|by intros ->]. apply IH; [done|].
    intros x Hx. apply Hrest. by right.
Qed.

Lemma find_all_present (m : gmap string json) names :
  Forall (λ name, is_Some (m !! name)) names →
  find (λ name, negb (bool_decide (is_Some (m !! name)))) names = None.
Proof.
  induction 1 as [|name names Hname _ IH]; [done|]. cbn [find].
  by rewrite bool_decide_eq_true_2.
Qed.

Lemma is_str_refl s : is_str s (JStr s) = true.
Proof. apply String.eqb_refl. Qed.

Lemma is_str_ne s t : t ≠ s → is_str s (JStr t) = false.
Proof. intros Hne. by apply String.eqb_neq. Qed.

(** The keys of the manifest that [manifest.json] holds. *)
Definition listed (w : world) (name : string) : bool :=
  match disk w !! [MANIFEST_NAME] with
  | Some (File data) =>
      match json_load data with
      | Some (JDict m) => bool_decide (is_Some (m !! name))
      | _ => false
      end
  | _ => false
  end.

Lemma entry_state_file d name value p data :
  resolve name = Return p → d !! p = Some (File data) →
  entry_state d (name, value) = Return (is_str (file_digest data) value).
Proof.
  intros Hres Hp. unfold entry_state, read_file. cbn [fst snd].
  rewrite Hres. cbn. by rewrite Hp.
Qed.

(** C4. After a [manifest] call that returned, [check_manifest] returns
    [(True, [])]; and once the file at one path listed in the manifest holds
    other content, with another digest, [check_manifest] returns [False]
    together with the list made of that one key.  The three fixed names are
    always among the keys. *)
Theorem manifest_detects_one_change w1 w2 :
  manifest w1 = (Return (), w2) →
  check_manifest w2 = (Return (true, []), w2)
  ∧ Forall (λ name, listed w2 name = true) fixed_names
  ∧ ∀ name p data data',
      listed w2 name = true →
      resolve name = Return p →
      disk w2 !! p = Some (File data) →
      file_digest data' ≠ file_digest data →
      check_manifest (World (<[p := File data']> (disk w2)) (self w2))
      = (Return (false, [name]), World (<[p := File data']> (disk w2)) (self w2)).
Proof.
  intros (d1 & m & Hdisk & _ & Hroot & Hfixed & Hsound)%manifest_Return.
  assert (disk w2 !! [MANIFEST_NAME] = Some (File (json_dump (JDict m)))) as Hman.
  { rewrite Hdisk. apply lookup_insert_eq. }
  assert (∀ q, q ≠ [MANIFEST_NAME] → disk w2 !! q = d1 !! q) as Hother.
  { intros q Hq. rewrite Hdisk. by rewrite lookup_insert_ne. }
  split; [|split].
  - rewrite (check_manifest_loaded w2 _ m Hman); [| |apply json_load_dump].
    2:{ rewrite Hother by done. eauto. }
    rewrite find_all_present by done.
    rewrite check_entries_readable.
    + rewrite filter_none; [done|].
      intros [name value] Hin%elem_of_map_to_list.
      destruct (Hsound name value Hin) as (p & data & Hres & Hne & Hp & ->).
      unfold mismatch. erewrite entry_state_file; [|done|by rewrite Hother].
      by rewrite is_str_refl.
    + apply Forall_forall. intros [name value] Hin%list_elem_of_In%elem_of_map_to_list.
      destruct (Hsound name value Hin) as (p & data & Hres & Hne & Hp & ->).
      exists true. erewrite entry_state_file; [|done|by rewrite Hother].
      by rewrite is_str_refl.
  - eapply Forall_impl; [|exact Hfixed]. intros name Hname.
    unfold listed. rewrite Hman, json_load_dump. by apply bool_decide_eq_true_2.
  - intros name0 p0 data0 data' Hlisted Hres0 Hp0 Hdigest.
    unfold listed in Hlisted. rewrite Hman, json_load_dump in Hlisted.
    apply bool_decide_eq_true in Hlisted as [value0 Hname0].
    destruct (Hsound name0 value0 Hname0) as (p0' & data0' & Hres0' & Hne0 & Hp0' & Hv0).
    assert (p0' = p0) as -> by congruence.
    rewrite Hother, Hp0' in Hp0 by done. injection Hp0 as ->.
    assert (p0 ≠ []) as Hnil by congruence.
    set (w3 := World (<[p0 := File data']> (disk w2)) (self w2)).
    assert (∀ name value, m !! name = Some value →
      entry_state (disk w3) (name, value) = Return (negb (bool_decide (name = name0)))) as Hstate.
    { intros name value Hname.
      destruct (Hsound name value Hname) as (p & data & Hres & Hne & Hp & ->).
      destruct (decide (name = name0)) as [->|Hnn].
      - assert (p = p0) as -> by congruence.
        erewrite entry_state_file; [|done|apply lookup_insert_eq].
        rewrite bool_decide_eq_true_2 by done. cbn [negb].
        f_equal. apply is_str_ne. congruence.
      - erewrite entry_state_file; [|done|].
        + rewrite bool_decide_eq_false_2 by done. cbn [negb]. by rewrite is_str_refl.
        + cbn [disk w3]. rewrite lookup_insert_ne; [by rewrite Hother|].
          intros <-. apply Hnn. symmetry. by eapply resolve_inj. }
    rewrite (check_manifest_loaded w3 (json_dump (JDict m)) m);
      [| | |apply json_load_dump].
    2:{ cbn. by rewrite lookup_insert_ne. }
    2:{ cbn. rewrite lookup_insert_ne by done. rewrite Hother by done. eauto. }
    rewrite find_all_present by done.
    rewrite check_entries_readable.
    + rewrite (filter_single _ _ (name0, value0)).
      * done.
      * apply NoDup_map_to_list.
      * by apply elem_of_map_to_list.
      * unfold mismatch. rewrite (Hstate _ _ Hname0).
        by rewrite bool_decide_eq_true_2.
      * intros [name value] Hin%elem_of_map_to_list Hne.
        unfold mismatch. rewrite (Hstate _ _ Hin).
        rewrite bool_decide_eq_false_2; [done|]. intros ->. congruence.
    + apply Forall_forall. intros [name value] Hin%list_elem_of_In%elem_of_map_to_list.
      eexists. by apply Hstate.
Qed.

End Manifest_computation.

(** ** [clean] and [sync] *)

Section Sync_properties.
Context `{!JsonCodec, !Hasher}.

(** The value [reset_uri] keeps for an attribute: the argument, or the empty
    string read back from a [uri.json] that had to be created. *)
Definition kept (v : json) : json := if py_truthy v then v else JStr "".

(** The directory right after [clean]: [uri.json] and nothing else. *)
Definition skeleton (r u : json) : gmap (list string) node :=
  {[ [] := Dir;
     [URI_NAME] := File (json_dump (JDict {[ "repo_uri" := r; "db_uri" := u ]})) ]}.

Lemma filter_below_root (d : gmap (list string) node) :
  filter (λ e : list string * node, below [] e.1 = None) d = ∅.
Proof.
  apply map_eq. intros q. rewrite lookup_empty. apply map_lookup_filter_None.
  right. intros n _. by destruct q.
Qed.

Lemma rmtree_root d d' : rmtree [] d = Return d' → d !! [] = Some Dir ∧ d' = ∅.
Proof.
  unfold rmtree. destruct (d !! []) as [[]|]; [done| |done].
  intros [= <-]. split; [done|]. apply filter_below_root.
Qed.

Lemma reset_uri_empty r u o :
  reset_uri r u (World ∅ o)
  = (Return (), World (skeleton (kept r) (kept u)) (Obj (kept r) (kept u) (db o))).
Proof.
  unfold reset_uri, kept, set_repo_uri, set_db_uri, skeleton.
  generalize (py_truthy r), (py_truthy u). intros [] []; vm_compute; reflexivity.
Qed.

(** The state [clean] leaves behind when it returns. *)
Definition cleaned (o : PackageDB) : world :=
  World (skeleton (kept (repo_uri o)) (kept (db_uri o)))
    (Obj (kept (repo_uri o)) (kept (db_uri o)) empty_tree).

Lemma clean_spec w :
  disk w !! [] = Some Dir → clean w = (Return (), cleaned (self w)).
Proof.
  intros Hroot. unfold clean.
  erewrite bind_Return; cycle 1.
  { apply disk_op_Return. unfold rmtree. rewrite Hroot. reflexivity. }
  rewrite filter_below_root.
  cbn beta. unfold get_self. unfold mbind at 1, M_bind at 1, bind at 1. cbn [self].
  erewrite bind_Return; [|apply reset_uri_empty]. reflexivity.
Qed.

Lemma clean_Return w w1 :
  clean w = (Return (), w1) → disk w !! [] = Some Dir ∧ w1 = cleaned (self w).
Proof.
  intros Hclean. assert (disk w !! [] = Some Dir) as Hroot.
  { unfold clean in Hclean.
    apply bind_Return_inv in Hclean as ([] & w0 & Hrm & _).
    apply disk_op_Return_inv in Hrm as (d' & Hrm & _).
    by apply rmtree_root in Hrm as [? _]. }
  split; [done|]. rewrite (clean_spec _ Hroot) in Hclean. by injection Hclean.
Qed.

(** [self] once [sync] has stored a non-empty [db_uri] argument. *)
Definition with_db_uri (arg : json) (o : PackageDB) : PackageDB :=
  if py_truthy arg then Obj (repo_uri o) arg (db o) else o.

Lemma sync_start get_real_db_uri remote arg w :
  disk w !! [] = Some Dir →
  sync get_real_db_uri remote arg w
  = (let w1 := cleaned (with_db_uri arg (self w)) in
     match get_real_db_uri (self w1) ≫= py_str with
     | Raise e => (Raise e, w1)
     | Return uri =>
         match remote uri with
         | WgetFailed => (Raise (Exception ("sync failed: " +:+ uri)), w1)
         | ExtractFailed e => (Raise e, w1)
         | Extracted temp_dir =>
             match stage temp_dir with
             | Raise e => (Raise e, w1)
             | Return tempdb =>
                 match check_manifest tempdb with
                 | (Raise e, _) => (Raise e, w1)
                 | (Return r, tempdb') =>
                     (clean;;
                      (λ w, let '(o, d) := copy_all (disk tempdb') [] [] (disk w) in
                            (o, World d (self w)));;
                      r ← check_manifest;
                      if negb (tuple_truthy r)
                      then raise (Exception "Manifest check failed, db inconsistent.")
                      else read) w1
                 end
             end
         end
     end).
Proof.
  intros Hroot. unfold sync. cbv zeta.
  assert (∃ w0, (if py_truthy arg then set_db_uri arg else mret ()) w = (Return (), w0)
                ∧ disk w0 = disk w ∧ self w0 = with_db_uri arg (self w)) as (w0 & Hset & Hd & Hs).
  { unfold with_db_uri, set_db_uri. destruct (py_truthy arg).
    - eexists. split; [reflexivity|done].
    - exists w. done. }
  erewrite bind_Return; [|exact Hset]. cbn beta.
  erewrite bind_Return; [|apply clean_spec; by rewrite Hd]. cbn beta. rewrite Hs.
  set (w1 := cleaned (with_db_uri arg (self w))).
  unfold get_self. unfold mbind at 1, M_bind at 1, bind at 1. cbn beta iota.
  rewrite lift_bind. fold w1.
  destruct (get_real_db_uri (self w1)) as [v|e]; [|done].
  rewrite lift_bind. change (Return v ≫= py_str) with (py_str v).
  destruct (py_str v) as [uri|e]; [|done].
  destruct (remote uri) as [|e|temp_dir]; [done..|].
  rewrite lift_bind.
  destruct (stage temp_dir) as [tempdb|e]; [|done].
  destruct (check_manifest tempdb) as [[r|e] tempdb']; done.
Qed.


(** The class as it is written never gets that far: the call of
    [get_real_db_uri] raises once the directory has been cleaned. *)
Lemma sync_raises_TypeError remote arg w :
  disk w !! [] = Some Dir →
  sync PackageDB_get_real_db_uri remote arg w
  = (Raise TypeError, cleaned (with_db_uri arg (self w))).
Proof. intros Hroot. by rewrite sync_start. Qed.

End Sync_properties.

(** ** [write], [manifest] and [read] in a row *)

(** Names that [write] can lay out without two of them meeting on one path:
    every category, package and version file name is a plain component, no
    category is called like one of the four files at the top, no package
    [packages.json], no version file [versions.json]. *)
Definition version_fits (v : string) : bool :=
  plain_name (v +:+ ".json") && negb (String.eqb (v +:+ ".json") "versions.json").

Definition package_fits (item : string * gmap string json) : bool :=
  plain_name item.1 && negb (String.eqb item.1 "packages.json")
  && forallb version_fits (keys item.2).

Definition reserved : list string :=
  ["uri.json"; "info.json"; "categories.json"; "manifest.json"].

Definition category_fits (item : string * gmap string (gmap string json)) : bool :=
  plain_name item.1 && negb (existsb (String.eqb item.1) reserved)
  && forallb package_fits (map_to_list item.2).

Definition names_fit (t : tree) : bool :=
  forallb category_fits (map_to_list (packages t)).

(** Every category has a package. *)
Definition categories_filled (t : tree) : bool :=
  forallb (λ item : string * gmap string (gmap string json),
             match keys item.2 with [] => false | _ => true end)
    (map_to_list (packages t)).

Section Roundtrip.
Context `{!JsonCodec, !Hasher}.

Lemma forallb_elem {A} (f : A → bool) l x : forallb f l = true → x ∈ l → f x = true.
Proof.
  intros Hl Hx. apply list_elem_of_In in Hx.
  by apply (forallb_forall f l).
Qed.

Lemma names_fit_category t c names :
  names_fit t = true → packages t !! c = Some names →
  plain_name c = true ∧ (c ∉ reserved)
  ∧ forallb package_fits (map_to_list names) = true.
Proof.
  intros Hfit Hc. unfold names_fit in Hfit.
  eapply forallb_elem in Hfit; [|by apply elem_of_map_to_list].
  unfold category_fits in Hfit. cbn [fst snd] in Hfit.
  apply andb_true_iff in Hfit as [Hfit Hpk].
  apply andb_true_iff in Hfit as [Hplain Hres].
  split; [done|]. split; [|done].
  intros Hin. apply negb_true_iff in Hres.
  assert (existsb (String.eqb c) reserved = true) as Hex; [|congruence].
  apply existsb_exists. exists c. split; [by apply list_elem_of_In|].
  apply String.eqb_refl.
Qed.

Lemma categories_filled_category t c names :
  categories_filled t = true → packages t !! c = Some names → keys names ≠ [].
Proof.
  intros Hfill Hc. unfold categories_filled in Hfill.
  eapply forallb_elem in Hfill; [|by apply elem_of_map_to_list].
  cbn [snd] in Hfill. by destruct (keys names).
Qed.

Lemma names_fit_package names p vs :
  forallb package_fits (map_to_list names) = true → names !! p = Some vs →
  plain_name p = true ∧ p ≠ PACKAGES_NAME ∧ forallb version_fits (keys vs) = true.
Proof.
  intros Hfit Hp. eapply forallb_elem in Hfit; [|by apply elem_of_map_to_list].
  unfold package_fits in Hfit. cbn [fst snd] in Hfit.
  apply andb_true_iff in Hfit as [Hfit Hvs].
  apply andb_true_iff in Hfit as [Hplain Hne].
  split; [done|]. split; [|done].
  apply negb_true_iff in Hne. by apply String.eqb_neq in Hne.
Qed.

Lemma names_fit_version (vs : gmap string json) v d :
  forallb version_fits (keys vs) = true → vs !! v = Some d →
  plain_name (v +:+ ".json") = true ∧ v +:+ ".json" ≠ VERSIONS_NAME.
Proof.
  intros Hfit Hv. eapply forallb_elem in Hfit; [|apply elem_of_keys; eauto].
  unfold version_fits in Hfit. apply andb_true_iff in Hfit as [Hplain Hne].
  split; [done|]. apply negb_true_iff in Hne. by apply String.eqb_neq in Hne.
Qed.

Lemma length_append s t : String.length (s +:+ t) = String.length s + String.length t.
Proof. induction s as [|a s IH]; [done|]. rewrite append_cons. simpl. by rewrite IH. Qed.

Lemma append_inj_r s1 s2 t : s1 +:+ t = s2 +:+ t → s1 = s2.
Proof.
  revert s2. induction s1 as [|a s1 IH]; intros [|b s2] Heq.
  - done.
  - apply (f_equal String.length) in Heq.
    rewrite append_nil_l, append_cons in Heq. simpl in Heq.
    rewrite length_append in Heq. lia.
  - apply (f_equal String.length) in Heq.
    rewrite append_nil_l, append_cons in Heq. simpl in Heq.
    rewrite length_append in Heq. lia.
  - rewrite !append_cons in Heq. injection Heq as -> Heq. f_equal. by apply IH.
Qed.

(** The entries [write] makes for the tree [t], next to the directory itself
    and a [uri.json] holding [uri]. *)
Inductive layout (t : tree) (uri : string) : list string → node → Prop :=
| layout_root : layout t uri [] Dir
| layout_uri : layout t uri [URI_NAME] (File uri)
| layout_info : layout t uri [INFO_NAME] (File (json_dump (info t)))
| layout_categories :
    layout t uri [CATEGORIES_NAME] (File (json_dump (categories t)))
| layout_category c names :
    packages t !! c = Some names → layout t uri [c] Dir
| layout_packages c names :
    packages t !! c = Some names →
    layout t uri [c; PACKAGES_NAME] (File (json_dump (JList (JStr <$> keys names))))
| layout_package c names p vs :
    packages t !! c = Some names → names !! p = Some vs → layout t uri [c; p] Dir
| layout_versions c names p vs :
    packages t !! c = Some names → names !! p = Some vs →
    layout t uri [c; p; VERSIONS_NAME] (File (json_dump (JList (JStr <$> keys vs))))
| layout_version c names p vs v d :
    packages t !! c = Some names → names !! p = Some vs → vs !! v = Some d →
    layout t uri [c; p; v +:+ ".json"] (File (json_dump d)).

Lemma reserved_names c :
  c ∉ reserved →
  c ≠ URI_NAME ∧ c ≠ INFO_NAME ∧ c ≠ CATEGORIES_NAME ∧ c ≠ MANIFEST_NAME.
Proof.
  intros Hc. repeat split; intros ->; apply Hc; unfold reserved;
    repeat (first [by left|right]).
Qed.

(** What [names_fit] says about the categories, packages and versions at
    hand. *)
Ltac fit_facts Hfit :=
  repeat match goal with
  | Hc : packages _ !! ?c = Some ?names |- _ =>
      lazymatch goal with
      | _ : forallb package_fits (map_to_list names) = true |- _ => fail
      | _ => destruct (names_fit_category _ _ _ Hfit Hc) as (? & ?%reserved_names & ?)
      end
  | Hpk : forallb package_fits (map_to_list ?names) = true,
    Hp : ?names !! ?p = Some ?vs |- _ =>
      lazymatch goal with
      | _ : forallb version_fits (keys vs) = true |- _ => fail
      | _ => destruct (names_fit_package _ _ _ Hpk Hp) as (? & ? & ?)
      end
  | Hvs : forallb version_fits (keys ?vs) = true, Hv : ?vs !! ?v = Some ?d |- _ =>
      lazymatch goal with
      | _ : plain_name (v +:+ ".json") = true |- _ => fail
      | _ => destruct (names_fit_version _ _ _ Hvs Hv) as [? ?]
      end
  end.

Lemma layout_root_inv t uri n : layout t uri [] n → n = Dir.
Proof. by inversion 1. Qed.

Lemma layout_top_inv t uri x n :
  layout t uri [x] n →
  (x = URI_NAME ∧ n = File uri)
  ∨ (x = INFO_NAME ∧ n = File (json_dump (info t)))
  ∨ (x = CATEGORIES_NAME ∧ n = File (json_dump (categories t)))
  ∨ (is_Some (packages t !! x) ∧ n = Dir).
Proof. inversion 1; subst; eauto 6. Qed.

Lemma layout_category_inv t uri c y n :
  layout t uri [c; y] n →
  ∃ names, packages t !! c = Some names
    ∧ ((y = PACKAGES_NAME ∧ n = File (json_dump (JList (JStr <$> keys names))))
       ∨ (is_Some (names !! y) ∧ n = Dir)).
Proof. inversion 1; subst; eauto 7. Qed.

Lemma layout_package_inv t uri c p z n :
  layout t uri [c; p; z] n →
  ∃ names vs, packages t !! c = Some names ∧ names !! p = Some vs
    ∧ ((z = VERSIONS_NAME ∧ n = File (json_dump (JList (JStr <$> keys vs))))
       ∨ (∃ v d, z = v +:+ ".json" ∧ vs !! v = Some d ∧ n = File (json_dump d))).
Proof. inversion 1; subst; eauto 12. Qed.

Lemma layout_deep_inv t uri a b c d q n : ¬ layout t uri (a :: b :: c :: d :: q) n.
Proof. inversion 1. Qed.

(** With fitting names a path has one place in the layout. *)
Lemma layout_functional t uri q n n' :
  names_fit t = true → layout t uri q n → layout t uri q n' → n = n'.
Proof.
  intros Hfit H1 H2. destruct q as [|a [|b [|c [|d q]]]].
  - apply layout_root_inv in H1, H2. congruence.
  - apply layout_top_inv in H1, H2.
    assert (is_Some (packages t !! a) →
            a ≠ URI_NAME ∧ a ≠ INFO_NAME ∧ a ≠ CATEGORIES_NAME) as Hcat.
    { intros [names Hc].
      destruct (names_fit_category _ _ _ Hfit Hc) as (_ & Hres%reserved_names & _).
      tauto. }
    destruct H1 as [[-> ->]|[[-> ->]|[[-> ->]|[Hc1 ->]]]];
      destruct H2 as [[E2 ->]|[[E2 ->]|[[E2 ->]|[Hc2 ->]]]];
      try reflexivity; try discriminate E2;
      try (destruct (Hcat Hc1) as (? & ? & ?); congruence);
      try (destruct (Hcat Hc2) as (? & ? & ?); congruence).
  - apply layout_category_inv in H1 as (names & Hc & H1).
    apply layout_category_inv in H2 as (names' & Hc' & H2).
    assert (names' = names) as -> by congruence.
    destruct (names_fit_category _ _ _ Hfit Hc) as (_ & _ & Hpk).
    assert (is_Some (names !! b) → b ≠ PACKAGES_NAME) as Hp.
    { intros [vs Hb]. by destruct (names_fit_package _ _ _ Hpk Hb) as (_ & ? & _). }
    destruct H1 as [[-> ->]|[Hb1 ->]]; destruct H2 as [[E2 ->]|[Hb2 ->]];
      try reflexivity; [by destruct (Hp Hb2)|by destruct (Hp Hb1)].
  - apply layout_package_inv in H1 as (names & vs & Hc & Hp & H1).
    apply layout_package_inv in H2 as (names' & vs' & Hc' & Hp' & H2).
    assert (names' = names) as -> by congruence.
    assert (vs' = vs) as -> by congruence.
    destruct (names_fit_category _ _ _ Hfit Hc) as (_ & _ & Hpk).
    destruct (names_fit_package _ _ _ Hpk Hp) as (_ & _ & Hvs).
    destruct H1 as [[-> ->]|(v1 & d1 & -> & Hv1 & ->)];
      destruct H2 as [[E2 ->]|(v2 & d2 & E2 & Hv2 & ->)].
    + reflexivity.
    + destruct (names_fit_version _ _ _ Hvs Hv2) as [_ Hne]. congruence.
    + destruct (names_fit_version _ _ _ Hvs Hv1) as [_ Hne]. congruence.
    + apply append_inj_r in E2 as ->. congruence.
  - by apply layout_deep_inv in H1.
Qed.

Lemma layout_plain t uri q n :
  names_fit t = true → layout t uri q n → forallb plain_name q = true.
Proof.
  intros Hfit Hq. inversion Hq; subst; fit_facts Hfit; cbn [forallb];
    repeat match goal with H : plain_name _ = true |- _ => rewrite H; clear H end;
    reflexivity.
Qed.

Lemma layout_no_manifest t uri n :
  names_fit t = true → ¬ layout t uri [MANIFEST_NAME] n.
Proof.
  intros Hfit Hq. inversion Hq; subst; fit_facts Hfit; naive_solver.
Qed.

(** Every entry of the tree [d] belongs to the layout. *)
Definition within (t : tree) (uri : string) (d : gmap (list string) node) : Prop :=
  ∀ q n, d !! q = Some n → layout t uri q n.

(** Nothing that was in [d] is gone or changed in [d']. *)
Definition grows (d d' : gmap (list string) node) : Prop :=
  ∀ q n, d !! q = Some n → d' !! q = Some n.

Lemma grows_refl d : grows d d.
Proof. by intros q n. Qed.

Lemma grows_trans d1 d2 d3 : grows d1 d2 → grows d2 d3 → grows d1 d3.
Proof. intros H12 H23 q n Hq. by apply H23, H12. Qed.

(** Writing one file of the layout. *)
Lemma write_step t uri dir name content w :
  names_fit t = true →
  within t uri (disk w) →
  plain_name name = true →
  layout t uri (dir ++ [name]) (File (json_dump content)) →
  (∀ q, q `prefix_of` dir → layout t uri q Dir) →
  ∃ w',
    FileJSON_write {| directory := dir; fpath := dir ++ [name]; mandatories := [] |} content w
    = (Return (), w')
    ∧ self w' = self w
    ∧ within t uri (disk w')
    ∧ grows (disk w) (disk w')
    ∧ disk w' !! (dir ++ [name]) = Some (File (json_dump content))
    ∧ disk w' !! dir = Some Dir.
Proof.
  intros Hfit Hin Hname Hfile Hdirs.
  destruct (FileJSON_write_spec dir name content w Hname) as (d1 & -> & Hdir & Hframe & _).
  { intros q Hq. destruct (disk w !! q) as [n|] eqn:Hn; [|done].
    apply Hin in Hn. rewrite (layout_functional _ _ _ _ _ Hfit Hn (Hdirs q Hq)). done. }
  { intros Hn. apply Hin in Hn. pose proof (layout_functional _ _ _ _ _ Hfit Hn Hfile). done. }
  assert (dir ≠ dir ++ [name]) as Hne.
  { intros Heq. apply (f_equal length) in Heq. rewrite length_app in Heq. simpl in Heq. lia. }
  eexists. split; [done|]. cbn [disk self]. split; [done|]. split; [|split; [|split]].
  - intros q n. destruct (decide (q = dir ++ [name])) as [->|Hq].
    + rewrite lookup_insert_eq. by intros [= <-].
    + rewrite lookup_insert_ne by done. intros Hn.
      destruct (only_new_dirs_inv _ _ _ _ _ Hframe Hn) as [Hold|[Hpre ->]]; [by apply Hin|].
      by apply Hdirs.
  - intros q n Hn. destruct (decide (q = dir ++ [name])) as [->|Hq].
    + rewrite lookup_insert_eq. f_equal.
      apply Hin in Hn. by apply (layout_functional _ _ _ _ _ Hfit Hfile Hn).
    + rewrite lookup_insert_ne by done. by eapply only_new_dirs_Some.
  - apply lookup_insert_eq.
  - by rewrite lookup_insert_ne.
Qed.

(** A loop whose every round keeps an invariant, only adds to the tree, and
    leaves something behind that later rounds do not undo. *)
Lemma for_each_steps {A} (l : list A) (body : A → M unit)
    (Inv : world → Prop) (Post : A → gmap (list string) node → Prop) w :
  (∀ x w, x ∈ l → Inv w →
     ∃ w', body x w = (Return (), w') ∧ Inv w' ∧ grows (disk w) (disk w') ∧ Post x (disk w')) →
  (∀ x d d', Post x d → grows d d' → Post x d') →
  Inv w →
  ∃ w', for_each l body w = (Return (), w') ∧ Inv w' ∧ grows (disk w) (disk w')
    ∧ ∀ x, x ∈ l → Post x (disk w').
Proof.
  intros Hbody Hmono. revert w. induction l as [|x l IH]; intros w Hw.
  - exists w. split; [done|]. split; [done|]. split; [apply grows_refl|].
    intros x Hx. by apply elem_of_nil in Hx.
  - destruct (Hbody x w) as (w1 & Hx & Hw1 & Hg1 & Hp1); [by left|done|].
    destruct IH with (w := w1) as (w' & Hl & Hw' & Hg & Hp); [|done|].
    { intros y w2 Hy. apply Hbody. by right. }
    exists w'. rewrite for_each_cons, Hx. split; [done|]. split; [done|].
    split; [by eapply grows_trans|].
    intros y [->|Hy]%elem_of_cons; [by eapply Hmono|by apply Hp].
Qed.

Lemma prefix_of_two {A} (q : list A) x y :
  q `prefix_of` [x; y] → q = [] ∨ q = [x] ∨ q = [x; y].
Proof.
  intros [k Hk]. destruct q as [|a [|b [|c q]]]; simplify_eq/=; auto.
Qed.

Lemma prefix_of_one {A} (q : list A) x : q `prefix_of` [x] → q = [] ∨ q = [x].
Proof.
  intros [k Hk]. destruct q as [|a [|b q]]; simplify_eq/=; auto.
Qed.

Lemma path_join_two c p :
  plain_name c = true → plain_name p = true →
  (d ← path_join [] c; path_join d p) = Return [c; p].
Proof.
  intros Hc Hp. rewrite (path_join_plain [] c Hc). cbn. by rewrite path_join_plain.
Qed.

Lemma fold_each_total {A B} (l : list A) (acc : B) (body : B → A → M B) w :
  (∀ acc x, x ∈ l → ∃ acc', body acc x w = (Return acc', w)) →
  ∃ acc', fold_each l acc body w = (Return acc', w).
Proof.
  revert acc. induction l as [|x l IH]; intros acc Hbody; [by eexists|].
  destruct (Hbody acc x) as [acc1 Hx]; [by left|].
  destruct (IH acc1) as [acc' Hl]; [intros a y Hy; apply Hbody; by right|].
  exists acc'. by rewrite fold_each_cons, Hx.
Qed.

Lemma hash_file_file p data w :
  disk w !! p = Some (File data) → hash_file p w = (Return (file_digest data), w).
Proof.
  intros Hp. unfold hash_file, get_disk, lift, read_file, mbind, M_bind, bind. cbn.
  by rewrite Hp.
Qed.

Lemma is_file_Some (n : option node) : is_file n = true → ∃ data, n = Some (File data).
Proof. destruct n as [[]|]; naive_solver. Qed.

(** [manifest] returns on a tree of plain names that holds the three fixed
    files and a directory for every category of [categories.json]; all it
    changes is [manifest.json]. *)
Lemma manifest_total w data cats :
  plain_tree (disk w) →
  disk w !! [] = Some Dir →
  disk w !! [MANIFEST_NAME] ≠ Some Dir →
  disk w !! [CATEGORIES_NAME] = Some (File data) →
  json_load data = Some (JDict cats) →
  is_file (disk w !! [INFO_NAME]) = true →
  is_file (disk w !! [URI_NAME]) = true →
  (∀ c, is_Some (cats !! c) → plain_name c = true ∧ disk w !! [c] = Some Dir) →
  ∃ m, manifest w
       = (Return (),
          World (<[[MANIFEST_NAME] := File (json_dump (JDict m))]> (disk w)) (self w)).
Proof.
  intros Hplain Hroot Hman Hcats Hload Hinfo Huri Hdirs. unfold manifest.
  rewrite lift_bind, FileJSON_new_plain by done.
  erewrite bind_Return; cycle 1.
  { rewrite (FileJSON_read_existing _ data) by (cbn; eauto).
    rewrite Hload. by rewrite check_mandatories_nil. }
  cbn beta.
  destruct (fold_each_total fixed_names ∅ manifest_fixed w) as [m1 Hm1].
  { intros acc name Hname. unfold manifest_fixed.
    assert (plain_name name = true ∧ ∃ content, disk w !! [name] = Some (File content))
      as [Hn [content Hc]].
    { apply is_file_Some in Hinfo, Huri.
      repeat (apply elem_of_cons in Hname as [->|Hname]; [split; [done|eauto]|]).
      by apply elem_of_nil in Hname. }
    rewrite lift_bind, path_join_plain by done.
    erewrite bind_Return; [|by apply hash_file_file]. by eexists. }
  erewrite bind_Return; [|exact Hm1]. cbn beta.
  rewrite lift_bind. cbn [py_iter].
  destruct (fold_each_total (JStr <$> keys cats) m1 manifest_category w) as [m Hm].
  { intros acc x (c & -> & Hc%elem_of_keys)%list_elem_of_fmap.
    destruct (Hdirs c Hc) as [Hpc Hdir]. unfold manifest_category.
    rewrite lift_bind. cbn [py_str].
    rewrite lift_bind, path_join_plain by done.
    unfold get_disk. unfold mbind at 1, M_bind at 1, bind at 1. cbn beta iota.
    change ([] ++ [c]) with [c]. rewrite Hdir. cbn [is_dir negb].
    apply fold_each_total. intros acc' p [_ [content Hp]]%elem_of_walk_files.
    unfold manifest_file. rewrite lift_bind. unfold rel_key.
    rewrite (Hplain _ _ Hp).
    erewrite bind_Return; [|by apply hash_file_file]. by eexists. }
  erewrite bind_Return; [|exact Hm]. cbn beta.
  rewrite lift_bind, FileJSON_new_plain by done.
  destruct (FileJSON_write_spec [] MANIFEST_NAME (JDict m) w)
    as (d1 & -> & _ & _ & Hsame); [done| |done|].
  { intros q ->%prefix_nil_inv. by rewrite Hroot. }
  exists m. by rewrite Hsame by eauto.
Qed.

(** The value an attribute gets from [reset_uri]: the argument, or the
    stored one when the argument is empty. *)
Definition effective (arg stored : json) : json :=
  if py_truthy arg then arg else stored.

(** [reset_uri] over a directory whose [uri.json] holds the dictionary [m]
    with both keys: an argument that is not empty replaces the stored value,
    an empty one takes it; [uri.json] is written again with the values the
    instance now has, next to whatever other keys [m] had. *)
Lemma reset_uri_existing (m : gmap string json) r u ra ua w :
  disk w !! [] = Some Dir →
  disk w !! [URI_NAME] = Some (File (json_dump (JDict m))) →
  m !! "repo_uri" = Some r →
  m !! "db_uri" = Some u →
  reset_uri ra ua w
  = (Return (),
     World (<[[URI_NAME] :=
                File (json_dump (JDict (<["db_uri" := effective ua u]>
                                          (<["repo_uri" := effective ra r]> m))))]> (disk w))
       (Obj (effective ra r) (effective ua u) (db (self w)))).
Proof.
  intros Hroot Huri Hr Hu. unfold reset_uri.
  rewrite lift_bind, FileJSON_new_plain by done.
  erewrite bind_Return; cycle 1.
  { rewrite (FileJSON_read_existing _ (json_dump (JDict m))) by (cbn; eauto).
    rewrite json_load_dump, check_mandatories_dict.
    rewrite bool_decide_eq_true_2; [done|]. cbn. repeat constructor; eauto. }
  cbn beta.
  set (w1 := World (disk w) (Obj (effective ra r) (db_uri (self w)) (db (self w)))).
  erewrite (bind_Return _ _ () w w1); cycle 1.
  { unfold w1, effective, set_repo_uri. destruct (py_truthy ra); cbn [negb].
    - reflexivity.
    - rewrite lift_bind. cbn [py_getitem]. by rewrite Hr. }
  cbn beta.
  set (w2 := World (disk w) (Obj (effective ra r) (effective ua u) (db (self w)))).
  erewrite (bind_Return _ _ () w1 w2); cycle 1.
  { unfold w1, w2, effective, set_db_uri. destruct (py_truthy ua); cbn [negb].
    - reflexivity.
    - rewrite lift_bind. cbn [py_getitem]. by rewrite Hu. }
  cbn beta. unfold get_self. unfold mbind at 1, M_bind at 1, bind at 1. cbn beta iota.
  rewrite !lift_bind. cbn [py_setitem self w2 repo_uri db_uri].
  rewrite lift_bind. unfold FileJSON_write.
  erewrite bind_Return; cycle 1.
  { rewrite check_mandatories_dict. rewrite bool_decide_eq_true_2; [done|].
    cbn. repeat constructor.
    - rewrite lookup_insert_ne by done. rewrite lookup_insert_eq. eauto.
    - rewrite lookup_insert_eq. eauto. }
  cbn beta.
  erewrite bind_Return; [|apply ensure_directory_exists; cbn; eauto]. cbn beta.
  erewrite disk_op_Return; [reflexivity|].
  apply (open_w_snoc [] URI_NAME); [done|]. cbn. by rewrite Huri.
Qed.

(** [PackageDB(directory)] over a directory left by an instance whose URIs
    were [r] and [u]: the new instance has the same URIs, an empty tree, and
    the directory is as it was. *)
Lemma PackageDB_new_reopens d r u :
  d !! [] = Some Dir →
  d !! [URI_NAME] = Some (File (json_dump (JDict {[ "repo_uri" := r; "db_uri" := u ]}))) →
  PackageDB_new d (JStr "") (JStr "") = (Return (), World d (Obj r u empty_tree)).
Proof.
  intros Hroot Huri. unfold PackageDB_new, PackageDB_init.
  set (m := ({[ "repo_uri" := r; "db_uri" := u ]} : gmap string json)) in *.
  assert (m !! "repo_uri" = Some r) as Hr by (unfold m; by rewrite lookup_insert_eq).
  assert (m !! "db_uri" = Some u) as Hu.
  { unfold m. rewrite lookup_insert_ne by done. by rewrite lookup_singleton_eq. }
  erewrite bind_Return; [|by apply (reset_uri_existing m r u)].
  cbn beta. unfold reset_db, put_db, effective. cbn.
  rewrite (insert_id m "repo_uri" r), (insert_id m "db_uri" u) by done.
  by rewrite insert_id.
Qed.

Section Layout_of_a_tree.
Variables (o : PackageDB) (uri : string).
Local Abbreviation t := (db o).
Hypothesis Hfit : names_fit t = true.

(** What holds between two writes of [write]. *)
Definition writing (w : world) : Prop :=
  self w = o ∧ within t uri (disk w).

(** What the rounds of the three loops leave in the tree [d]. *)
Definition version_written (c p : string) (item : string * json)
    (d : gmap (list string) node) : Prop :=
  d !! [c; p; item.1 +:+ ".json"] = Some (File (json_dump item.2)).

Definition package_written (c : string) (item : string * gmap string json)
    (d : gmap (list string) node) : Prop :=
  d !! [c; item.1] = Some Dir
  ∧ d !! [c; item.1; VERSIONS_NAME] = Some (File (json_dump (JList (JStr <$> keys item.2))))
  ∧ ∀ v, v ∈ map_to_list item.2 → version_written c item.1 v d.

Definition category_written (c : string) (d : gmap (list string) node) : Prop :=
  ∀ names, packages t !! c = Some names →
    d !! [c] = Some Dir
    ∧ d !! [c; PACKAGES_NAME] = Some (File (json_dump (JList (JStr <$> keys names))))
    ∧ ∀ p, p ∈ map_to_list names → package_written c p d.

Lemma write_version_step c names p vs item w :
  packages t !! c = Some names → names !! p = Some vs → item ∈ map_to_list vs →
  writing w →
  ∃ w', write_version c p item w = (Return (), w') ∧ writing w'
    ∧ grows (disk w) (disk w') ∧ version_written c p item (disk w').
Proof.
  intros Hc Hp Hitem [Hdb Hin]. destruct item as [v d].
  apply elem_of_map_to_list in Hitem as Hv. fit_facts Hfit.
  unfold write_version. cbn [fst snd].
  rewrite lift_bind, path_join_two by done.
  rewrite lift_bind, FileJSON_new_plain by done.
  destruct (write_step t uri [c; p] (v +:+ ".json") d w) as (w' & Hw & Hself & ? & ? & ? & _);
    [done..| | |].
  - by eapply layout_version.
  - intros q [-> | [-> | ->]]%prefix_of_two;
      [apply layout_root|by eapply layout_category|by eapply layout_package].
  - exists w'. split; [done|]. split; [|done]. split; [by rewrite Hself|done].
Qed.

Lemma write_package_step c names item w :
  packages t !! c = Some names → item ∈ map_to_list names →
  writing w →
  ∃ w', write_package c item w = (Return (), w') ∧ writing w'
    ∧ grows (disk w) (disk w') ∧ package_written c item (disk w').
Proof.
  intros Hc Hitem Hw. destruct item as [p vs].
  apply elem_of_map_to_list in Hitem as Hp. fit_facts Hfit.
  unfold write_package. cbn [fst snd].
  destruct (for_each_steps (map_to_list vs) (write_version c p) writing
              (version_written c p) w) as (w1 & Hloop & [Hdb1 Hin1] & Hg1 & Hvs1); [| |done|].
  { intros item w0 Hin0 Hw0. by eapply write_version_step. }
  { intros item d d' Hd Hg. by apply Hg. }
  erewrite bind_Return; [|exact Hloop]. cbn beta.
  rewrite lift_bind, path_join_two by done.
  rewrite lift_bind, FileJSON_new_plain by done.
  destruct (write_step t uri [c; p] VERSIONS_NAME (JList (JStr <$> keys vs)) w1)
    as (w' & Hw' & Hself & ? & Hg & ? & ?); [done..| | |].
  - by eapply layout_versions.
  - intros q [-> | [-> | ->]]%prefix_of_two;
      [apply layout_root|by eapply layout_category|by eapply layout_package].
  - exists w'. split; [done|]. split; [split; [by rewrite Hself|done]|].
    split; [by eapply grows_trans|].
    split; [done|]. split; [done|]. intros v Hv. by apply Hg, Hvs1.
Qed.

Lemma write_category_step c w :
  is_Some (packages t !! c) → writing w →
  ∃ w', write_category (JStr c) w = (Return (), w') ∧ writing w'
    ∧ grows (disk w) (disk w') ∧ category_written c (disk w').
Proof.
  intros [names Hc] Hw. fit_facts Hfit.
  unfold write_category. rewrite lift_bind. cbn [py_str].
  unfold get_db. unfold mbind at 1, M_bind at 1, bind at 1. cbn beta iota.
  destruct Hw as [Hdb Hin]. rewrite Hdb, Hc.
  destruct (for_each_steps (map_to_list names) (write_package c) writing
              (package_written c) w) as (w1 & Hloop & [Hdb1 Hin1] & Hg1 & Hps1); [| |done|].
  { intros item w0 Hin0 Hw0. by eapply write_package_step. }
  { intros item d d' (Hd & Hvs & Hv) Hg. split; [by apply Hg|]. split; [by apply Hg|].
    intros v Hv'. by apply Hg, Hv. }
  erewrite bind_Return; [|exact Hloop]. cbn beta.
  rewrite lift_bind, path_join_plain by done.
  rewrite lift_bind, FileJSON_new_plain by done.
  destruct (write_step t uri [c] PACKAGES_NAME (JList (JStr <$> keys names)) w1)
    as (w' & Hw' & Hself & ? & Hg & ? & ?); [done..| | |].
  - by eapply layout_packages.
  - intros q [-> | ->]%prefix_of_one; [apply layout_root|by eapply layout_category].
  - exists w'. split; [done|]. split; [split; [by rewrite Hself|done]|].
    split; [by eapply grows_trans|].
    intros names' Hc'. assert (names' = names) as -> by congruence.
    split; [done|]. split; [done|]. intros item Hitem.
    destruct (Hps1 item Hitem) as (Hd & Hvs & Hv).
    split; [by apply Hg|]. split; [by apply Hg|]. intros v Hv'. by apply Hg, Hv.
Qed.

Lemma write_layout cats w :
  categories t = JDict cats → dom cats = dom (packages t) →
  writing w →
  ∃ w', write w = (Return (), w') ∧ writing w' ∧ grows (disk w) (disk w')
    ∧ disk w' !! [] = Some Dir
    ∧ disk w' !! [INFO_NAME] = Some (File (json_dump (info t)))
    ∧ disk w' !! [CATEGORIES_NAME] = Some (File (json_dump (categories t)))
    ∧ ∀ c, is_Some (packages t !! c) → category_written c (disk w').
Proof.
  intros Hcats Hdom [Hself Hin]. unfold write.
  rewrite lift_bind, FileJSON_new_plain by done.
  rewrite lift_bind, FileJSON_new_plain by done.
  unfold get_db. unfold mbind at 1, M_bind at 1, bind at 1. cbn beta iota.
  rewrite Hself.
  destruct (write_step t uri [] INFO_NAME (info t) w) as (w1 & Hw1 & Hs1 & Hin1 & Hg1 & Hi1 & Hr1);
    [done..|apply layout_info| |].
  { intros q ->%prefix_nil_inv. apply layout_root. }
  erewrite bind_Return; [|exact Hw1]. cbn beta.
  destruct (write_step t uri [] CATEGORIES_NAME (categories t) w1)
    as (w2 & Hw2 & Hs2 & Hin2 & Hg2 & Hi2 & Hr2); [done..|apply layout_categories| |].
  { intros q ->%prefix_nil_inv. apply layout_root. }
  erewrite bind_Return; [|exact Hw2]. cbn beta.
  rewrite lift_bind, Hcats. cbn [py_iter].
  destruct (for_each_steps (JStr <$> keys cats) write_category writing
              (λ x d, ∀ c, x = JStr c → category_written c d) w2)
    as (w' & Hloop & Hw' & Hg & Hcs); [| |split; [congruence|done]|].
  { intros x w0 (c & -> & Hc)%list_elem_of_fmap Hw0.
    destruct (write_category_step c w0) as (w3 & ? & ? & ? & ?); [|done|].
    - apply elem_of_keys, elem_of_dom in Hc. rewrite Hdom in Hc. by apply elem_of_dom.
    - exists w3. split; [done|]. split; [done|]. split; [done|]. by intros c' [= <-]. }
  { intros x d d' Hx Hgr c -> names Hc.
    destruct (Hx c eq_refl names Hc) as (Hd & Hp & Hps).
    split; [by apply Hgr|]. split; [by apply Hgr|]. intros item Hitem.
    destruct (Hps item Hitem) as (Hd' & Hvs & Hv).
    split; [by apply Hgr|]. split; [by apply Hgr|]. intros v Hv'. by apply Hgr, Hv. }
  exists w'. split; [done|]. split; [done|].
  split; [by eapply grows_trans; [|eapply grows_trans]|].
  split; [by apply Hg, Hg2|]. split; [by apply Hg, Hg2|].
  split; [apply Hg; by rewrite <-Hcats|].
  intros c Hc. eapply Hcs; [|done]. apply list_elem_of_fmap. exists c. split; [done|].
  apply elem_of_keys, elem_of_dom. rewrite Hdom. by apply elem_of_dom.
Qed.

(** The tree [d] holds the layout and nothing else. *)
Definition laid_out (d : gmap (list string) node) : Prop :=
  ∀ q n, d !! q = Some n ↔ layout t uri q n.

(** [write] over a directory that holds [uri.json] only. *)
Lemma write_laid_out cats w :
  categories t = JDict cats → dom cats = dom (packages t) →
  self w = o → disk w = {[ [] := Dir; [URI_NAME] := File uri ]} →
  ∃ w', write w = (Return (), w') ∧ self w' = o ∧ laid_out (disk w').
Proof using Hfit.
  intros Hcats Hdom Hself Hdisk.
  assert (disk w !! [] = Some Dir) as Hroot by by rewrite Hdisk.
  assert (disk w !! [URI_NAME] = Some (File uri)) as Huri by by rewrite Hdisk.
  destruct (write_layout cats w Hcats Hdom) as (w' & Hw & [Hs Hin] & Hg & _ & Hi & Hc & Hcs).
  { split; [done|]. intros q n. rewrite Hdisk.
    intros [[<- <-]|[_ [<- <-]%lookup_singleton_Some]]%lookup_insert_Some;
      [apply layout_root|apply layout_uri]. }
  exists w'. split; [done|]. split; [done|]. intros q n. split; [apply Hin|].
  intros Hq.
  inversion Hq as [| | | |c names Hc'|c names Hc'|c names p vs Hc' Hp|c names p vs Hc' Hp
                   |c names p vs v d Hc' Hp Hv]; subst.
  - by apply Hg.
  - by apply Hg.
  - done.
  - done.
  - by destruct (Hcs c (mk_is_Some _ _ Hc') names Hc') as (? & _).
  - by destruct (Hcs c (mk_is_Some _ _ Hc') names Hc') as (_ & ? & _).
  - destruct (Hcs c (mk_is_Some _ _ Hc') names Hc') as (_ & _ & Hps).
    by destruct (Hps (p, vs)) as (? & _); [by apply elem_of_map_to_list|].
  - destruct (Hcs c (mk_is_Some _ _ Hc') names Hc') as (_ & _ & Hps).
    by destruct (Hps (p, vs)) as (_ & ? & _); [by apply elem_of_map_to_list|].
  - destruct (Hcs c (mk_is_Some _ _ Hc') names Hc') as (_ & _ & Hps).
    destruct (Hps (p, vs)) as (_ & _ & Hvs); [by apply elem_of_map_to_list|].
    apply (Hvs (v, d)). by apply elem_of_map_to_list.
Qed.

Lemma laid_out_plain d : laid_out d → plain_tree d.
Proof using Hfit. intros Hd q n Hq. eapply layout_plain; [done|]. by apply Hd. Qed.

Lemma laid_out_no_manifest d : laid_out d → d !! [MANIFEST_NAME] = None.
Proof using Hfit.
  intros Hd. destruct (d !! [MANIFEST_NAME]) as [n|] eqn:Hn; [|done].
  apply Hd in Hn. by apply layout_no_manifest in Hn.
Qed.

End Layout_of_a_tree.

(** ** Reading a tree back *)

(** Every package of the tree has a version. *)
Definition packages_filled (t : tree) : bool :=
  forallb (λ item : string * gmap string (gmap string json),
             forallb (λ pkg : string * gmap string json,
                        match keys pkg.2 with [] => false | _ => true end)
               (map_to_list item.2))
    (map_to_list (packages t)).

Lemma packages_filled_package t c names p vs :
  packages_filled t = true → packages t !! c = Some names → names !! p = Some vs →
  keys vs ≠ [].
Proof.
  intros Hfilled Hc Hp.
  apply (forallb_elem _ _ (c, names)) in Hfilled; [|by apply elem_of_map_to_list].
  apply (forallb_elem _ _ (p, vs)) in Hfilled; [|by apply elem_of_map_to_list].
  cbn in Hfilled. by destruct (keys vs).
Qed.

(** The part of [m] whose keys are in [done]. *)
Definition upto {A} (done : list string) (m : gmap string A) : gmap string A :=
  filter (λ kv, kv.1 ∈ done) m.

Lemma upto_nil {A} (m : gmap string A) : upto [] m = ∅.
Proof.
  apply map_eq. intros k. rewrite lookup_empty. apply map_lookup_filter_None. right.
  intros x _ Hin. by apply elem_of_nil in Hin.
Qed.

Lemma upto_snoc {A} done k x (m : gmap string A) :
  m !! k = Some x → <[k := x]> (upto done m) = upto (done ++ [k]) m.
Proof.
  intros Hk. apply map_eq. intros j. apply option_eq. intros y.
  unfold upto. rewrite map_lookup_filter_Some. cbn.
  destruct (decide (j = k)) as [->|Hne].
  - rewrite lookup_insert_eq. split.
    + intros [= <-]. split; [done|]. apply elem_of_app. right. by left.
    + intros [Hy _]. congruence.
  - rewrite lookup_insert_ne by done. rewrite map_lookup_filter_Some. cbn.
    rewrite elem_of_app, list_elem_of_singleton. naive_solver.
Qed.

Lemma upto_all {A} done (m : gmap string A) :
  (∀ k, is_Some (m !! k) → k ∈ done) → upto done m = m.
Proof.
  intros Hall. apply map_eq. intros j. apply option_eq. intros y.
  unfold upto. rewrite map_lookup_filter_Some. cbn. naive_solver.
Qed.

(** A loop that returns in every round, with what the rounds made so far
    have established. *)
Lemma for_each_rounds {A} (l : list A) (body : A → M unit)
    (Inv : list A → world → Prop) w :
  (∀ done x w, x ∈ l → Inv done w →
     ∃ w', body x w = (Return (), w') ∧ Inv (done ++ [x]) w') →
  Inv [] w →
  ∃ w', for_each l body w = (Return (), w') ∧ Inv l w'.
Proof.
  intros Hbody Hw.
  assert (∀ rest done w, (∀ x, x ∈ rest → x ∈ l) → Inv done w →
            ∃ w', for_each rest body w = (Return (), w') ∧ Inv (done ++ rest) w') as Hgen.
  { clear w Hw. induction rest as [|x rest IH]; intros done w Hsub Hw.
    - exists w. by rewrite app_nil_r.
    - destruct (Hbody done x w) as (w1 & Hx & Hw1); [apply Hsub; by left|done|].
      destruct (IH (done ++ [x]) w1) as (w' & Hrest & Hw'); [|done|].
      { intros y Hy. apply Hsub. by right. }
      exists w'. rewrite for_each_cons, Hx. split; [done|].
      by rewrite <-app_assoc in Hw'. }
  by apply (Hgen l [] w).
Qed.

Lemma for_each_fmap {A B} (f : A → B) (l : list A) (body : B → M unit) w :
  for_each (f <$> l) body w = for_each l (λ x, body (f x)) w.
Proof.
  revert w. induction l as [|x l IH]; intros w; [done|].
  rewrite fmap_cons, !for_each_cons. destruct (body (f x) w) as [[[]|e] w']; [apply IH|done].
Qed.

(** Reading a file that holds a dumped document, with no mandatory key. *)
Lemma FileJSON_read_file dir name content w :
  disk w !! (dir ++ [name]) = Some (File (json_dump content)) →
  is_Some (disk w !! dir) →
  FileJSON_read {| directory := dir; fpath := dir ++ [name]; mandatories := [] |} w
  = (Return content, w).
Proof.
  intros Hf Hd. rewrite (FileJSON_read_existing _ (json_dump content)) by done.
  rewrite json_load_dump. by rewrite check_mandatories_nil.
Qed.

(** The tree [d] holds the whole layout (and possibly more). *)
Definition holds (t : tree) (uri : string) (d : gmap (list string) node) : Prop :=
  ∀ q n, layout t uri q n → d !! q = Some n.

(** The instance of [w] with [self.db['packages']] replaced. *)
Definition with_packages (pk : gmap string (gmap string (gmap string json))) (w : world)
  : world :=
  World (disk w)
    (Obj (repo_uri (self w)) (db_uri (self w))
       (Tree (info (db (self w))) (categories (db (self w))) pk)).

Lemma with_packages_same w : with_packages (packages (db (self w))) w = w.
Proof. by destruct w as [d [r u [i c pk]]]. Qed.

Lemma update_packages_spec f w :
  update_packages f w = (Return (), with_packages (f (packages (db (self w)))) w).
Proof. reflexivity. Qed.

Section Reading_a_tree.
Variables (t : tree) (uri : string).
Hypothesis Hfit : names_fit t = true.
Hypothesis Hcategories : categories_filled t = true.
Hypothesis Hpackages : packages_filled t = true.

Lemma read_version_step c names p vs v d V N base w :
  holds t uri (disk w) →
  packages t !! c = Some names → names !! p = Some vs → vs !! v = Some d →
  packages (db (self w)) = <[c := <[p := V]> N]> base →
  read_version c p [c; p] (JStr v) w
  = (Return (), with_packages (<[c := <[p := <[v := d]> V]> N]> base) w).
Proof using Hfit.
  intros Hd Hc Hp Hv Hpk. fit_facts Hfit.
  unfold read_version. rewrite lift_bind. cbn [py_str].
  rewrite lift_bind, FileJSON_new_plain by done.
  erewrite bind_Return; cycle 1.
  { apply FileJSON_read_file.
    - apply Hd. by eapply layout_version.
    - exists Dir. apply Hd. by eapply layout_package. }
  cbn beta. rewrite update_packages_spec, Hpk. cbn beta zeta.
  rewrite lookup_insert_eq. cbn [default from_option id]. rewrite lookup_insert_eq. cbn [default from_option id].
  by rewrite !insert_insert_eq.
Qed.

Lemma read_package_step c names p vs N base w :
  holds t uri (disk w) →
  packages t !! c = Some names → names !! p = Some vs →
  packages (db (self w)) = <[c := N]> base →
  read_package c [c] (JStr p) w
  = (Return (), with_packages (<[c := <[p := vs]> N]> base) w).
Proof using Hfit Hpackages.
  intros Hd Hc Hp Hpk. fit_facts Hfit.
  pose proof (packages_filled_package _ _ _ _ _ Hpackages Hc Hp) as Hne.
  unfold read_package. rewrite lift_bind. cbn [py_str].
  rewrite lift_bind, path_join_plain by done.
  unfold get_disk. unfold mbind at 1, M_bind at 1, bind at 1. cbn beta iota.
  rewrite (Hd [c] Dir) by (by eapply layout_category). cbn [is_dir negb].
  rewrite lift_bind, FileJSON_new_plain by done.
  erewrite bind_Return; cycle 1.
  { apply FileJSON_read_file.
    - apply Hd. by eapply layout_versions.
    - exists Dir. apply Hd. by eapply layout_package. }
  cbn beta.
  assert (py_truthy (JList (JStr <$> keys vs)) = true) as ->.
  { cbn. by destruct (keys vs). }
  cbn [negb]. erewrite bind_Return; [|apply update_packages_spec]. cbn beta.
  rewrite lift_bind. cbn [py_iter]. rewrite for_each_fmap.
  set (w1 := with_packages _ w).
  destruct (for_each_rounds (keys vs) (λ x, read_version c p ([c] ++ [p]) (JStr x))
              (λ done w', w' = with_packages (<[c := <[p := upto done vs]> N]> base) w) w1)
    as (w' & -> & ->).
  - intros done v w0 [d Hv]%elem_of_keys ->. eexists. split.
    + eapply read_version_step; [done..|]. reflexivity.
    + cbn. by rewrite (upto_snoc _ _ _ _ Hv).
  - unfold w1. rewrite Hpk, lookup_insert_eq. cbn [default from_option id].
    by rewrite insert_insert_eq, upto_nil.
  - rewrite upto_all; [done|]. intros k. by rewrite elem_of_keys.
Qed.

Lemma read_category_step c names base w :
  holds t uri (disk w) →
  packages t !! c = Some names → keys names ≠ [] →
  packages (db (self w)) = base →
  read_category (JStr c) w = (Return (), with_packages (<[c := names]> base) w).
Proof using Hfit Hpackages.
  intros Hd Hc Hne Hpk. fit_facts Hfit.
  unfold read_category. rewrite lift_bind. cbn [py_str].
  rewrite lift_bind, path_join_plain by done.
  unfold get_disk. unfold mbind at 1, M_bind at 1, bind at 1. cbn beta iota.
  change ([] ++ [c]) with [c].
  rewrite (Hd [c] Dir) by (by eapply layout_category). cbn [is_dir negb].
  rewrite lift_bind, FileJSON_new_plain by done.
  erewrite bind_Return; cycle 1.
  { apply FileJSON_read_file.
    - apply Hd. by eapply layout_packages.
    - exists Dir. apply Hd. by eapply layout_category. }
  cbn beta.
  assert (py_truthy (JList (JStr <$> keys names)) = true) as ->.
  { cbn. by destruct (keys names). }
  cbn [negb]. erewrite bind_Return; [|apply update_packages_spec]. cbn beta.
  rewrite lift_bind. cbn [py_iter]. rewrite for_each_fmap.
  set (w1 := with_packages _ w).
  destruct (for_each_rounds (keys names) (λ x, read_package c [c] (JStr x))
              (λ done w', w' = with_packages (<[c := upto done names]> base) w) w1)
    as (w' & -> & ->).
  - intros done p w0 [vs Hp]%elem_of_keys ->. eexists. split.
    + eapply read_package_step; [done..|]. reflexivity.
    + cbn. by rewrite (upto_snoc _ _ _ _ Hp).
  - unfold w1. by rewrite Hpk, upto_nil.
  - rewrite upto_all; [done|]. intros k. by rewrite elem_of_keys.
Qed.

Lemma read_categories (cats : gmap string json) w :
  holds t uri (disk w) →
  dom cats = dom (packages t) →
  for_each (JStr <$> keys cats) read_category w
  = (Return (), with_packages (packages t ∪ packages (db (self w))) w).
Proof using Hfit Hcategories Hpackages.
  intros Hd Hdom. rewrite for_each_fmap.
  destruct (for_each_rounds (keys cats) (λ x, read_category (JStr x))
              (λ done w', w' = with_packages (upto done (packages t) ∪ packages (db (self w))) w)
              w) as (w' & -> & ->).
  - intros done c w0 Hin ->.
    apply elem_of_keys, elem_of_dom in Hin. rewrite Hdom in Hin.
    apply elem_of_dom in Hin as [names Hc]. eexists. split.
    + eapply read_category_step; [done| |by eapply categories_filled_category|]; done.
    + cbn. by rewrite insert_union_l, (upto_snoc _ _ _ _ Hc).
  - by rewrite upto_nil, (left_id_L ∅ (∪)), with_packages_same.
  - rewrite upto_all; [done|]. intros k Hk.
    apply elem_of_keys, elem_of_dom. rewrite Hdom. by apply elem_of_dom.
Qed.

End Reading_a_tree.

(** [check_manifest] over a manifest whose every entry is the digest of the
    file it names. *)
Lemma check_manifest_sound w d1 m :
  disk w = <[[MANIFEST_NAME] := File (json_dump (JDict m))]> d1 →
  is_Some (d1 !! []) →
  Forall (λ name, is_Some (m !! name)) fixed_names →
  manifest_sound d1 m →
  check_manifest w = (Return (true, []), w).
Proof.
  intros Hdisk Hroot Hfixed Hsound.
  assert (disk w !! [MANIFEST_NAME] = Some (File (json_dump (JDict m)))) as Hman.
  { rewrite Hdisk. apply lookup_insert_eq. }
  assert (∀ q, q ≠ [MANIFEST_NAME] → disk w !! q = d1 !! q) as Hother.
  { intros q Hq. rewrite Hdisk. by rewrite lookup_insert_ne. }
  assert (∀ name value, m !! name = Some value →
            entry_state (disk w) (name, value) = Return true) as Hstate.
  { intros name value Hin.
    destruct (Hsound name value Hin) as (p & data & Hres & Hne & Hp & ->).
    erewrite entry_state_file; [|done|by rewrite Hother].
    by rewrite is_str_refl. }
  rewrite (check_manifest_loaded w _ m Hman); [| |apply json_load_dump].
  2:{ by rewrite Hother. }
  rewrite find_all_present by done.
  rewrite check_entries_readable.
  - rewrite filter_none; [done|].
    intros [name value] Hin%elem_of_map_to_list.
    unfold mismatch. by rewrite (Hstate _ _ Hin).
  - apply Forall_forall. intros [name value] Hin%list_elem_of_In%elem_of_map_to_list.
    exists true. by apply Hstate.
Qed.

(** [read] over a directory that holds the layout of [t] and a manifest that
    agrees with it: the instance gets the tree [t], whatever it had before
    stays under the categories [t] does not have, and the directory is left
    as it was. *)
Lemma read_holds t uri (cats : gmap string json) d1 m w :
  names_fit t = true → categories_filled t = true → packages_filled t = true →
  categories t = JDict cats → dom cats = dom (packages t) →
  holds t uri (disk w) →
  disk w = <[[MANIFEST_NAME] := File (json_dump (JDict m))]> d1 →
  is_Some (d1 !! []) →
  Forall (λ name, is_Some (m !! name)) fixed_names →
  manifest_sound d1 m →
  read w
  = (Return (),
     World (disk w)
       (Obj (repo_uri (self w)) (db_uri (self w))
          (Tree (info t) (categories t) (packages t ∪ packages (db (self w)))))).
Proof.
  intros Hfit Hcf Hpf Hcats Hdom Hd Hdisk Hroot Hfixed Hsound. unfold read.
  erewrite bind_Return; [|by eapply check_manifest_sound]. cbn beta. cbn [fst negb].
  rewrite lift_bind, FileJSON_new_plain by done.
  rewrite lift_bind, FileJSON_new_plain by done.
  assert (is_Some (disk w !! [])) as Hr by (exists Dir; apply Hd, layout_root).
  erewrite bind_Return; cycle 1.
  { apply FileJSON_read_file; [|done]. apply Hd, layout_info. }
  cbn beta. erewrite bind_Return; [|reflexivity]. cbn beta.
  erewrite bind_Return; cycle 1.
  { apply FileJSON_read_file; [|done]. apply Hd, layout_categories. }
  cbn beta. erewrite bind_Return; [|reflexivity]. cbn beta.
  rewrite lift_bind, Hcats. cbn [py_iter].
  by rewrite (read_categories t uri Hfit Hcf Hpf cats).
Qed.

(** The text of [uri.json] for an instance. *)
Definition uri_text (o : PackageDB) : string :=
  json_dump (JDict {[ "repo_uri" := repo_uri o; "db_uri" := db_uri o ]}).

(** [write] and then [manifest], for an instance in a directory that holds
    [uri.json] only and a tree whose names fit the layout: both return, and
    the directory then holds the layout of the tree and a manifest that
    agrees with it. *)
Lemma write_then_manifest (cats : gmap string json) w :
  names_fit (db (self w)) = true →
  categories (db (self w)) = JDict cats →
  dom cats = dom (packages (db (self w))) →
  disk w = skeleton (repo_uri (self w)) (db_uri (self w)) →
  ∃ w1 D d1 m,
    write w = (Return (), w1)
    ∧ self w1 = self w
    ∧ laid_out (self w) (uri_text (self w)) (disk w1)
    ∧ manifest w1 = (Return (), World D (self w))
    ∧ holds (db (self w)) (uri_text (self w)) D
    ∧ D = <[[MANIFEST_NAME] := File (json_dump (JDict m))]> d1
    ∧ d1 !! [] = Some Dir
    ∧ Forall (λ name, is_Some (m !! name)) fixed_names
    ∧ manifest_sound d1 m
    ∧ ∀ q n, D !! q = Some n →
        q = [MANIFEST_NAME] ∨ layout (db (self w)) (uri_text (self w)) q n.
Proof.
  intros Hfit Hcats Hdom Hdisk.
  destruct (write_laid_out (self w) (uri_text (self w)) Hfit cats w Hcats Hdom eq_refl Hdisk)
    as (w1 & Hwrite & Hself1 & Hlaid).
  pose proof (laid_out_no_manifest _ _ Hfit _ Hlaid) as Hnone.
  destruct (manifest_total w1 (json_dump (JDict cats)) cats) as [m Hman].
  { by eapply laid_out_plain. }
  { apply Hlaid, layout_root. }
  { by rewrite Hnone. }
  { rewrite <-Hcats. apply Hlaid, layout_categories. }
  { apply json_load_dump. }
  { by rewrite (proj2 (Hlaid _ _) (layout_info _ _)). }
  { by rewrite (proj2 (Hlaid _ _) (layout_uri _ _)). }
  { intros c Hc. apply elem_of_dom in Hc. rewrite Hdom in Hc.
    apply elem_of_dom in Hc as [names Hc].
    destruct (names_fit_category _ _ _ Hfit Hc) as (Hplain & _).
    split; [done|]. apply Hlaid. by eapply layout_category. }
  set (D := <[[MANIFEST_NAME] := File (json_dump (JDict m))]> (disk w1)) in Hman.
  destruct (manifest_Return _ _ Hman) as (d1 & m' & Hd1 & _ & Hroot & Hfixed & Hsound).
  cbn [disk] in Hd1. rewrite Hself1 in Hman.
  exists w1, D, d1, m'. repeat (split; [done|]). split; [|split; [done|split; [done|split; [done|split; [done|]]]]].
  - intros q n Hq. unfold D. rewrite lookup_insert_ne.
    + by apply Hlaid.
    + intros <-. by apply layout_no_manifest in Hq.
  - intros q n. unfold D. intros [[<- _]|[_ Hq]]%lookup_insert_Some; [by left|].
    right. by apply Hlaid.
Qed.

(** [write], [manifest], a new instance over the directory, [read]: for an
    instance in a directory that holds [uri.json] only, whose tree has names
    that fit the layout, no category without package and no package without
    version, each of the four returns, the new instance has the URIs of the
    old one, and [read] gives it the tree that was written. *)
Lemma write_manifest_read (cats : gmap string json) w :
  names_fit (db (self w)) = true →
  categories_filled (db (self w)) = true →
  packages_filled (db (self w)) = true →
  categories (db (self w)) = JDict cats →
  dom cats = dom (packages (db (self w))) →
  disk w = skeleton (repo_uri (self w)) (db_uri (self w)) →
  ∃ w1 w2,
    write w = (Return (), w1)
    ∧ manifest w1 = (Return (), w2)
    ∧ self w2 = self w
    ∧ PackageDB_new (disk w2) (JStr "") (JStr "")
      = (Return (),
         World (disk w2) (Obj (repo_uri (self w)) (db_uri (self w)) empty_tree))
    ∧ read (World (disk w2) (Obj (repo_uri (self w)) (db_uri (self w)) empty_tree))
      = (Return (), w2)
    ∧ read w2 = (Return (), w2).
Proof.
  intros Hfit Hcf Hpf Hcats Hdom Hdisk.
  destruct (write_then_manifest cats w Hfit Hcats Hdom Hdisk)
    as (w1 & D & d1 & m & Hwrite & Hself1 & _ & Hman & Hholds & HD & Hroot & Hfixed & Hsound & _).
  assert (∀ s, read (World D s)
               = (Return (),
                  World D (Obj (repo_uri s) (db_uri s)
                             (Tree (info (db (self w))) (categories (db (self w)))
                                (packages (db (self w)) ∪ packages (db s)))))) as Hread.
  { intros s. by rewrite (read_holds (db (self w)) (uri_text (self w)) cats d1 m). }
  exists w1, (World D (self w)). cbn [disk self].
  split; [done|]. split; [done|]. split; [done|]. split; [|split].
  - apply PackageDB_new_reopens; [apply Hholds, layout_root|apply Hholds, layout_uri].
  - rewrite Hread. cbn. rewrite (right_id_L ∅ (∪)). by destruct (self w) as [r u [i c pk]].
  - rewrite Hread. destruct (self w) as [r u [i c pk]]. cbn.
    by rewrite (idemp (∪) pk).
Qed.

(** A loop that raises in the first round of a kind, having returned in the
    rounds before it. *)
Lemma for_each_stops {A} (l : list A) (body : A → M unit) (Inv : world → Prop)
    (bad : A → bool) (E : A → exn) w :
  (∀ x w, x ∈ l → Inv w → bad x = false → ∃ w', body x w = (Return (), w') ∧ Inv w') →
  (∀ x w, x ∈ l → Inv w → bad x = true → ∃ w', body x w = (Raise (E x), w') ∧ Inv w') →
  Inv w →
  (∃ x, x ∈ l ∧ bad x = true) →
  ∃ x w', x ∈ l ∧ bad x = true ∧ for_each l body w = (Raise (E x), w') ∧ Inv w'.
Proof.
  revert w. induction l as [|y l IH]; intros w Hgood Hbad Hw (x & Hx & Hbx).
  { by apply elem_of_nil in Hx. }
  destruct (bad y) eqn:Hy.
  - destruct (Hbad y w) as (w' & Hbody & Hw'); [by left|done..|].
    exists y, w'. split; [by left|]. split; [done|]. by rewrite for_each_cons, Hbody.
  - destruct (Hgood y w) as (w1 & Hbody & Hw1); [by left|done..|].
    destruct (IH w1) as (z & w' & Hz & Hbz & Hloop & Hw'); [| |done| |].
    + intros z w2 Hz. apply Hgood. by right.
    + intros z w2 Hz. apply Hbad. by right.
    + exists x. split; [|done]. apply elem_of_cons in Hx as [->|Hx]; [congruence|done].
    + exists z, w'. split; [by right|]. split; [done|]. by rewrite for_each_cons, Hbody.
Qed.

(** [read] of a category whose [packages.json] holds the empty list. *)
Lemma read_category_empty t uri c w :
  names_fit t = true →
  holds t uri (disk w) →
  packages t !! c = Some ∅ →
  read_category (JStr c) w = (Raise (Exception ("Empty category: " +:+ c)), w).
Proof.
  intros Hfit Hd Hc. fit_facts Hfit.
  unfold read_category. rewrite lift_bind. cbn [py_str].
  rewrite lift_bind, path_join_plain by done.
  unfold get_disk. unfold mbind at 1, M_bind at 1, bind at 1. cbn beta iota.
  change ([] ++ [c]) with [c].
  rewrite (Hd [c] Dir) by (by eapply layout_category). cbn [is_dir negb].
  rewrite lift_bind, FileJSON_new_plain by done.
  erewrite bind_Return; cycle 1.
  { apply FileJSON_read_file.
    - apply Hd. by eapply layout_packages.
    - exists Dir. apply Hd. by eapply layout_category. }
  cbn beta. by rewrite keys_empty.
Qed.

(** The category [c] is in the tree and has no package. *)
Definition no_packages (t : tree) (c : string) : bool :=
  match packages t !! c with
  | Some names => match keys names with [] => true | _ => false end
  | None => false
  end.

Lemma no_packages_spec t c : no_packages t c = true ↔ packages t !! c = Some ∅.
Proof.
  unfold no_packages. destruct (packages t !! c) as [names|] eqn:Hc; [|done].
  destruct (keys names) eqn:Hk.
  - split; [intros _|done]. f_equal.
    apply map_to_list_empty_iff. unfold keys in Hk. by apply fmap_nil_inv in Hk.
  - split; [done|]. intros [= ->]. by rewrite keys_empty in Hk.
Qed.

(** [read] over a directory that holds the layout of a tree with a category
    without packages, and a manifest that agrees with it. *)
Lemma read_empty_category t uri (cats : gmap string json) d1 m c w :
  names_fit t = true → packages_filled t = true →
  categories t = JDict cats → dom cats = dom (packages t) →
  holds t uri (disk w) →
  disk w = <[[MANIFEST_NAME] := File (json_dump (JDict m))]> d1 →
  is_Some (d1 !! []) →
  Forall (λ name, is_Some (m !! name)) fixed_names →
  manifest_sound d1 m →
  packages t !! c = Some ∅ →
  ∃ c' w', packages t !! c' = Some ∅
    ∧ read w = (Raise (Exception ("Empty category: " +:+ c')), w')
    ∧ disk w' = disk w.
Proof.
  intros Hfit Hpf Hcats Hdom Hd Hdisk Hroot Hfixed Hsound Hc. unfold read.
  erewrite bind_Return; [|by eapply check_manifest_sound]. cbn beta. cbn [fst negb].
  rewrite lift_bind, FileJSON_new_plain by done.
  rewrite lift_bind, FileJSON_new_plain by done.
  assert (is_Some (disk w !! [])) as Hr by (exists Dir; apply Hd, layout_root).
  erewrite bind_Return; cycle 1.
  { apply FileJSON_read_file; [|done]. apply Hd, layout_info. }
  cbn beta. erewrite bind_Return; [|reflexivity]. cbn beta.
  erewrite bind_Return; cycle 1.
  { apply FileJSON_read_file; [|done]. apply Hd, layout_categories. }
  cbn beta. erewrite bind_Return; [|reflexivity]. cbn beta.
  rewrite lift_bind, Hcats. cbn [py_iter]. rewrite for_each_fmap.
  match goal with |- context [for_each _ _ ?w0] => set (w1 := w0) end.
  destruct (for_each_stops (keys cats) (λ x, read_category (JStr x))
              (λ w', disk w' = disk w)
              (no_packages t)
              (λ x, Exception ("Empty category: " +:+ x)) w1)
    as (c' & w' & _ & Hc'%no_packages_spec & Hloop & Hw'); [| |done| |].
  - intros x w0 Hx Hw0 Hgood.
    apply elem_of_keys, elem_of_dom in Hx. rewrite Hdom in Hx.
    apply elem_of_dom in Hx as [names Hx].
    erewrite (read_category_step t uri Hfit Hpf x names); [by eexists| |done| |done].
    + by rewrite Hw0.
    + intros Hk. unfold no_packages in Hgood. by rewrite Hx, Hk in Hgood.
  - intros x w0 Hx Hw0 Hbad%no_packages_spec.
    exists w0. split; [|done]. apply (read_category_empty t uri); [done| |done].
    by rewrite Hw0.
  - exists c. split; [|by apply no_packages_spec].
    apply elem_of_keys, elem_of_dom. rewrite Hdom. by apply elem_of_dom.
  - by exists c', w'.
Qed.

(** ** What [manifest] lists *)

Lemma fold_each_rounds {A B} (l : list A) (body : B → A → M B)
    (Inv : list A → B → Prop) acc w :
  (∀ done x acc, x ∈ l → Inv done acc →
     ∃ acc', body acc x w = (Return acc', w) ∧ Inv (done ++ [x]) acc') →
  Inv [] acc →
  ∃ acc', fold_each l acc body w = (Return acc', w) ∧ Inv l acc'.
Proof.
  intros Hbody Hacc.
  assert (∀ rest done acc, (∀ x, x ∈ rest → x ∈ l) → Inv done acc →
            ∃ acc', fold_each rest acc body w = (Return acc', w) ∧ Inv (done ++ rest) acc')
    as Hgen.
  { clear acc Hacc. induction rest as [|x rest IH]; intros done acc Hsub Hacc.
    - exists acc. by rewrite app_nil_r.
    - destruct (Hbody done x acc) as (acc1 & Hx & Hacc1); [apply Hsub; by left|done|].
      destruct (IH (done ++ [x]) acc1) as (acc' & Hrest & Hacc'); [|done|].
      { intros y Hy. apply Hsub. by right. }
      exists acc'. rewrite fold_each_cons, Hx. split; [done|].
      by rewrite <-app_assoc in Hacc'. }
  by apply (Hgen l [] acc).
Qed.

Lemma fold_each_fmap {A B C} (f : A → B) (l : list A) (body : C → B → M C) acc w :
  fold_each (f <$> l) acc body w = fold_each l acc (λ acc x, body acc (f x)) w.
Proof.
  revert acc w. induction l as [|x l IH]; intros acc w; [done|].
  rewrite fmap_cons, !fold_each_cons. destruct (body acc (f x) w) as [[acc'|e] w']; [apply IH|done].
Qed.

Lemma concat_plain_inj p q :
  p ≠ [] → q ≠ [] → forallb plain_name p = true → forallb plain_name q = true →
  String.concat "/" p = String.concat "/" q → p = q.
Proof.
  intros Hp Hq Hpp Hpq Heq.
  rewrite <-(split_slash_concat p), <-(split_slash_concat q) by done. by rewrite Heq.
Qed.

(** The manifest [m] has one entry for every regular file of [d] that [S]
    selects, under the file's path written with [/], holding its digest,
    and no other entry. *)
Definition recorded (d : gmap (list string) node) (S : list string → Prop)
    (m : gmap string json) : Prop :=
  ∀ key value,
    m !! key = Some value
    ↔ ∃ p content, S p ∧ d !! p = Some (File content)
        ∧ key = String.concat "/" p ∧ value = JStr (file_digest content).

Lemma recorded_ext d (S S' : list string → Prop) m :
  (∀ p content, d !! p = Some (File content) → S p ↔ S' p) →
  recorded d S m → recorded d S' m.
Proof.
  intros Hext Hm key value. rewrite (Hm key value).
  split; intros (p & content & Hp & Hfile & Hrest); exists p, content;
    (split; [by eapply Hext|done]).
Qed.

Lemma recorded_insert d (S : list string → Prop) m p content :
  plain_tree d → d !! [] = Some Dir →
  recorded d S m →
  d !! p = Some (File content) →
  recorded d (λ q, S q ∨ q = p) (<[String.concat "/" p := JStr (file_digest content)]> m).
Proof.
  intros Hplain Hroot Hm Hp key value.
  assert (∀ q c, d !! q = Some (File c) → String.concat "/" q = String.concat "/" p → q = p)
    as Hinj.
  { intros q c Hq Heq. apply concat_plain_inj; [| |by eapply Hplain..|done]; congruence. }
  destruct (decide (key = String.concat "/" p)) as [->|Hne].
  - rewrite lookup_insert_eq. split.
    + intros [= <-]. exists p, content. auto.
    + intros (q & c & _ & Hq & Heq & ->). symmetry in Heq.
      apply (Hinj q c Hq) in Heq as ->. congruence.
  - rewrite lookup_insert_ne by done. rewrite (Hm key value). split.
    + intros (q & c & Hs & Hq & Hk & Hv). exists q, c. auto.
    + intros (q & c & [Hs | ->] & Hq & Hk & Hv); [by exists q, c|done].
Qed.

(** The paths [manifest] hashes: the three fixed files and whatever lies
    below the directory of a category of [categories.json]. *)
Definition tracked (cats : gmap string json) (p : list string) : Prop :=
  (∃ name, name ∈ fixed_names ∧ p = [name])
  ∨ (∃ c rest, is_Some (cats !! c) ∧ p = c :: rest).

Lemma below_one c p : is_Some (below [c] p) ↔ ∃ rest, p = c :: rest.
Proof.
  split.
  - intros [r Hr]. apply below_Some in Hr. by exists r.
  - intros [rest ->]. cbn. rewrite bool_decide_eq_true_2 by done. by eexists.
Qed.

(** [manifest] over a directory of plain names that holds the three fixed
    files and a directory for every category of [categories.json]: it
    returns, [manifest.json] is the one path it writes, and the manifest
    written has an entry for every regular file that is one of the three or
    lies below the directory of a category, keyed by the file's path
    relative to the database directory and holding the digest of its
    content, and has no other entry. *)
Theorem manifest_lists_tracked_files w data cats :
  plain_tree (disk w) →
  disk w !! [] = Some Dir →
  disk w !! [MANIFEST_NAME] ≠ Some Dir →
  disk w !! [CATEGORIES_NAME] = Some (File data) →
  json_load data = Some (JDict cats) →
  is_file (disk w !! [INFO_NAME]) = true →
  is_file (disk w !! [URI_NAME]) = true →
  (∀ c, is_Some (cats !! c) → plain_name c = true ∧ disk w !! [c] = Some Dir) →
  ∃ m, manifest w
       = (Return (),
          World (<[[MANIFEST_NAME] := File (json_dump (JDict m))]> (disk w)) (self w))
    ∧ recorded (disk w) (tracked cats) m.
Proof.
  intros Hplain Hroot Hman Hcats Hload Hinfo Huri Hdirs. unfold manifest.
  rewrite lift_bind, FileJSON_new_plain by done.
  erewrite bind_Return; cycle 1.
  { rewrite (FileJSON_read_existing _ data) by (cbn; eauto).
    rewrite Hload. by rewrite check_mandatories_nil. }
  cbn beta.
  destruct (fold_each_rounds fixed_names manifest_fixed
              (λ done, recorded (disk w) (λ p, ∃ name, name ∈ done ∧ p = [name])) ∅ w)
    as (m1 & Hm1 & Hrec1).
  { intros done name acc Hname Hacc. unfold manifest_fixed.
    assert (plain_name name = true ∧ ∃ content, disk w !! [name] = Some (File content))
      as [Hn [content Hc]].
    { apply is_file_Some in Hinfo, Huri.
      repeat (apply elem_of_cons in Hname as [->|Hname]; [split; [done|eauto]|]).
      by apply elem_of_nil in Hname. }
    rewrite lift_bind, path_join_plain by done.
    erewrite bind_Return; [|by apply hash_file_file]. eexists. split; [done|].
    pose proof (recorded_insert _ _ _ [name] content Hplain Hroot Hacc Hc) as Hins.
    cbn [String.concat] in Hins. eapply recorded_ext; [|exact Hins].
    intros p c _. cbn beta. split.
    - intros [(n & Hin & ->) | ->]; [exists n|exists name];
        (split; [|done]); apply elem_of_app; [by left|right; by left].
    - intros (n & [Hin | ->%list_elem_of_singleton]%elem_of_app & ->); [left; by exists n|by right]. }
  { intros key value. rewrite lookup_empty. split; [done|].
    intros (p & c & (n & Hn%elem_of_nil & _) & _). done. }
  erewrite bind_Return; [|exact Hm1]. cbn beta.
  rewrite lift_bind. cbn [py_iter].
  destruct (fold_each_rounds (keys cats) (λ acc x, manifest_category acc (JStr x))
              (λ done, recorded (disk w)
                         (λ p, (∃ name, name ∈ fixed_names ∧ p = [name])
                               ∨ (∃ c rest, c ∈ done ∧ p = c :: rest))) m1 w)
    as (m & Hm & Hrec).
  { intros done c acc Hc%elem_of_keys Hacc.
    destruct (Hdirs c Hc) as [Hpc Hdir]. unfold manifest_category.
    rewrite lift_bind. cbn [py_str].
    rewrite lift_bind, path_join_plain by done.
    unfold get_disk. unfold mbind at 1, M_bind at 1, bind at 1. cbn beta iota.
    change ([] ++ [c]) with [c]. rewrite Hdir. cbn [is_dir negb].
    destruct (fold_each_rounds (walk_files [c] (disk w)) manifest_file
                (λ seen, recorded (disk w)
                           (λ p, ((∃ name, name ∈ fixed_names ∧ p = [name])
                                  ∨ (∃ c rest, c ∈ done ∧ p = c :: rest))
                                 ∨ p ∈ seen)) acc w)
      as (acc' & Hacc' & Hrec').
    { intros seen p acc0 [_ [content Hp]]%elem_of_walk_files Hacc0.
      unfold manifest_file. rewrite lift_bind. unfold rel_key.
      rewrite (Hplain _ _ Hp).
      erewrite bind_Return; [|by apply hash_file_file]. eexists. split; [done|].
      pose proof (recorded_insert _ _ _ p content Hplain Hroot Hacc0 Hp) as Hins.
      eapply recorded_ext; [|exact Hins].
      intros q c' _. cbn beta. rewrite elem_of_app, list_elem_of_singleton. tauto. }
    { eapply recorded_ext; [|exact Hacc]. intros q c' _. cbn beta.
      split; [by left|]. intros [?|[]%elem_of_nil]. done. }
    exists acc'. split; [done|]. eapply recorded_ext; [|exact Hrec'].
    intros q content Hq. cbn beta. rewrite elem_of_walk_files, below_one. split.
    - intros [[Hfix | (c' & rest & Hin & ->)] | [[rest ->] _]]; [by left| |].
      + right. exists c', rest. split; [|done]. apply elem_of_app. by left.
      + right. exists c, rest. split; [|done]. apply elem_of_app. right. by left.
    - intros [Hfix | (c' & rest & [Hin | ->%list_elem_of_singleton]%elem_of_app & ->)].
      + left. by left.
      + left. right. by exists c', rest.
      + right. split; [by exists rest|by exists content]. }
  { eapply recorded_ext; [|exact Hrec1]. intros q c _. cbn beta. split; [by left|].
    intros [Hfix | (c' & rest & []%elem_of_nil & _)]. done. }
  erewrite bind_Return; [|rewrite fold_each_fmap; exact Hm]. cbn beta.
  rewrite lift_bind, FileJSON_new_plain by done.
  destruct (FileJSON_write_spec [] MANIFEST_NAME (JDict m) w)
    as (d1 & -> & _ & _ & Hsame); [done| |done|].
  { intros q ->%prefix_nil_inv. by rewrite Hroot. }
  exists m. rewrite Hsame by eauto. split; [done|].
  eapply recorded_ext; [|exact Hrec]. intros q c _. unfold tracked.
  split; (intros [Hfix | (c' & rest & Hin & ->)]; [by left|right; exists c', rest]);
    (split; [|done]); by apply elem_of_keys.
Qed.

Lemma fold_each_stops {A B} (l : list A) (body : B → A → M B)
    (bad : A → bool) (E : A → exn) acc w :
  (∀ x acc, x ∈ l → bad x = false → ∃ acc', body acc x w = (Return acc', w)) →
  (∀ x acc, x ∈ l → bad x = true → body acc x w = (Raise (E x), w)) →
  (∃ x, x ∈ l ∧ bad x = true) →
  ∃ x, x ∈ l ∧ bad x = true ∧ fold_each l acc body w = (Raise (E x), w).
Proof.
  revert acc. induction l as [|y l IH]; intros acc Hgood Hbad (x & Hx & Hbx).
  { by apply elem_of_nil in Hx. }
  destruct (bad y) eqn:Hy.
  - exists y. split; [by left|]. split; [done|].
    rewrite fold_each_cons, (Hbad y acc); [done|by left|done].
  - destruct (Hgood y acc) as (acc1 & Hbody); [by left|done|].
    destruct (IH acc1) as (z & Hz & Hbz & Hloop).
    + intros z acc2 Hz. apply Hgood. by right.
    + intros z acc2 Hz. apply Hbad. by right.
    + exists x. split; [|done]. apply elem_of_cons in Hx as [->|Hx]; [congruence|done].
    + exists z. split; [by right|]. split; [done|]. by rewrite fold_each_cons, Hbody.
Qed.

(** [manifest] when [categories.json] names a category that has no
    directory: it raises "Empty category" for such a category, and the
    directory is as it was, without a new [manifest.json]. *)
Theorem manifest_category_without_directory w data cats c :
  plain_tree (disk w) →
  disk w !! [] = Some Dir →
  disk w !! [CATEGORIES_NAME] = Some (File data) →
  json_load data = Some (JDict cats) →
  is_file (disk w !! [INFO_NAME]) = true →
  is_file (disk w !! [URI_NAME]) = true →
  (∀ c, is_Some (cats !! c) → plain_name c = true) →
  is_Some (cats !! c) → is_dir (disk w !! [c]) = false →
  ∃ c', is_Some (cats !! c') ∧ is_dir (disk w !! [c']) = false
    ∧ manifest w = (Raise (Exception ("Empty category: " +:+ c')), w).
Proof.
  intros Hplain Hroot Hcats Hload Hinfo Huri Hnames Hc Hnodir. unfold manifest.
  rewrite lift_bind, FileJSON_new_plain by done.
  erewrite bind_Return; cycle 1.
  { rewrite (FileJSON_read_existing _ data) by (cbn; eauto).
    rewrite Hload. by rewrite check_mandatories_nil. }
  cbn beta.
  destruct (fold_each_total fixed_names ∅ manifest_fixed w) as [m1 Hm1].
  { intros acc name Hname. unfold manifest_fixed.
    assert (plain_name name = true ∧ ∃ content, disk w !! [name] = Some (File content))
      as [Hn [content Hf]].
    { apply is_file_Some in Hinfo, Huri.
      repeat (apply elem_of_cons in Hname as [->|Hname]; [split; [done|eauto]|]).
      by apply elem_of_nil in Hname. }
    rewrite lift_bind, path_join_plain by done.
    erewrite bind_Return; [|by apply hash_file_file]. by eexists. }
  erewrite bind_Return; [|exact Hm1]. cbn beta.
  rewrite lift_bind. cbn [py_iter].
  destruct (fold_each_stops (keys cats) (λ acc x, manifest_category acc (JStr x))
              (λ x, negb (is_dir (disk w !! [x])))
              (λ x, Exception ("Empty category: " +:+ x)) m1 w)
    as (c' & Hc'%elem_of_keys & Hbad%negb_true_iff & Hloop).
  - intros x acc Hx%elem_of_keys Hdir%negb_false_iff.
    unfold manifest_category. rewrite lift_bind. cbn [py_str].
    rewrite lift_bind, path_join_plain by auto.
    unfold get_disk. unfold mbind at 1, M_bind at 1, bind at 1. cbn beta iota.
    change ([] ++ [x]) with [x]. rewrite Hdir. cbn [negb].
    apply fold_each_total. intros acc' p [_ [content Hp]]%elem_of_walk_files.
    unfold manifest_file. rewrite lift_bind. unfold rel_key.
    rewrite (Hplain _ _ Hp).
    erewrite bind_Return; [|by apply hash_file_file]. by eexists.
  - intros x acc Hx%elem_of_keys Hdir%negb_true_iff.
    unfold manifest_category. rewrite lift_bind. cbn [py_str].
    rewrite lift_bind, path_join_plain by auto.
    unfold get_disk. unfold mbind at 1, M_bind at 1, bind at 1. cbn beta iota.
    change ([] ++ [x]) with [x]. by rewrite Hdir.
  - exists c. split; [by apply elem_of_keys|]. by apply negb_true_iff.
  - exists c'. split; [done|]. split; [done|].
    erewrite bind_Raise; [done|]. rewrite fold_each_fmap. exact Hloop.
Qed.

(** ** Trees built through the class *)

(** Every version mapping of the tree holds a version. *)
Definition versions_nonempty (t : tree) : Prop :=
  ∀ c names p (vs : gmap string json),
    packages t !! c = Some names → names !! p = Some vs → vs ≠ ∅.

Lemma call_versions o w :
  versions_nonempty (db (self w)) → versions_nonempty (db (self (call o w).2)).
Proof.
  intros Hw. destruct o as [c d|p d]; simpl.
  - unfold add_category, get_db, put_db, lift, mbind, M_bind, bind. cbn.
    destruct (py_setitem (categories (db (self w))) c d) as [cats|e]; [|done]. cbn.
    intros c' names p vs Hc Hp. cbn in Hc. destruct (decide (c' = c)) as [->|Hne].
    + rewrite lookup_insert_eq in Hc. by injection Hc as <-.
    + rewrite lookup_insert_ne in Hc by done. by eapply Hw.
  - destruct (packages (db (self w)) !! category p) as [names|] eqn:Hp.
    + rewrite (add_package_present _ _ _ _ Hp). cbn.
      intros c' names' p' vs Hc Hp'. cbn in Hc.
      destruct (decide (c' = category p)) as [->|Hne].
      * rewrite lookup_insert_eq in Hc. injection Hc as <-.
        destruct (decide (p' = name p)) as [->|Hnp].
        -- rewrite lookup_insert_eq in Hp'. injection Hp' as <-. apply insert_non_empty.
        -- rewrite lookup_insert_ne in Hp' by done. by eapply Hw.
      * rewrite lookup_insert_ne in Hc by done. by eapply Hw.
    + by rewrite (add_package_missing _ _ _ Hp).
Qed.

Lemma calls_versions l w :
  versions_nonempty (db (self w)) → versions_nonempty (db (self (calls l w))).
Proof.
  intros Hw. induction l as [|o l IH] using rev_ind; [done|].
  rewrite calls_snoc. by apply call_versions.
Qed.

Lemma versions_nonempty_filled t : versions_nonempty t → packages_filled t = true.
Proof.
  intros Ht. apply forallb_forall. intros [c names] Hc%list_elem_of_In%elem_of_map_to_list.
  apply forallb_forall. intros [p vs] Hp%list_elem_of_In%elem_of_map_to_list. cbn.
  destruct (keys vs) eqn:Hk; [|done]. exfalso. apply (Ht c names p vs Hc Hp).
  apply map_to_list_empty_iff. unfold keys in Hk. by apply fmap_nil_inv in Hk.
Qed.

(** Neither call touches the directory or the URIs. *)
Lemma call_frame o w :
  disk (call o w).2 = disk w
  ∧ repo_uri (self (call o w).2) = repo_uri (self w)
  ∧ db_uri (self (call o w).2) = db_uri (self w)
  ∧ info (db (self (call o w).2)) = info (db (self w)).
Proof.
  destruct o as [c d|p d]; simpl.
  - unfold add_category, get_db, put_db, lift, mbind, M_bind, bind. cbn.
    by destruct (py_setitem (categories (db (self w))) c d).
  - unfold add_package, get_db, put_db, raise, mbind, M_bind, bind. cbn.
    by destruct (packages (db (self w)) !! category p).
Qed.

Lemma calls_frame l w :
  disk (calls l w) = disk w
  ∧ repo_uri (self (calls l w)) = repo_uri (self w)
  ∧ db_uri (self (calls l w)) = db_uri (self w)
  ∧ info (db (self (calls l w))) = info (db (self w)).
Proof.
  induction l as [|o l IH] using rev_ind; [done|].
  rewrite calls_snoc. destruct (call_frame o (calls l w)) as (-> & -> & -> & ->). done.
Qed.

(** [PackageDB(directory, repo_uri, db_uri)] over a directory that does not
    exist. *)
Lemma PackageDB_new_empty r u :
  PackageDB_new ∅ r u
  = (Return (), World (skeleton (kept r) (kept u)) (Obj (kept r) (kept u) empty_tree)).
Proof.
  unfold PackageDB_new, PackageDB_init.
  erewrite bind_Return; [|apply reset_uri_empty]. reflexivity.
Qed.

(** The instance made in a new directory, after the calls of [l]. *)
Definition built (l : list op) (r u : json) : world :=
  calls l (PackageDB_new ∅ r u).2.

Lemma built_facts l r u :
  disk (built l r u) = skeleton (kept r) (kept u)
  ∧ repo_uri (self (built l r u)) = kept r
  ∧ db_uri (self (built l r u)) = kept u
  ∧ info (db (self (built l r u))) = JDict ∅
  ∧ tree_shape (db (self (built l r u)))
  ∧ packages_filled (db (self (built l r u))) = true.
Proof.
  unfold built. rewrite PackageDB_new_empty. cbn [snd].
  destruct (calls_frame l (World (skeleton (kept r) (kept u))
                             (Obj (kept r) (kept u) empty_tree))) as (-> & -> & -> & ->).
  split; [done|]. split; [done|]. split; [done|]. split; [done|]. split.
  - apply calls_shape, empty_tree_shape.
  - apply versions_nonempty_filled, calls_versions. by intros c names p vs Hc.
Qed.

(** ** Round trips through the directory *)

(** An instance is made in a directory that does not exist yet and filled by
    calls of [add_category] and [add_package].  If the names of the tree fit
    the layout and every category has a package, then [write] and [manifest]
    return, a new instance over the directory gets the same two URIs, and
    [read] on the new instance returns and leaves it equal to the first one:
    same URIs, same tree, the directory untouched by the reading. *)
Theorem round_trip_of_calls l r u :
  names_fit (db (self (built l r u))) = true →
  categories_filled (db (self (built l r u))) = true →
  ∃ w1 w2,
    write (built l r u) = (Return (), w1)
    ∧ manifest w1 = (Return (), w2)
    ∧ PackageDB_new (disk w2) (JStr "") (JStr "")
      = (Return (), World (disk w2) (Obj (kept r) (kept u) empty_tree))
    ∧ read (World (disk w2) (Obj (kept r) (kept u) empty_tree)) = (Return (), w2)
    ∧ self w2 = self (built l r u).
Proof.
  intros Hfit Hcf.
  destruct (built_facts l r u) as (Hdisk & Hr & Hu & _ & (cats & Hcats & Hdom) & Hpf).
  destruct (write_manifest_read cats (built l r u))
    as (w1 & w2 & Hwrite & Hman & Hself & Hnew & Hread & _); [done..| |].
  { by rewrite Hr, Hu. }
  rewrite Hr, Hu in Hnew, Hread. by exists w1, w2.
Qed.

(** The instance with [repo_uri] replaced by an argument that is not empty. *)
Definition with_repo_uri (arg : json) (o : PackageDB) : PackageDB :=
  if py_truthy arg then Obj arg (db_uri o) (db o) else o.

(** [generate] with a [generate_tree] that returns, leaves the directory and
    the URIs as [clean] made them, and builds a tree whose names fit the
    layout, with a package in every category and a version in every
    package: [generate] returns, and [read] on a new instance over the
    directory gives that instance the tree [generate_tree] built. *)
Theorem generate_then_read generate_tree arg w w0 (cats : gmap string json) :
  disk w !! [] = Some Dir →
  generate_tree (cleaned (with_repo_uri arg (self w))) = (Return (), w0) →
  disk w0 = skeleton (repo_uri (self w0)) (db_uri (self w0)) →
  categories (db (self w0)) = JDict cats →
  dom cats = dom (packages (db (self w0))) →
  names_fit (db (self w0)) = true →
  categories_filled (db (self w0)) = true →
  packages_filled (db (self w0)) = true →
  ∃ w2,
    generate generate_tree arg w = (Return (), w2)
    ∧ self w2 = self w0
    ∧ PackageDB_new (disk w2) (JStr "") (JStr "")
      = (Return (), World (disk w2) (Obj (repo_uri (self w0)) (db_uri (self w0)) empty_tree))
    ∧ read (World (disk w2) (Obj (repo_uri (self w0)) (db_uri (self w0)) empty_tree))
      = (Return (), w2).
Proof.
  intros Hroot Htree Hdisk Hcats Hdom Hfit Hcf Hpf.
  destruct (write_manifest_read cats w0)
    as (w1 & w2 & Hwrite & Hman & Hself & Hnew & Hread & _); [done..|].
  exists w2. split; [|done]. unfold generate.
  erewrite (bind_Return _ _ () w (World (disk w) (with_repo_uri arg (self w)))); cycle 1.
  { unfold with_repo_uri. destruct (py_truthy arg); [reflexivity|]. by destruct w. }
  cbn beta. erewrite bind_Return; [|by apply clean_spec]. cbn beta. cbn [self].
  erewrite bind_Return; [|exact Htree]. cbn beta.
  erewrite bind_Return; [|exact Hwrite]. done.
Qed.

(** A category registered without any package.  [write] does not raise its
    "Empty category" exception: it returns, having written the empty list
    into the [packages.json] of the category; [manifest] returns as well;
    and [read] of what they wrote, on any instance over the directory,
    raises "Empty category" for a category without packages. *)
Theorem empty_category_written_not_read (cats : gmap string json) c w :
  names_fit (db (self w)) = true →
  packages_filled (db (self w)) = true →
  categories (db (self w)) = JDict cats →
  dom cats = dom (packages (db (self w))) →
  disk w = skeleton (repo_uri (self w)) (db_uri (self w)) →
  packages (db (self w)) !! c = Some ∅ →
  ∃ w1 w2,
    write w = (Return (), w1)
    ∧ disk w1 !! [c; PACKAGES_NAME] = Some (File (json_dump (JList [])))
    ∧ manifest w1 = (Return (), w2)
    ∧ ∀ s, ∃ c' w3,
        packages (db (self w)) !! c' = Some ∅
        ∧ read (World (disk w2) s) = (Raise (Exception ("Empty category: " +:+ c')), w3)
        ∧ disk w3 = disk w2.
Proof.
  intros Hfit Hpf Hcats Hdom Hdisk Hc.
  destruct (write_then_manifest cats w Hfit Hcats Hdom Hdisk)
    as (w1 & D & d1 & m & Hwrite & Hself1 & Hlaid & Hman & Hholds & HD & Hroot & Hfixed
        & Hsound & _).
  exists w1, (World D (self w)). split; [done|]. split; [|split; [done|]].
  - apply Hlaid. pose proof (layout_packages _ (uri_text (self w)) _ _ Hc) as Hl.
    exact Hl.
  - intros s. cbn [disk].
    destruct (read_empty_category (db (self w)) (uri_text (self w)) cats d1 m c (World D s))
      as (c' & w3 & Hc' & Hread & Hd3); [done..|exists Dir; done|done|done|done|].
    by exists c', w3.
Qed.

(** [write] when [self.db['categories']] has a category that
    [self.db['packages']] lacks (the two are then not the work of
    [add_category]): it raises "Empty category" for such a category, after
    [info.json] and [categories.json] have been written; the latter names
    the category. *)
Theorem write_category_without_packages (cats : gmap string json) c w :
  names_fit (db (self w)) = true →
  categories (db (self w)) = JDict cats →
  disk w = skeleton (repo_uri (self w)) (db_uri (self w)) →
  is_Some (cats !! c) → packages (db (self w)) !! c = None →
  ∃ c' w',
    is_Some (cats !! c') ∧ packages (db (self w)) !! c' = None
    ∧ write w = (Raise (Exception ("Empty category: " +:+ c')), w')
    ∧ self w' = self w
    ∧ disk w' !! [INFO_NAME] = Some (File (json_dump (info (db (self w)))))
    ∧ disk w' !! [CATEGORIES_NAME] = Some (File (json_dump (JDict cats))).
Proof.
  intros Hfit Hcats Hdisk Hc Hnone.
  set (uri := uri_text (self w)).
  assert (writing (self w) uri w) as Hw.
  { split; [done|]. intros q n. rewrite Hdisk. unfold skeleton.
    intros [[<- <-]|[_ [<- <-]%lookup_singleton_Some]]%lookup_insert_Some;
      [apply layout_root|apply layout_uri]. }
  unfold write.
  rewrite lift_bind, FileJSON_new_plain by done.
  rewrite lift_bind, FileJSON_new_plain by done.
  unfold get_db. unfold mbind at 1, M_bind at 1, bind at 1. cbn beta iota.
  destruct Hw as [Hself Hin].
  destruct (write_step (db (self w)) uri [] INFO_NAME (info (db (self w))) w)
    as (w1 & Hw1 & Hs1 & Hin1 & Hg1 & Hi1 & Hr1); [done..|apply layout_info| |].
  { intros q ->%prefix_nil_inv. apply layout_root. }
  erewrite bind_Return; [|exact Hw1]. cbn beta.
  destruct (write_step (db (self w)) uri [] CATEGORIES_NAME (categories (db (self w))) w1)
    as (w2 & Hw2 & Hs2 & Hin2 & Hg2 & Hi2 & Hr2); [done..|apply layout_categories| |].
  { intros q ->%prefix_nil_inv. apply layout_root. }
  erewrite bind_Return; [|exact Hw2]. cbn beta.
  rewrite lift_bind, Hcats. cbn [py_iter].
  destruct (for_each_stops (keys cats) (λ x, write_category (JStr x))
              (λ w', writing (self w) uri w' ∧ grows (disk w2) (disk w'))
              (λ x, negb (bool_decide (is_Some (packages (db (self w)) !! x))))
              (λ x, Exception ("Empty category: " +:+ x)) w2)
    as (c' & w' & Hc'%elem_of_keys & Hbad%negb_true_iff%bool_decide_eq_false & Hloop
        & [Hs' _] & Hg').
  - intros x w0 _ [Hw0 Hg0] Hx%negb_false_iff%bool_decide_eq_true.
    destruct (write_category_step (self w) uri Hfit x w0 Hx Hw0) as (w3 & Hstep & Hw3 & Hg3 & _).
    exists w3. split; [done|]. split; [done|]. by eapply grows_trans.
  - intros x w0 _ [[Hs0 Hw0] Hg0] Hx%negb_true_iff%bool_decide_eq_false.
    exists w0. split; [|done]. unfold write_category. rewrite lift_bind. cbn [py_str].
    unfold get_db. unfold mbind at 1, M_bind at 1, bind at 1. cbn beta iota.
    rewrite Hs0. destruct (packages (db (self w)) !! x) eqn:Hpx; [|done].
    exfalso. apply Hx. by eexists.
  - split; [|apply grows_refl]. split; [congruence|done].
  - exists c. split; [by apply elem_of_keys|].
    apply negb_true_iff, bool_decide_eq_false. rewrite Hnone. by intros [? ?].
  - exists c', w'. split; [done|]. split.
    { destruct (packages (db (self w)) !! c') eqn:Hpc; [|done]. exfalso. apply Hbad. by eexists. }
    split; [by rewrite <-for_each_fmap in Hloop|]. split; [by destruct Hs'|].
    split; [by apply Hg', Hg2|]. apply Hg'. by rewrite <-Hcats.
Qed.

(** ** The URIs of an instance *)

Lemma skeleton_lookup r u p :
  skeleton r u !! p
  = if decide (p = []) then Some Dir
    else if decide (p = [URI_NAME])
         then Some (File (json_dump (JDict {[ "repo_uri" := r; "db_uri" := u ]})))
         else None.
Proof.
  unfold skeleton. destruct (decide (p = [])) as [->|Hp]; [done|].
  rewrite lookup_insert_ne by done.
  destruct (decide (p = [URI_NAME])) as [->|Hu]; [apply lookup_singleton_eq|].
  by apply lookup_singleton_ne.
Qed.

(** An instance is made in a directory that does not exist yet, with
    arguments [r] and [u]; then a second one over the same directory, with
    arguments [r'] and [u'].  The second instance takes each URI from its
    argument when that is not empty and from [uri.json], as the first one
    left it, otherwise; it leaves in the directory a [uri.json] with the
    URIs it took, and nothing else. *)
Theorem PackageDB_init_persists_uris r u r' u' :
  PackageDB_new (disk (PackageDB_new ∅ r u).2) r' u'
  = (Return (),
     World (skeleton (effective r' (kept r)) (effective u' (kept u)))
       (Obj (effective r' (kept r)) (effective u' (kept u)) empty_tree)).
Proof.
  rewrite PackageDB_new_empty. cbn [snd disk].
  unfold PackageDB_new, PackageDB_init.
  erewrite bind_Return; cycle 1.
  { apply (reset_uri_existing {[ "repo_uri" := kept r; "db_uri" := kept u ]} (kept r) (kept u)).
    - cbn [disk]. by rewrite skeleton_lookup.
    - cbn [disk]. by rewrite skeleton_lookup.
    - by rewrite lookup_insert_eq.
    - rewrite lookup_insert_ne by done. by rewrite lookup_singleton_eq. }
  cbn beta. unfold reset_db, put_db. cbn [disk self repo_uri db_uri]. by do 2 f_equal.
Qed.

(** [clean] when the database directory exists: it returns; the directory
    then holds [uri.json] and nothing else, the tree of the instance is
    empty, and each URI is the one the instance had, or the empty string if
    that one was empty.  When the directory is not there, [clean] raises the
    error of [shutil.rmtree] and changes nothing. *)
Theorem clean_leaves_uris_only w :
  (disk w !! [] = Some Dir →
   ∃ w', clean w = (Return (), w')
     ∧ repo_uri (self w') = kept (repo_uri (self w))
     ∧ db_uri (self w') = kept (db_uri (self w))
     ∧ db (self w') = empty_tree
     ∧ disk w' !! [] = Some Dir
     ∧ disk w' !! [URI_NAME]
       = Some (File (json_dump (JDict {[ "repo_uri" := repo_uri (self w');
                                         "db_uri" := db_uri (self w') ]})))
     ∧ ∀ p, p ≠ [] → p ≠ [URI_NAME] → disk w' !! p = None)
  ∧ (disk w !! [] ≠ Some Dir → ∃ e, clean w = (Raise (OSError e), w)).
Proof.
  split.
  - intros Hroot. exists (cleaned (self w)). split; [by apply clean_spec|].
    unfold cleaned. cbn [self disk repo_uri db_uri db].
    repeat (split; [try done; by rewrite skeleton_lookup|]).
    intros p Hp Hu. rewrite skeleton_lookup. by rewrite !decide_False.
  - intros Hroot. unfold clean.
    assert (∃ e, rmtree [] (disk w) = Raise (OSError e)) as [e He].
    { unfold rmtree. destruct (disk w !! []) as [[]|]; [by eexists|done|by eexists]. }
    exists e. erewrite bind_Raise; [done|].
    unfold disk_op, get_disk. unfold mbind at 1, M_bind at 1, bind at 1. cbn beta iota.
    by rewrite lift_bind, He.
Qed.

(** ** [FileJSON.write] *)

(** The check of the mandatory keys looks at the content only. *)
Lemma check_mandatories_pure f content :
  ∃ r, ∀ w, check_mandatories f content w = (r, w).
Proof.
  unfold check_mandatories. induction (mandatories f) as [|key l [r IH]].
  - by exists (Return ()).
  - destruct (py_contains key content) as [b|e] eqn:Hkey.
    + destruct b.
      * exists r. intros w. rewrite for_each_cons, lift_bind, Hkey. cbn. apply IH.
      * exists (Raise KeyError). intros w. by rewrite for_each_cons, lift_bind, Hkey.
    + exists (Raise e). intros w. by rewrite for_each_cons, lift_bind, Hkey.
Qed.

(** [FileJSON.write]: a dictionary that lacks a mandatory key raises
    [KeyError] before anything is written.  When the call returns, the file
    holds the dumped content, its directory exists, whatever else was in the
    tree is still there, and nothing new is, except directories on the way
    to the file; [read] on the same object then returns the content that was
    written and changes nothing, and so does writing the same content
    again. *)
Theorem FileJSON_write_contract dir name mand f w :
  FileJSON_new dir name mand = Return f →
  (∀ c key, key ∈ mand → c !! key = None →
     FileJSON_write f (JDict c) w = (Raise KeyError, w))
  ∧ (∀ content w',
       FileJSON_write f content w = (Return (), w') →
       self w' = self w
       ∧ disk w' !! fpath f = Some (File (json_dump content))
       ∧ disk w' !! dir = Some Dir
       ∧ (∀ q n, q ≠ fpath f → disk w !! q = Some n → disk w' !! q = Some n)
       ∧ (∀ q, q ≠ fpath f → ¬ q `prefix_of` dir → disk w' !! q = disk w !! q)
       ∧ FileJSON_read f w' = (Return content, w')
       ∧ FileJSON_write f content w' = (Return (), w')).
Proof.
  intros [Hname ->]%FileJSON_new_Return. split.
  - intros c key Hkey Hnone. unfold FileJSON_write.
    erewrite bind_Raise; [done|]. rewrite check_mandatories_dict. cbn [mandatories].
    rewrite bool_decide_eq_false_2; [done|].
    intros Hall. rewrite Forall_forall in Hall.
    apply list_elem_of_In, Hall in Hkey. rewrite Hnone in Hkey. by destruct Hkey.
  - intros content w' Hwrite.
    assert (∀ w0, check_mandatories
                    {| directory := dir; fpath := dir ++ [name]; mandatories := mand |}
                    content w0 = (Return (), w0)) as Hcheck.
    { destruct (check_mandatories_pure
                  {| directory := dir; fpath := dir ++ [name]; mandatories := mand |} content)
        as [r Hr].
      unfold FileJSON_write in Hwrite.
      apply bind_Return_inv in Hwrite as ([] & w0 & Hc & _).
      rewrite Hr in Hc. injection Hc as -> _. exact Hr. }
    destruct (FileJSON_write_Return _ _ _ _ _ _ Hwrite) as (d1 & -> & Hdir & Hframe).
    cbn [self disk fpath].
    assert (dir ≠ dir ++ [name]) as Hne.
    { intros Heq. apply (f_equal length) in Heq. rewrite length_app in Heq. simpl in Heq. lia. }
    split; [done|]. split; [apply lookup_insert_eq|].
    split; [by rewrite lookup_insert_ne|]. split; [|split; [|split]].
    + intros q n Hq Hn. rewrite lookup_insert_ne by done. by eapply only_new_dirs_Some.
    + intros q Hq Hpre. rewrite lookup_insert_ne by done.
      destruct (Hframe q) as [->|(_ & ? & _)]; done.
    + rewrite (FileJSON_read_existing _ (json_dump content)).
      * by rewrite json_load_dump, Hcheck.
      * apply lookup_insert_eq.
      * cbn. rewrite lookup_insert_ne by done. eauto.
    + unfold FileJSON_write. erewrite bind_Return; [|apply Hcheck]. cbn beta.
      erewrite bind_Return; cycle 1.
      { apply ensure_directory_exists. cbn. rewrite lookup_insert_ne by done. eauto. }
      cbn beta. erewrite disk_op_Return; cycle 1.
      { cbn [disk fpath]. apply open_w_snoc; [by rewrite lookup_insert_ne|].
        by rewrite lookup_insert_eq. }
      cbn [self]. by rewrite insert_insert_eq.
Qed.

(** ** [hash_file] *)

Lemma concat_empty_cons x l : String.concat "" (x :: l) = x +:+ String.concat "" l.
Proof. destruct l; [by rewrite append_nil_r|done]. Qed.

(** The blocks read from a file: joined they are its content; each holds at
    least one byte and at most [n]; each but the last holds [n]. *)
Lemma blocks_spec (n : N) s cur k :
  (1 ≤ k)%N → (N.of_nat (String.length cur) + k = n)%N →
  String.concat "" (blocks n cur k s) = cur +:+ s
  ∧ Forall (λ b, (0 < N.of_nat (String.length b) ≤ n)%N) (blocks n cur k s)
  ∧ ∀ i b, blocks n cur k s !! i = Some b →
      (S i < length (blocks n cur k s))%nat → N.of_nat (String.length b) = n.
Proof.
  revert cur k. induction s as [|a s IH]; intros cur k Hk Hlen; cbn [blocks].
  - destruct (String.eqb cur "") eqn:Hcur.
    + apply String.eqb_eq in Hcur as ->. split; [done|]. split; [constructor|].
      intros i b Hi. by rewrite lookup_nil in Hi.
    + apply String.eqb_neq in Hcur. split; [by rewrite append_nil_r|]. split.
      * constructor; [|constructor]. destruct cur; [done|]. cbn in *. lia.
      * intros i b _ Hi. cbn in Hi. lia.
  - assert (String.length (cur +:+ String a "") = S (String.length cur)) as Hsnoc.
    { rewrite length_append. cbn. lia. }
    destruct (k <=? 1)%N eqn:Hk1.
    + apply N.leb_le in Hk1.
      destruct (IH "" n) as (Hcat & Hall & Hfull); [lia|cbn; lia|].
      split; [|split].
      * rewrite concat_empty_cons, Hcat, append_nil_l, append_assoc. done.
      * constructor; [rewrite Hsnoc; lia|done].
      * intros [|i] b Hb Hi.
        -- injection Hb as <-. rewrite Hsnoc. lia.
        -- cbn in Hb, Hi. apply (Hfull i b Hb). lia.
    + apply N.leb_gt in Hk1.
      destruct (IH (cur +:+ String a "") (N.pred k)) as (Hcat & Hall & Hfull);
        [lia|rewrite Hsnoc; lia|].
      split; [|done]. rewrite Hcat, append_assoc. done.
Qed.

(** [hash_file] of a regular file returns the digest of the hasher after it
    was fed the whole content, in order, in blocks of 65536 bytes and a
    shorter last one when the length asks for it; no block is empty, and
    nothing is fed for an empty file.  The tree and the instance are
    untouched, also when the call raises. *)
Theorem hash_file_feeds_whole_content p w :
  (hash_file p w).2 = w
  ∧ ∀ data, disk w !! p = Some (File data) →
      ∃ bs, hash_file p w = (Return (md5_hexdigest (foldl md5_update md5_new bs)), w)
        ∧ String.concat "" bs = data
        ∧ Forall (λ b, (0 < N.of_nat (String.length b) ≤ 65536)%N) bs
        ∧ (∀ i b, bs !! i = Some b → (S i < length bs)%nat →
             N.of_nat (String.length b) = 65536%N)
        ∧ (data = "" → bs = []).
Proof.
  split.
  - unfold hash_file, get_disk, lift, mbind, M_bind, bind. cbn.
    by destruct (read_file p (disk w)).
  - intros data Hp. exists (blocks 65536 "" 65536 data).
    split; [by apply hash_file_file|].
    destruct (blocks_spec 65536 data "" 65536) as (Hcat & Hall & Hfull); [lia|cbn; lia|].
    split; [done|]. split; [done|]. split; [done|]. by intros ->.
Qed.

(** ** [read] and a file that changed *)



(** ** [copy_all] *)

Lemma below_app (p r : list string) : below p (p ++ r) = Some r.
Proof. induction p as [|x p IH]; [done|]. cbn. by rewrite bool_decide_eq_true_2. Qed.

Lemma below_self (p : list string) : below p p = Some [].
Proof. rewrite <-(app_nil_r p) at 2. apply below_app. Qed.

Lemma below_iff (p q r : list string) : below p q = Some r ↔ q = p ++ r.
Proof. split; [apply below_Some|]. intros ->. apply below_app. Qed.

Lemma below_child (p : list string) x y r :
  below (p ++ [x]) (p ++ y :: r) = if decide (x = y) then Some r else None.
Proof.
  induction p as [|z p IH]; cbn.
  - destruct (decide (x = y)) as [->|Hne].
    + by rewrite bool_decide_eq_true_2.
    + by rewrite bool_decide_eq_false_2.
  - by rewrite bool_decide_eq_true_2.
Qed.

Lemma below_child_None (p q : list string) x :
  (∀ r, q ≠ p ++ x :: r) → below (p ++ [x]) q = None.
Proof.
  intros Hq. destruct (below (p ++ [x]) q) as [r|] eqn:Hr; [|done].
  apply below_Some in Hr. rewrite <-app_assoc in Hr. by apply Hq in Hr.
Qed.

Lemma elem_of_paths (d : gmap (list string) node) q :
  q ∈ (map_to_list d).*1 ↔ is_Some (d !! q).
Proof.
  rewrite list_elem_of_fmap. split.
  - intros ([q' n] & -> & Hn). apply elem_of_map_to_list in Hn. by exists n.
  - intros [n Hn]. exists (q, n). split; [done|]. by apply elem_of_map_to_list.
Qed.

Lemma NoDup_omap_inj {A B} (f : A → option B) (l : list A) :
  (∀ x y z, f x = Some z → f y = Some z → x = y) → NoDup l → NoDup (omap f l).
Proof.
  intros Hinj. induction 1 as [|x l Hx Hl IH]; [constructor|]. cbn.
  destruct (f x) as [z|] eqn:Hfx; [|done]. constructor; [|done].
  intros (y & Hy & Hfy)%list_elem_of_omap. apply Hx.
  by rewrite (Hinj x y z).
Qed.

(** [os.listdir] of a directory: the names of its entries, each once. *)
Lemma listdir_spec (sp : list string) (src : gmap (list string) node) :
  src !! sp = Some Dir →
  ∃ names, listdir sp src = Return names ∧ NoDup names
    ∧ ∀ x, x ∈ names ↔ is_Some (src !! (sp ++ [x])).
Proof.
  intros Hsp. unfold listdir. rewrite Hsp. eexists. split; [done|].
  assert (∀ q x, match below sp q with Some [x] => Some x | _ => None end = Some x
                 ↔ q = sp ++ [x]) as Hchild.
  { intros q x. rewrite <-below_iff.
    destruct (below sp q) as [[|y [|z r]]|]; naive_solver. }
  split.
  - apply NoDup_omap_inj; [|apply NoDup_fst_map_to_list].
    intros q1 q2 x H1%Hchild H2%Hchild. congruence.
  - intros x. rewrite list_elem_of_omap. split.
    + intros (q & Hq%elem_of_paths & ->%Hchild). done.
    + intros Hx. exists (sp ++ [x]). split; [by apply elem_of_paths|by apply Hchild].
Qed.

Lemma makedirs_child (dp : list string) (x : string) (d : gmap (list string) node) :
  d !! dp = Some Dir → d !! (dp ++ [x]) = None →
  makedirs (dp ++ [x]) d = Return (<[dp ++ [x] := Dir]> d).
Proof.
  intros Hdp Hx. unfold makedirs. rewrite rev_app_distr. cbn.
  rewrite rev_involutive, bool_decide_eq_true_2 by eauto.
  by apply mkdir_snoc.
Qed.

(** What [shutil.copytree] adds to the destination once the directory is
    made: the source tree below [sp], moved below [dp]. *)
Lemma relocate_lookup (src : gmap (list string) node) (sp dp : list string)
    (acc : gmap (list string) node) (q : list string) :
  foldr (λ (e : list string * node) acc,
           match below sp e.1 with
           | Some r => <[dp ++ r := e.2]> acc
           | None => acc
           end) acc (map_to_list src) !! q
  = match below dp q with
    | Some r => match src !! (sp ++ r) with Some n => Some n | None => acc !! q end
    | None => acc !! q
    end.
Proof.
  assert (∀ l : list (list string * node),
    (∀ e, e ∈ l → src !! e.1 = Some e.2) →
    foldr (λ (e : list string * node) acc,
             match below sp e.1 with
             | Some r => <[dp ++ r := e.2]> acc
             | None => acc
             end) acc l !! q
    = match below dp q with
      | Some r =>
          match src !! (sp ++ r) with
          | Some n => if bool_decide (sp ++ r ∈ l.*1) then Some n else acc !! q
          | None => acc !! q
          end
      | None => acc !! q
      end) as Hgen.
  { induction l as [|[p n] l IH]; intros Hl.
    - cbn. destruct (below dp q) as [r|]; [|done]. by destruct (src !! (sp ++ r)).
    - cbn [foldr fst snd]. specialize (IH (λ e He, Hl e (list_elem_of_further _ _ _ He))).
      pose proof (Hl (p, n) (list_elem_of_here _ _)) as Hp. cbn in Hp.
      destruct (below sp p) as [r0|] eqn:Hr0.
      + apply below_Some in Hr0 as ->.
        destruct (decide (q = dp ++ r0)) as [->|Hq].
        * rewrite lookup_insert_eq, below_app, Hp.
          rewrite bool_decide_eq_true_2; [done|]. rewrite fmap_cons. by left.
        * rewrite lookup_insert_ne by done. rewrite IH.
          destruct (below dp q) as [r|] eqn:Hr; [|done].
          destruct (src !! (sp ++ r)) as [n'|]; [|done].
          apply below_Some in Hr as ->.
          assert (r ≠ r0) as Hne by congruence.
          rewrite fmap_cons. cbn [fst].
          destruct (decide (sp ++ r ∈ l.*1)) as [Hin|Hin].
          -- rewrite !bool_decide_eq_true_2; [done| |done]. by right.
          -- rewrite !bool_decide_eq_false_2; [done| |done].
             intros [Heq%app_inv_head|?]%elem_of_cons; done.
      + rewrite IH. destruct (below dp q) as [r|] eqn:Hr; [|done].
        destruct (src !! (sp ++ r)) as [n'|]; [|done].
        rewrite fmap_cons. cbn [fst].
        assert (sp ++ r ≠ p) as Hne.
        { intros <-. by rewrite below_app in Hr0. }
        destruct (decide (sp ++ r ∈ l.*1)) as [Hin|Hin].
        -- rewrite !bool_decide_eq_true_2; [done| |done]. by right.
        -- rewrite !bool_decide_eq_false_2; [done| |done].
           intros [?|?]%elem_of_cons; done. }
  rewrite Hgen by (by intros [p n] ?%elem_of_map_to_list).
  destruct (below dp q) as [r|]; [|done].
  destruct (src !! (sp ++ r)) as [n|] eqn:Hn; [|done].
  rewrite bool_decide_eq_true_2; [done|]. apply elem_of_paths. eauto.
Qed.

(** The tree after [copy_all(src, dst)]: an entry of the source directory,
    at any depth, is at the same place below the destination directory;
    every other path is as the destination had it. *)
Definition copied (src : gmap (list string) node) (sp dp : list string)
    (dst : gmap (list string) node) (q : list string) : option node :=
  match below dp q with
  | Some (x :: r) =>
      match src !! (sp ++ x :: r) with
      | Some n => Some n
      | None => dst !! q
      end
  | _ => dst !! q
  end.

(** [copied], for the entries of the source directory named in [done]. *)
Definition copied_so_far (done : list string) (src : gmap (list string) node)
    (sp dp : list string) (dst : gmap (list string) node) (q : list string) : option node :=
  match below dp q with
  | Some (x :: r) =>
      if bool_decide (x ∈ done) then copied src sp dp dst q else dst !! q
  | _ => dst !! q
  end.

Lemma copy_entries_spec (src : gmap (list string) node) (sp dp : list string)
    (dst : gmap (list string) node) (names done : list string)
    (cur : gmap (list string) node) :
  fs_wf src →
  dst !! dp = Some Dir →
  (∀ (x : string) r, src !! (sp ++ [x]) = Some Dir → dst !! (dp ++ x :: r) = None) →
  (∀ (x : string) data, src !! (sp ++ [x]) = Some (File data) →
     dst !! (dp ++ [x]) ≠ Some Dir) →
  NoDup (done ++ names) →
  (∀ x, x ∈ names → is_Some (src !! (sp ++ [x]))) →
  (∀ q, cur !! q = copied_so_far done src sp dp dst q) →
  ∃ dst', copy_entries src sp dp names cur = (Return (), dst')
    ∧ ∀ q, dst' !! q = copied_so_far (done ++ names) src sp dp dst q.
Proof.
  intros Hwf Hdp Hdirs Hfiles. revert done cur.
  induction names as [|x names IH]; intros done cur Hnodup Hnames Hcur.
  { exists cur. split; [done|]. by rewrite app_nil_r. }
  assert (x ∉ done) as Hx.
  { apply list.NoDup_app in Hnodup as (_ & Hdisj & _). intros Hin.
    apply (Hdisj x Hin). by left. }
  assert (cur !! dp = Some Dir) as Hcdp.
  { rewrite Hcur. unfold copied_so_far. by rewrite below_self. }
  assert (∀ r, cur !! (dp ++ x :: r) = dst !! (dp ++ x :: r)) as Hcx.
  { intros r. rewrite Hcur. unfold copied_so_far. rewrite below_app.
    by rewrite bool_decide_eq_false_2. }
  assert (∃ next, (if is_dir (src !! (sp ++ [x]))
                   then copytree src (sp ++ [x]) (dp ++ [x]) cur
                   else copy2 src (sp ++ [x]) (dp ++ [x]) cur) = Return next
            ∧ ∀ q, next !! q = copied_so_far (done ++ [x]) src sp dp dst q)
    as (next & Hstep & Hnext).
  { destruct (Hnames x) as [n Hn]; [by left|]. rewrite Hn. destruct n as [data|]; cbn [is_dir].
    - unfold copy2, read_file. rewrite Hn. cbn.
      assert (is_dir (cur !! (dp ++ [x])) = false) as ->.
      { rewrite Hcx. specialize (Hfiles x data Hn). by destruct (dst !! (dp ++ [x])) as [[]|]. }
      rewrite open_w_snoc; [|done|].
      2:{ rewrite Hcx. by eapply Hfiles. }
      eexists. split; [done|]. intros q. unfold copied_so_far, copied.
      destruct (decide (q = dp ++ [x])) as [->|Hq].
      + rewrite lookup_insert_eq, below_app, Hn.
        rewrite bool_decide_eq_true_2; [done|]. apply elem_of_app. right. by left.
      + rewrite lookup_insert_ne by done. rewrite Hcur. unfold copied_so_far, copied.
        destruct (below dp q) as [[|y r]|] eqn:Hr; [done| |done].
        apply below_Some in Hr as ->.
        destruct (decide (y = x)) as [->|Hy].
        * rewrite (bool_decide_eq_false_2 _ Hx).
          rewrite bool_decide_eq_true_2 by (apply elem_of_app; right; by left).
          destruct (src !! (sp ++ x :: r)) as [n'|] eqn:Hn'; [|done]. exfalso.
          destruct r as [|z r]; [congruence|].
          assert (src !! (sp ++ [x]) = Some Dir) as Hd; [|congruence].
          apply (Hwf (sp ++ x :: z :: r) _ n' Hn').
          -- exists (z :: r). by rewrite <-app_assoc.
          -- intros Heq%app_inv_head. done.
        * destruct (decide (y ∈ done)) as [Hin|Hin].
          -- rewrite !bool_decide_eq_true_2; [done|apply elem_of_app; by left|done].
          -- rewrite !bool_decide_eq_false_2; [done| |done].
             intros [?|?%list_elem_of_singleton]%elem_of_app; done.
    - unfold copytree. rewrite makedirs_child; [|done|].
      2:{ rewrite Hcx. by apply Hdirs. }
      cbn. eexists. split; [done|]. intros q. rewrite relocate_lookup.
      unfold copied_so_far, copied.
      destruct (below dp q) as [[|y r]|] eqn:Hr.
      + apply below_Some in Hr as ->. rewrite app_nil_r.
        rewrite below_child_None.
        2:{ intros r Heq. apply (f_equal length) in Heq. rewrite length_app in Heq.
            cbn in Heq. lia. }
        rewrite lookup_insert_ne.
        2:{ intros Heq. apply (f_equal length) in Heq. rewrite length_app in Heq.
            cbn in Heq. lia. }
        rewrite Hcur. unfold copied_so_far. by rewrite below_self.
      + apply below_Some in Hr as ->. rewrite below_child.
        destruct (decide (x = y)) as [<-|Hy].
        * rewrite bool_decide_eq_true_2 by (apply elem_of_app; right; by left).
          rewrite <-app_assoc. cbn [app].
          destruct (src !! (sp ++ x :: r)) as [n'|] eqn:Hn'; [done|].
          rewrite lookup_insert_ne; [apply Hcx|].
          intros Heq%app_inv_head. injection Heq as <-. by rewrite Hn in Hn'.
        * rewrite lookup_insert_ne.
          2:{ intros Heq%app_inv_head. congruence. }
          rewrite Hcur. unfold copied_so_far, copied. rewrite below_app.
          destruct (decide (y ∈ done)) as [Hin|Hin].
          -- rewrite !bool_decide_eq_true_2; [done|apply elem_of_app; by left|done].
          -- rewrite !bool_decide_eq_false_2; [done| |done].
             intros [?|?%list_elem_of_singleton]%elem_of_app; done.
      + rewrite below_child_None.
        2:{ intros r ->. by rewrite below_app in Hr. }
        rewrite lookup_insert_ne.
        2:{ intros <-. by rewrite below_app in Hr. }
        rewrite Hcur. unfold copied_so_far. by rewrite Hr. }
  destruct (IH (done ++ [x]) next) as (dst' & Hrest & Hdst').
  - by rewrite <-app_assoc.
  - intros y Hy. apply Hnames. by right.
  - done.
  - exists dst'. cbn [copy_entries]. rewrite Hstep. split; [done|].
    intros q. rewrite Hdst'. by rewrite <-app_assoc.
Qed.

Lemma copy_all_spec (src : gmap (list string) node) (sp dp : list string)
    (dst : gmap (list string) node) :
  fs_wf src →
  src !! sp = Some Dir →
  dst !! dp = Some Dir →
  (∀ (x : string) r, src !! (sp ++ [x]) = Some Dir → dst !! (dp ++ x :: r) = None) →
  (∀ (x : string) data, src !! (sp ++ [x]) = Some (File data) →
     dst !! (dp ++ [x]) ≠ Some Dir) →
  ∃ dst', copy_all src sp dp dst = (Return (), dst')
    ∧ ∀ q, dst' !! q = copied src sp dp dst q.
Proof.
  intros Hwf Hsp Hdp Hdirs Hfiles.
  destruct (listdir_spec sp src Hsp) as (names & Hlist & Hnodup & Hnames).
  destruct (copy_entries_spec src sp dp dst names [] dst) as (dst' & Hcopy & Hdst');
    [done..| | |].
  { intros x Hx. by apply Hnames. }
  { intros q. unfold copied_so_far. by destruct (below dp q) as [[|? ?]|]. }
  exists dst'. unfold copy_all. rewrite Hlist. split; [done|].
  intros q. rewrite Hdst'. cbn [app]. unfold copied_so_far, copied.
  destruct (below dp q) as [[|x r]|] eqn:Hq; [done| |done].
  destruct (decide (x ∈ names)) as [Hin|Hin].
  - by rewrite bool_decide_eq_true_2.
  - rewrite bool_decide_eq_false_2 by done.
    destruct (src !! (sp ++ x :: r)) as [n|] eqn:Hn; [|done]. exfalso.
    apply Hin, Hnames. destruct r as [|z r]; [by eexists|].
    exists Dir. apply (Hwf (sp ++ x :: z :: r) _ n Hn).
    + exists (z :: r). by rewrite <-app_assoc.
    + intros Heq%app_inv_head. done.
Qed.

(** [copy_all(src, dst)] from a directory of a well-formed tree into an
    existing directory that has none of the source's subdirectories and no
    directory where the source has a file: it returns; every entry of the
    source directory, at any depth, is then at the same place below the
    destination, a file of the destination with the name of a source file
    is overwritten, and every other path is as the destination had it.
    When the source is not a directory, it raises the error of
    [os.listdir] and changes nothing. *)
Theorem copy_all_copies (src : gmap (list string) node) (sp dp : list string)
    (dst : gmap (list string) node) :
  (fs_wf src →
   src !! sp = Some Dir →
   dst !! dp = Some Dir →
   (∀ (x : string) r, src !! (sp ++ [x]) = Some Dir → dst !! (dp ++ x :: r) = None) →
   (∀ (x : string) data, src !! (sp ++ [x]) = Some (File data) →
      dst !! (dp ++ [x]) ≠ Some Dir) →
   ∃ dst', copy_all src sp dp dst = (Return (), dst')
     ∧ ∀ q, dst' !! q = copied src sp dp dst q)
  ∧ (src !! sp ≠ Some Dir → ∃ e, copy_all src sp dp dst = (Raise (OSError e), dst)).
Proof.
  split; [apply copy_all_spec|].
  intros Hsp. unfold copy_all, listdir.
  destruct (src !! sp) as [[]|]; [by eexists|done|by eexists].
Qed.

End Roundtrip.

(** * A codec and a hasher to run the model with *)

(** Documents are written as the binary digits of their code as trees of
    atoms; any other pair of functions with [json_load_dump] would do. *)
Definition atom : Type := bool + Z + string.

Fixpoint to_tree (v : json) : gen_tree atom :=
  match v with
  | JNull => GenNode 0 []
  | JBool b => GenLeaf (inl (inl b))
  | JNum n => GenLeaf (inl (inr n))
  | JStr s => GenLeaf (inr s)
  | JList l => GenNode 1 (to_tree <$> l)
  | JDict d =>
      GenNode 2 ((λ kv, GenNode 3 [GenLeaf (inr kv.1); kv.2]) <$> map_to_list (to_tree <$> d))
  end.

Definition of_entry (of_tree : gen_tree atom → option json) (t : gen_tree atom)
  : option (string * json) :=
  match t with
  | GenNode 3 [GenLeaf (inr k); t'] => pair k <$> of_tree t'
  | _ => None
  end.

Fixpoint of_tree (t : gen_tree atom) : option json :=
  match t with
  | GenLeaf (inl (inl b)) => Some (JBool b)
  | GenLeaf (inl (inr n)) => Some (JNum n)
  | GenLeaf (inr s) => Some (JStr s)
  | GenNode 0 _ => Some JNull
  | GenNode 1 ts => JList <$> mapM of_tree ts
  | GenNode 2 ts => (λ l, JDict (list_to_map l)) <$> mapM (of_entry of_tree) ts
  | _ => None
  end.

Fixpoint pos_bits (p : positive) : string :=
  match p with
  | xH => ""
  | xO p => String "0" (pos_bits p)
  | xI p => String "1" (pos_bits p)
  end.

Fixpoint bits_pos (s : string) : option positive :=
  match s with
  | EmptyString => Some xH
  | String a s' =>
      if Ascii.eqb a "0" then xO <$> bits_pos s'
      else if Ascii.eqb a "1" then xI <$> bits_pos s'
      else None
  end.

Definition bits_dump (v : json) : string := pos_bits (encode (to_tree v)).
Definition bits_load (s : string) : option json :=
  p ← bits_pos s; t ← decode p; of_tree t.

Fixpoint json_size (v : json) : nat :=
  match v with
  | JList l => S (sum_list (json_size <$> l))
  | JDict d => S (map_fold (λ _ x n, x + n) 0 (json_size <$> d))
  | _ => 1
  end.

Lemma json_size_elem v l : v ∈ l → (json_size v < json_size (JList l))%nat.
Proof.
  intros Hv. assert (json_size v ≤ sum_list (json_size <$> l))%nat as Hle.
  { induction Hv as [|x y l _ IH]; rewrite fmap_cons; simpl; lia. }
  change (json_size (JList l)) with (S (sum_list (json_size <$> l))). lia.
Qed.

Lemma json_size_value (d : gmap string json) k v :
  d !! k = Some v → (json_size v < json_size (JDict d))%nat.
Proof.
  intros Hk.
  change (json_size (JDict d)) with (S (map_fold (λ _ x n, x + n) 0 (json_size <$> d))).
  rewrite <-(insert_delete_id d k v Hk), fmap_insert.
  rewrite map_fold_insert_L.
  - lia.
  - intros; lia.
  - by rewrite lookup_fmap, lookup_delete_eq.
Qed.

(** Induction on documents, with the hypothesis for every element of a list
    and every value of a dictionary. *)
Lemma json_nested_ind (P : json → Prop) :
  P JNull → (∀ b, P (JBool b)) → (∀ n, P (JNum n)) → (∀ s, P (JStr s)) →
  (∀ l, Forall P l → P (JList l)) →
  (∀ d, map_Forall (λ _, P) d → P (JDict d)) →
  ∀ v, P v.
Proof.
  intros HN HB HZ HS HL HD v.
  remember (json_size v) as n eqn:Hn.
  revert v Hn. induction (lt_wf n) as [n _ IH]. intros v ->.
  destruct v; auto.
  - apply HL, Forall_forall. intros x Hx.
    eapply IH; [|reflexivity]. by apply json_size_elem, list_elem_of_In.
  - apply HD. intros k x Hk.
    eapply IH; [|reflexivity]. by eapply json_size_value.
Qed.

Lemma of_tree_to_tree v : of_tree (to_tree v) = Some v.
Proof.
  induction v as [| | | |l IH|d IH] using json_nested_ind; simpl; try done.
  - by rewrite mapM_fmap_Forall_Some.
  - rewrite map_to_list_fmap, <-list_fmap_compose.
    rewrite (mapM_fmap_Forall_Some _ (λ kv, GenNode 3 [GenLeaf (inr kv.1); to_tree kv.2])).
    + simpl. by rewrite list_to_map_to_list.
    + apply map_Forall_to_list in IH.
      eapply Forall_impl; [|exact IH].
      intros [k x] Hx; simpl in *. by rewrite Hx.
Qed.

Lemma bits_pos_bits p : bits_pos (pos_bits p) = Some p.
Proof. induction p as [p IH|p IH|]; simpl; by rewrite ?IH. Qed.

Lemma bits_load_dump v : bits_load (bits_dump v) = Some v.
Proof.
  unfold bits_load, bits_dump. rewrite bits_pos_bits. simpl.
  rewrite decode_encode. simpl. apply of_tree_to_tree.
Qed.

Definition bits_codec : JsonCodec :=
  {| json_dump := bits_dump; json_load := bits_load; json_load_dump := bits_load_dump |}.

(** A hasher whose digest is the content itself. *)
Definition plain_hasher : Hasher :=
  {| hstate := string; md5_new := ""; md5_update := String.append; md5_hexdigest := id |}.

(** * Runs of the model *)

Section Runs.
#[local] Existing Instance bits_codec.
#[local] Existing Instance plain_hasher.

(** [PackageDB(directory)] over a directory that does not exist yet. *)
Definition fresh_world : world := (PackageDB_new ∅ (JStr "") (JStr "")).2.

Definition tester : Package := Pkg "app-test" "metadata_tester" "0.1".
Definition tester_record : json := JDict {[ "description" := JStr "testing ebuild" ]}.

(** [add_category("app-test")] and [add_package] of the tester record. *)
Definition tester_calls : list op :=
  [AddCategory "app-test" (JDict ∅); AddPackage tester tester_record].

(** The same, followed by [write()]. *)
Definition written_world : world := (write (calls tester_calls fresh_world)).2.

(** ... and by [manifest()]. *)
Definition manifest_world : world := (manifest written_world).2.

Lemma add_package_checks_category_witness :
  (¬ registered "app-test" tester_calls →
     add_package tester tester_record (calls tester_calls fresh_world)
     = (Raise (Exception ("Non-existent category: " +:+ "app-test")),
        calls tester_calls fresh_world))
  ∧ (registered "app-test" tester_calls →
     ∃ w' names versions,
       add_package tester tester_record (calls tester_calls fresh_world) = (Return (), w')
       ∧ record_at (db (self w')) tester = Some tester_record
       ∧ get_package_description tester w' = (Return tester_record, w')
       ∧ list_package_names "app-test" w' = (Return names, w')
       ∧ "metadata_tester" ∈ names
       ∧ list_package_versions "app-test" "metadata_tester" w' = (Return versions, w')
       ∧ "0.1" ∈ versions).
Proof.
  apply (add_package_checks_category tester_calls fresh_world tester tester_record).
  vm_compute. reflexivity.
Defined.

Lemma listings_are_lookups_witness :
  (list_categories fresh_world).2 = fresh_world
  ∧ list_package_names "missing" fresh_world
    = (Raise (Exception ("No such category: " +:+ "missing")), fresh_world).
Proof.
  destruct (listings_are_lookups fresh_world "missing" "p")
    as (Hcat & _ & _ & _ & Hmissing & _).
  split; [exact Hcat|]. apply Hmissing. vm_compute. reflexivity.
Defined.

Lemma add_category_again_witness :
  ∃ w', add_category "app-test" (JDict {[ "k" := JNum 1 ]}) (calls tester_calls fresh_world)
        = (Return (), w')
    ∧ list_package_names "app-test" w' = (Return [], w')
    ∧ get_package_description tester w' = (Raise KeyError, w').
Proof.
  destruct (add_category_again tester_calls fresh_world "app-test" (JDict {[ "k" := JNum 1 ]}))
    as (w' & Hadd & _ & _ & Hnames & _ & Hget & _).
  - vm_compute. reflexivity.
  - exists (JDict ∅). apply list_elem_of_here.
  - exists w'. split; [exact Hadd|]. split; [exact Hnames|]. apply Hget.
Defined.

Lemma add_package_frame_witness :
  let w := calls tester_calls fresh_world in
  let w' := (add_package (Pkg "app-test" "other" "2") JNull w).2 in
  disk w' = disk w
  ∧ categories (db (self w')) = categories (db (self w))
  ∧ record_at (db (self w')) tester = record_at (db (self w)) tester.
Proof.
  intros w w'.
  destruct (add_package_frame w w' (Pkg "app-test" "other" "2") JNull)
    as (Hdisk & _ & _ & _ & Hcats & _ & Hrec).
  - vm_compute. reflexivity.
  - split; [exact Hdisk|]. split; [exact Hcats|]. apply Hrec. discriminate.
Defined.

Lemma FileJSON_read_contract_witness :
  ∃ d', FileJSON_read
          {| directory := ["a"]; fpath := ["a"; "uri.json"]; mandatories := ["repo_uri"] |}
          (World ∅ blank)
        = (Return (JDict (default_content ["repo_uri"])), World d' blank)
    ∧ d' !! ["a"] = Some Dir.
Proof.
  destruct (FileJSON_read_contract ["a"] "uri.json" ["repo_uri"]
              {| directory := ["a"]; fpath := ["a"; "uri.json"]; mandatories := ["repo_uri"] |}
              (World ∅ blank))
    as [Habsent _].
  - vm_compute. reflexivity.
  - destruct Habsent as (d' & Hread & _ & Hdir & _).
    + vm_compute. reflexivity.
    + intros q _. vm_compute. reflexivity.
    + exists d'. split; [exact Hread|exact Hdir].
Defined.


(** The content of a regular file of the tree. *)
Definition content (w : world) (p : list string) : string :=
  match disk w !! p with Some (File data) => data | _ => "" end.

Lemma manifest_detects_one_change_witness :
  check_manifest manifest_world = (Return (true, []), manifest_world)
  ∧ check_manifest
      (World (<[["app-test"; "metadata_tester"; "0.1.json"] := File "corrupted"]>
                (disk manifest_world)) (self manifest_world))
    = (Return (false, ["app-test/metadata_tester/0.1.json"]),
       World (<[["app-test"; "metadata_tester"; "0.1.json"] := File "corrupted"]>
                (disk manifest_world)) (self manifest_world)).
Proof.
  destruct (manifest_detects_one_change written_world manifest_world)
    as (Hclean & _ & Hchange).
  - vm_cast_no_check (eq_refl (manifest written_world)).
  - split; [exact Hclean|].
    apply (Hchange "app-test/metadata_tester/0.1.json"
             ["app-test"; "metadata_tester"; "0.1.json"]
             (content manifest_world ["app-test"; "metadata_tester"; "0.1.json"])).
    + vm_cast_no_check (eq_refl true).
    + vm_cast_no_check (eq_refl (resolve "app-test/metadata_tester/0.1.json")).
    + vm_cast_no_check
        (eq_refl (disk manifest_world !! ["app-test"; "metadata_tester"; "0.1.json"])).
    + apply String.eqb_neq. vm_cast_no_check (eq_refl false).
Defined.

(** *** A category without packages *)

Definition empty_category_world : world := (add_category "c" (JDict ∅) fresh_world).2.

(** A new instance over the directory of [w], as [PackageDB(directory)]
    makes it. *)
Definition reopened (w : world) : world := (PackageDB_new (disk w) (JStr "") (JStr "")).2.

(** C2 at its failing input: after [add_category("c")] alone, [write]
    returns and has written [c/packages.json] with the empty list; it is
    [read], on a new instance after [manifest], that raises "Empty
    category: c". *)
Lemma write_accepts_empty_category :
  (write empty_category_world).1 = Return ()
  ∧ disk (write empty_category_world).2 !! ["c"; "packages.json"]
    = Some (File (json_dump (JList [])))
  ∧ (manifest (write empty_category_world).2).1 = Return ()
  ∧ (read (reopened (manifest (write empty_category_world).2).2)).1
    = Raise (Exception "Empty category: c").
Proof.
  split; [vm_cast_no_check (eq_refl (write empty_category_world).1)|].
  split; [vm_cast_no_check
            (eq_refl (disk (write empty_category_world).2 !! ["c"; "packages.json"]))|].
  split; [vm_cast_no_check (eq_refl (manifest (write empty_category_world).2).1)|].
  vm_cast_no_check (eq_refl (read (reopened (manifest (write empty_category_world).2).2)).1).
Qed.

(** *** A listed file that is gone, a manifest that is gone *)

Definition without_info : world :=
  World (delete [INFO_NAME] (disk manifest_world)) (self manifest_world).

Definition with_empty_manifest : world :=
  World (<[[MANIFEST_NAME] := File (json_dump (JDict ∅))]> (disk fresh_world))
    (self fresh_world).

(** C5 as stated does not hold: with a manifest that has its three fixed
    entries, [check_manifest] does not return when a listed file has been
    removed, it raises the error of opening it; and without [manifest.json]
    it raises the very exception it raises for a manifest that is there and
    lacks the [info.json] entry. *)
Lemma check_manifest_missing_file :
  forallb (listed without_info) fixed_names = true
  ∧ check_manifest without_info = (Raise (OSError FileNotFoundError), without_info)
  ∧ disk fresh_world !! [MANIFEST_NAME] = None
  ∧ (check_manifest fresh_world).1 = Raise (bad_manifest INFO_NAME)
  ∧ (check_manifest with_empty_manifest).1 = Raise (bad_manifest INFO_NAME).
Proof.
  split; [vm_cast_no_check (eq_refl true)|].
  split; [vm_cast_no_check (eq_refl (check_manifest without_info))|].
  split; [vm_cast_no_check (eq_refl (disk fresh_world !! [MANIFEST_NAME]))|].
  split; [vm_cast_no_check (eq_refl (check_manifest fresh_world).1)|].
  vm_cast_no_check (eq_refl (check_manifest with_empty_manifest).1).
Qed.

(** *** A remote tree without manifest *)

(** The extracted archive: one directory, holding [info.json] only. *)
Definition extracted_tree : gmap (list string) node :=
  {[ [] := Dir; ["db"] := Dir; ["db"; INFO_NAME] := File (json_dump (JDict ∅)) ]}.

Definition remote_without_manifest (uri : string) : fetched := Extracted extracted_tree.

(** [tempdb.check_manifest()] on the staged copy of that archive. *)
Definition staged_check : outcome (bool * list string) :=
  match stage extracted_tree with
  | Return tempdb => (check_manifest tempdb).1
  | Raise e => Raise e
  end.

Definition failed_sync : outcome unit * world :=
  sync stored_db_uri remote_without_manifest (JStr "http://example.org/db") manifest_world.

(** C1 as stated does not hold: [sync] raises out of the verification of
    the staged tree, and the record that was in the local directory before
    the call is no longer there. *)
Lemma sync_failure_loses_local_tree :
  staged_check = Raise (bad_manifest INFO_NAME)
  ∧ failed_sync.1 = Raise (bad_manifest INFO_NAME)
  ∧ is_file (disk manifest_world !! ["app-test"; "metadata_tester"; "0.1.json"]) = true
  ∧ disk failed_sync.2 !! ["app-test"; "metadata_tester"; "0.1.json"] = None
  ∧ disk failed_sync.2 ≠ disk manifest_world.
Proof.
  assert (disk failed_sync.2 !! ["app-test"; "metadata_tester"; "0.1.json"] = None) as Hgone.
  { vm_cast_no_check
      (eq_refl (disk failed_sync.2 !! ["app-test"; "metadata_tester"; "0.1.json"])). }
  assert (is_file (disk manifest_world !! ["app-test"; "metadata_tester"; "0.1.json"]) = true)
    as Hthere.
  { vm_cast_no_check (eq_refl true). }
  split; [vm_cast_no_check (eq_refl staged_check)|].
  split; [vm_cast_no_check (eq_refl failed_sync.1)|].
  split; [exact Hthere|]. split; [exact Hgone|].
  intros Heq. rewrite <-Heq, Hgone in Hthere. discriminate Hthere.
Qed.

(** *** The tester tree, written and read back *)

Lemma round_trip_of_calls_witness :
  ∃ w1 w2,
    write (built tester_calls (JStr "repo") (JStr "")) = (Return (), w1)
    ∧ manifest w1 = (Return (), w2)
    ∧ PackageDB_new (disk w2) (JStr "") (JStr "")
      = (Return (), World (disk w2) (Obj (JStr "repo") (JStr "") empty_tree))
    ∧ read (World (disk w2) (Obj (JStr "repo") (JStr "") empty_tree)) = (Return (), w2)
    ∧ self w2 = self (built tester_calls (JStr "repo") (JStr "")).
Proof.
  apply (round_trip_of_calls tester_calls (JStr "repo") (JStr "")).
  - vm_compute. reflexivity.
  - vm_compute. reflexivity.
Defined.

(** A [generate_tree] that registers the tester package. *)
Definition tester_tree : M unit :=
  add_category "app-test" (JDict ∅);; add_package tester tester_record.

Definition generated_tree : world :=
  (tester_tree (cleaned (with_repo_uri (JStr "repo") (self fresh_world)))).2.

Lemma generate_then_read_witness :
  ∃ w2,
    generate tester_tree (JStr "repo") fresh_world = (Return (), w2)
    ∧ self w2 = self generated_tree
    ∧ PackageDB_new (disk w2) (JStr "") (JStr "")
      = (Return (),
         World (disk w2)
           (Obj (repo_uri (self generated_tree)) (db_uri (self generated_tree)) empty_tree))
    ∧ read (World (disk w2)
              (Obj (repo_uri (self generated_tree)) (db_uri (self generated_tree)) empty_tree))
      = (Return (), w2).
Proof.
  apply (generate_then_read tester_tree (JStr "repo") fresh_world generated_tree
           {[ "app-test" := JDict ∅ ]}).
  - vm_compute. reflexivity.
  - vm_compute. reflexivity.
  - vm_compute. reflexivity.
  - vm_compute. reflexivity.
  - vm_compute. reflexivity.
  - vm_compute. reflexivity.
  - vm_compute. reflexivity.
  - vm_compute. reflexivity.
Defined.

Lemma empty_category_written_not_read_witness :
  ∃ w1 w2,
    write empty_category_world = (Return (), w1)
    ∧ disk w1 !! ["c"; PACKAGES_NAME] = Some (File (json_dump (JList [])))
    ∧ manifest w1 = (Return (), w2)
    ∧ ∀ s, ∃ c' w3,
        packages (db (self empty_category_world)) !! c' = Some ∅
        ∧ read (World (disk w2) s) = (Raise (Exception ("Empty category: " +:+ c')), w3)
        ∧ disk w3 = disk w2.
Proof.
  apply (empty_category_written_not_read {[ "c" := JDict ∅ ]} "c" empty_category_world).
  - vm_compute. reflexivity.
  - vm_compute. reflexivity.
  - vm_compute. reflexivity.
  - vm_compute. reflexivity.
  - vm_compute. reflexivity.
  - vm_compute. reflexivity.
Defined.

(** *** The manifest of the tester tree *)

Lemma plain_tree_check (d : gmap (list string) node) :
  forallb (λ e : list string * node, forallb plain_name e.1) (map_to_list d) = true →
  plain_tree d.
Proof.
  intros Hall q n Hq. rewrite forallb_forall in Hall.
  apply (Hall (q, n)), list_elem_of_In. by apply elem_of_map_to_list.
Qed.

Lemma manifest_lists_tracked_files_witness :
  ∃ m, manifest written_world
       = (Return (),
          World (<[[MANIFEST_NAME] := File (json_dump (JDict m))]> (disk written_world))
            (self written_world))
    ∧ recorded (disk written_world) (tracked {[ "app-test" := JDict ∅ ]}) m.
Proof.
  apply (manifest_lists_tracked_files written_world
           (content written_world [CATEGORIES_NAME]) {[ "app-test" := JDict ∅ ]}).
  - apply plain_tree_check. vm_compute. reflexivity.
  - vm_compute. reflexivity.
  - vm_compute. discriminate.
  - vm_compute. reflexivity.
  - vm_compute. reflexivity.
  - vm_compute. reflexivity.
  - vm_compute. reflexivity.
  - intros c [x [<- _]%lookup_singleton_Some]. split; vm_compute; reflexivity.
Defined.

(** A directory whose [categories.json] names a category [c] that has no
    directory. *)
Definition listed_only : world :=
  World (<[[CATEGORIES_NAME] := File (json_dump (JDict {[ "c" := JDict ∅ ]}))]>
           (<[[INFO_NAME] := File (json_dump (JDict ∅))]> (disk fresh_world)))
    (self fresh_world).

Lemma manifest_category_without_directory_witness :
  ∃ c', is_Some (({[ "c" := JDict ∅ ]} : gmap string json) !! c')
    ∧ is_dir (disk listed_only !! [c']) = false
    ∧ manifest listed_only = (Raise (Exception ("Empty category: " +:+ c')), listed_only).
Proof.
  apply (manifest_category_without_directory listed_only
           (json_dump (JDict {[ "c" := JDict ∅ ]})) {[ "c" := JDict ∅ ]} "c").
  - apply plain_tree_check. vm_compute. reflexivity.
  - vm_compute. reflexivity.
  - vm_compute. reflexivity.
  - vm_compute. reflexivity.
  - vm_compute. reflexivity.
  - vm_compute. reflexivity.
  - intros c [x [<- _]%lookup_singleton_Some]. vm_compute. reflexivity.
  - exists (JDict ∅). vm_compute. reflexivity.
  - vm_compute. reflexivity.
Defined.

(** An instance whose [categories] were given a category that [packages]
    does not have. *)
Definition lone_category : world :=
  World (disk fresh_world)
    (Obj (JStr "") (JStr "") (Tree (JDict ∅) (JDict {[ "c" := JDict ∅ ]}) ∅)).

Lemma write_category_without_packages_witness :
  ∃ c' w',
    is_Some (({[ "c" := JDict ∅ ]} : gmap string json) !! c')
    ∧ packages (db (self lone_category)) !! c' = None
    ∧ write lone_category = (Raise (Exception ("Empty category: " +:+ c')), w')
    ∧ self w' = self lone_category
    ∧ disk w' !! [INFO_NAME] = Some (File (json_dump (info (db (self lone_category)))))
    ∧ disk w' !! [CATEGORIES_NAME] = Some (File (json_dump (JDict {[ "c" := JDict ∅ ]}))).
Proof.
  apply (write_category_without_packages {[ "c" := JDict ∅ ]} "c" lone_category).
  - vm_compute. reflexivity.
  - vm_compute. reflexivity.
  - vm_compute. reflexivity.
  - exists (JDict ∅). vm_compute. reflexivity.
  - vm_compute. reflexivity.
Defined.

Lemma FileJSON_write_contract_witness :
  FileJSON_write
    {| directory := []; fpath := ["uri.json"]; mandatories := ["repo_uri"; "db_uri"] |}
    (JDict {[ "repo_uri" := JStr "r" ]}) fresh_world
  = (Raise KeyError, fresh_world).
Proof.
  destruct (FileJSON_write_contract [] "uri.json" ["repo_uri"; "db_uri"]
              {| directory := []; fpath := ["uri.json"];
                 mandatories := ["repo_uri"; "db_uri"] |} fresh_world) as [Hmissing _].
  - vm_compute. reflexivity.
  - apply (Hmissing {[ "repo_uri" := JStr "r" ]} "db_uri").
    + apply list_elem_of_further, list_elem_of_here.
    + vm_compute. reflexivity.
Defined.


(** *** [sync] from a remote tree without manifest *)



Lemma sync_raises_TypeError_witness :
  sync PackageDB_get_real_db_uri remote_without_manifest (JStr "") fresh_world
  = (Raise TypeError, cleaned (with_db_uri (JStr "") (self fresh_world))).
Proof.
  apply (sync_raises_TypeError remote_without_manifest (JStr "") fresh_world).
  vm_compute. reflexivity.
Defined.

End Runs.
